(** * Staff identity and access control: a shallow embedding

    This development embeds the staff backend (apps/staff-backend) in Rocq:
    the model layer [StaffModel] (SQL statements over the tables of the
    staff schema), the Express middleware ([authenticateStaff],
    [requirePermission], [requireAdmin], [optionalAuth], [logActivity]) and
    the mutating handlers of [StaffController].

    Modelling boundary.
    - The relational store is a record of row lists.  Each statement does
      what its SQL text says on rows: WHERE is a filter, SET a map, CASE a
      conditional on the old row, ON CONFLICT DO NOTHING a membership test,
      RETURNING the affected rows.  The BEFORE UPDATE trigger of the schema
      (updated_at := NOW()) and the ON DELETE CASCADE / SET NULL actions are
      applied.
    - Of the errors the store raises, two are part of the model: the
      statement of [getPermissions], which the schema's column types make
      the store refuse on every call, and the INSERT of the activity
      logger, which it refuses for values the request chooses
      ([Sql.log_accepted]).  For the other statements the conditions under
      which the store takes them (ids that are UUIDs as the store prints
      them, foreign and unique keys, column widths) are hypotheses of the
      statements that depend on them ([Sql.printed_uuid], [uuids_printed],
      [insert_allowed], [delete_allowed], [assign_allowed], [update_taken],
      [Sql.fits]); a lost connection is outside the model.  In particular
      [id = $1] is the comparison of two texts, which is the store's
      comparison when both are UUIDs in the printed form.
    - Timestamps are integers (milliseconds).  A request sees one reading of
      the JavaScript clock ([date_now], new Date()) and one of the store's
      clock ([sql_now], NOW()).
    - JSON values that the code only passes along are kept structured
      (records) instead of being serialised.  Strings are sequences of
      bytes (UTF-8), and the lengths zod tests are counted on them, which
      is zod's count for ASCII text; request bodies hold string fields or
      no field.
    - utils/auth (bcrypt and jsonwebtoken wrappers), zod's e-mail test and
      uuid generation are interfaces ([Externals]): the handlers are
      embedded against any implementation of them.
    - [st_calls] is a ghost trace of the calls a request makes to the model
      layer and to utils/auth, in program order; the code itself does not
      keep it.  It lets a statement say that a function was not invoked. *)

From Stdlib Require Import List String Ascii ZArith Bool Lia DecimalString.
Import ListNotations.

Local Open Scope string_scope.
Local Open Scope Z_scope.

(** ** JavaScript helpers *)

Module JS.

(** [s.split(sep)] for a one-character separator: never the empty array. *)
Fixpoint split (sep : ascii) (s : string) : list string :=
  match s with
  | EmptyString => [""]
  | String c r =>
      if Ascii.eqb c sep then "" :: split sep r
      else match split sep r with
           | h :: t => String c h :: t
           | [] => [String c ""]
           end
  end.

(** [xs.includes(x)] on an array of strings. *)
Definition includes (xs : list string) (x : string) : bool :=
  existsb (String.eqb x) xs.

(** [s.startsWith(p)]. *)
Definition startsWith (s p : string) : bool := String.prefix p s.

(** [s.substring(n)]. *)
Definition substring_from (n : nat) (s : string) : string :=
  String.substring n (String.length s - n) s.

(** [x || null] on a string: the empty string is falsy. *)
Definition or_null (x : option string) : option string :=
  match x with
  | Some s => if String.eqb s "" then None else Some s
  | None => None
  end.

(** [x || d] on a string. *)
Definition or_default (x : option string) (d : string) : string :=
  match or_null x with
  | Some s => s
  | None => d
  end.

(** Destructuring [const [a, b] = xs]: missing positions are undefined. *)
Definition destructure2 (xs : list string) : option string * option string :=
  (nth_error xs 0, nth_error xs 1).

End JS.

(** ** Data model *)

(** A row of table [staff] (schema: staff management database schema). *)
Record StaffRow := mkStaffRow {
  id : string;
  email : string;
  password_hash : string;
  first_name : string;
  last_name : string;
  phone : option string;
  department : option string;
  position : option string;
  employee_id : option string;
  status : string;
  is_super_admin : bool;
  last_login_at : option Z;
  password_changed_at : option Z;
  failed_login_attempts : Z;
  locked_until : option Z;
  created_at : Z;
  updated_at : Z;
  created_by : option string;
  updated_by : option string
}.

(** A row of table [staff_roles]. *)
Record RoleRow := mkRoleRow {
  role_id_ : string;
  role_name : string;
  role_description : option string;
  role_permissions : list string;
  is_system_role : bool
}.

(** A row of table [staff_role_assignments]. *)
Record AssignmentRow := mkAssignmentRow {
  sra_id : string;
  sra_staff_id : string;
  sra_role_id : string;
  sra_assigned_at : Z;
  sra_assigned_by : option string
}.

(** The [details] column of an activity log:
    JSON.stringify({ method, path, query }), kept structured. *)
Record LogDetails := mkLogDetails {
  d_method : string;
  d_path : string;
  d_query : list (string * string)
}.

(** A row of table [staff_activity_logs]. *)
Record ActivityLogRow := mkActivityLogRow {
  log_id : string;
  log_staff_id : option string;
  log_action : string;
  log_resource_type : option string;
  log_resource_id : option string;
  log_details : LogDetails;
  log_ip_address : option string;
  log_user_agent : option string;
  log_status : string;
  log_error_message : option string;
  log_timestamp : Z
}.

(** The store. *)
Record DB := mkDB {
  staff : list StaffRow;
  staff_roles : list RoleRow;
  staff_role_assignments : list AssignmentRow;
  staff_activity_logs : list ActivityLogRow
}.

(** [interface Staff] of staff.model.ts. *)
Record Staff := mkStaff {
  s_id : string;
  s_email : string;
  s_firstName : string;
  s_lastName : string;
  s_phone : option string;
  s_department : option string;
  s_position : option string;
  s_employeeId : option string;
  s_status : string;
  s_isSuperAdmin : bool;
  s_lastLoginAt : option Z;
  s_createdAt : Z;
  s_updatedAt : Z
}.

(** [Staff & { passwordHash; failedLoginAttempts; lockedUntil? }]. *)
Record StaffWithPassword := mkStaffWithPassword {
  sp_staff : Staff;
  passwordHash : string;
  failedLoginAttempts : Z;
  lockedUntil : option Z
}.

(** The token payload of utils/auth. *)
Record TokenPayload := mkTokenPayload {
  tp_staffId : string;
  tp_email : string;
  tp_isAdmin : bool;
  tp_permissions : list string
}.

(** [AuthRequest.staff]. *)
Record ReqStaff := mkReqStaff {
  rs_id : string;
  rs_email : string;
  rs_isAdmin : bool;
  rs_permissions : list string
}.

(** [req.body]: the fields the handlers read. *)
Record ReqBody := mkReqBody {
  b_email : option string;
  b_password : option string;
  b_firstName : option string;
  b_lastName : option string;
  b_phone : option string;
  b_department : option string;
  b_position : option string;
  b_employeeId : option string;
  b_status : option string;
  b_currentPassword : option string;
  b_newPassword : option string;
  b_roleId : option string
}.

(** [AuthRequest]. *)
Record Req := mkReq {
  headers_authorization : option string;
  headers_user_agent : option string;
  method : string;
  path : string;
  query_ : list (string * string);
  params_id : option string;
  params_roleId : option string;
  body : ReqBody;
  ip : option string;
  socket_remoteAddress : option string;
  req_staff : option ReqStaff
}.

(** The staff view returned by a successful login. *)
Record LoginStaffView := mkLoginStaffView {
  v_id : string;
  v_email : string;
  v_firstName : string;
  v_lastName : string;
  v_department : option string;
  v_position : option string;
  v_isSuperAdmin : bool
}.

(** [data] of a response body. *)
Inductive Data :=
| DataLogin (token : string) (view : LoginStaffView)
| DataStaff (s : Staff).

(** A JSON response body. *)
Record Body := mkBody {
  success : bool;
  error : option string;
  message : option string;
  details : option (list string);
  data : option Data
}.

Definition body_error (msg : string) : Body :=
  mkBody false (Some msg) None None None.

Definition body_error_details (msg : string) (ds : list string) : Body :=
  mkBody false (Some msg) None (Some ds) None.

Definition body_message (msg : string) : Body :=
  mkBody true None (Some msg) None None.

Definition body_data (d : Data) : Body :=
  mkBody true None None None (Some d).

(** The closure installed by [logActivity] over [res.json]. *)
Record JsonWrapper := mkJsonWrapper {
  jw_action : string;
  jw_resourceType : option string;
  jw_req : Req
}.

(** A callback queued with [setImmediate] by that closure. *)
Record Immediate := mkImmediate {
  im_wrapper : JsonWrapper;
  im_body : Body
}.

(** The Express response object. *)
Record Res := mkRes {
  statusCode : Z;
  sent : list Body;
  json_wrappers : list JsonWrapper
}.

Definition fresh_res : Res := mkRes 200 [] [].

(** Ghost trace of calls. *)
Inductive Call :=
| call_findById (i : string)
| call_findByEmail (e : string)
| call_findByEmailWithPassword (e : string)
| call_create (e : string)
| call_update (i : string)
| call_updatePassword (i : string)
| call_updateLastLogin (i : string)
| call_incrementFailedLogins (i : string)
| call_delete (i : string)
| call_assignRole (s r : string)
| call_removeRole (s r : string)
| call_getPermissions (i : string)
| call_hashPassword (pw : string)
| call_verifyPassword (pw h : string)
| call_validatePassword (pw : string)
| call_generateToken (p : TokenPayload)
| call_verifyToken (t : string).

(** The state a request runs in. *)
Record St := mkSt {
  st_db : DB;
  st_res : Res;
  st_immediates : list Immediate;
  st_calls : list Call;
  date_now : Z;
  sql_now : Z;
  uuid_count : nat
}.

(** ** Interfaces of code outside the repository's model and middleware *)

Class Externals := {
  (** utils/auth: bcrypt hash (the salt is the implementation's). *)
  hashPassword : string -> string;
  (** utils/auth: bcrypt compare. *)
  verifyPassword : string -> string -> bool;
  (** utils/auth: password policy, [{ valid, errors }]. *)
  validatePassword : string -> bool * list string;
  (** utils/auth: jwt sign. *)
  generateToken : TokenPayload -> string;
  (** utils/auth: jwt verify at the time of the request; [None] when it
      throws. *)
  verifyToken : string -> option TokenPayload;
  (** zod: [z.string().email()]. *)
  is_email : string -> bool;
  (** zod: the message of a ZodError with these issues. *)
  zod_message : list (string * string) -> string;
  (** uuid-ossp: the n-th value drawn from uuid_generate_v4(). *)
  uuid_generate_v4 : nat -> string
}.

(** ** The request monad: state and exceptions *)

Inductive Outcome (A : Type) :=
| Ok (a : A)
| Throw (msg : string).
Arguments Ok {A} a.
Arguments Throw {A} msg.

Definition M (A : Type) : Type := St -> Outcome A * St.

Definition ret {A} (a : A) : M A := fun st => (Ok a, st).

Definition bind {A B} (m : M A) (k : A -> M B) : M B :=
  fun st => match m st with
            | (Ok a, st') => k a st'
            | (Throw e, st') => (Throw e, st')
            end.

Definition throw {A} (msg : string) : M A := fun st => (Throw msg, st).

(** [try { m } catch (error) { h(error.message) }]. *)
Definition try_catch {A} (m : M A) (h : string -> M A) : M A :=
  fun st => match m st with
            | (Ok a, st') => (Ok a, st')
            | (Throw e, st') => h e st'
            end.

Definition get : M St := fun st => (Ok st, st).
Definition modify (f : St -> St) : M unit := fun st => (Ok tt, f st).

Declare Scope m_scope.
Delimit Scope m_scope with m.
Notation "x <- c1 ;; c2" := (bind c1 (fun x => c2))
  (at level 61, c1 at next level, right associativity) : m_scope.
Notation "c1 ;;; c2" := (bind c1 (fun _ => c2))
  (at level 61, right associativity) : m_scope.
Local Open Scope m_scope.

Definition set_db (d : DB) (st : St) : St :=
  mkSt d (st_res st) (st_immediates st) (st_calls st)
       (date_now st) (sql_now st) (uuid_count st).

Definition set_res (r : Res) (st : St) : St :=
  mkSt (st_db st) r (st_immediates st) (st_calls st)
       (date_now st) (sql_now st) (uuid_count st).

Definition set_immediates (q : list Immediate) (st : St) : St :=
  mkSt (st_db st) (st_res st) q (st_calls st)
       (date_now st) (sql_now st) (uuid_count st).

Definition record_call (c : Call) : M unit :=
  modify (fun st => mkSt (st_db st) (st_res st) (st_immediates st)
                         (st_calls st ++ [c])
                         (date_now st) (sql_now st) (uuid_count st)).

(** A value of uuid_generate_v4(), drawn by a column default. *)
Definition fresh_uuid `{Externals} : M string :=
  fun st => (Ok (uuid_generate_v4 (uuid_count st)),
             mkSt (st_db st) (st_res st) (st_immediates st) (st_calls st)
                  (date_now st) (sql_now st) (S (uuid_count st))).

(** ** The Express response *)

(** [res.status(code)]. *)
Definition res_status (code : Z) : M unit :=
  modify (fun st =>
    set_res (mkRes code (sent (st_res st)) (json_wrappers (st_res st))) st).

(** [res.json(body)]: every closure installed by [logActivity] queues its
    callback with setImmediate, outermost first, then Express sends. *)
Definition res_json (b : Body) : M unit :=
  modify (fun st =>
    let r := st_res st in
    set_immediates
      (st_immediates st ++ map (fun w => mkImmediate w b) (json_wrappers r))
      (set_res (mkRes (statusCode r) (sent r ++ [b]) (json_wrappers r)) st)).

(** What a middleware did: called [next()] or ended the request. *)
Inductive Flow :=
| Next (req : Req)
| End_.

(** ** middleware/auth.middleware.ts *)

(** The token of [Authorization: Bearer <token>], when the guard
    [!authHeader || !authHeader.startsWith('Bearer ')] lets it through. *)
Definition bearer_token (authHeader : option string) : option string :=
  match authHeader with
  | None => None
  | Some h =>
      if String.eqb h "" then None
      else if JS.startsWith h "Bearer " then Some (JS.substring_from 7 h)
      else None
  end.

Definition attach_staff (req : Req) (p : TokenPayload) : Req :=
  mkReq (headers_authorization req) (headers_user_agent req) (method req)
        (path req) (query_ req) (params_id req) (params_roleId req)
        (body req) (ip req) (socket_remoteAddress req)
        (Some (mkReqStaff (tp_staffId p) (tp_email p) (tp_isAdmin p)
                          (tp_permissions p))).

(** [requirePermission(permission)]. *)
Definition requirePermission (permission : string) (req : Req) : M Flow :=
  match req_staff req with
  | None =>
      res_status 401 ;;;
      res_json (body_error "Authentication required") ;;;
      ret End_
  | Some staff_ =>
      if JS.includes (rs_permissions staff_) "*" then ret (Next req)
      else if JS.includes (rs_permissions staff_) permission then ret (Next req)
      else
        let '(resource, action) := JS.destructure2 (JS.split ":" permission) in
        let wildcardPermission :=
          match resource with
          | Some r => r ++ ":*"
          | None => "undefined:*"
          end in
        if JS.includes (rs_permissions staff_) wildcardPermission
        then ret (Next req)
        else
          res_status 403 ;;;
          res_json (body_error "Insufficient permissions") ;;;
          ret End_
  end.

(** [requireAdmin]. *)
Definition requireAdmin (req : Req) : M Flow :=
  match req_staff req with
  | None =>
      res_status 401 ;;;
      res_json (body_error "Authentication required") ;;;
      ret End_
  | Some staff_ =>
      if negb (rs_isAdmin staff_) && negb (JS.includes (rs_permissions staff_) "*")
      then
        res_status 403 ;;;
        res_json (body_error "Admin access required") ;;;
        ret End_
      else ret (Next req)
  end.

(** ** config/database.ts and the SQL statements *)

Module Sql.

(** [WHERE id = $1], [WHERE email = $1]: equality of character strings. *)
Definition id_is (i : string) (r : StaffRow) : bool := String.eqb (id r) i.
Definition email_is (e : string) (r : StaffRow) : bool := String.eqb (email r) e.

(** The BEFORE UPDATE trigger [update_staff_updated_at]. *)
Definition touch (now : Z) (r : StaffRow) : StaffRow :=
  mkStaffRow (id r) (email r) (password_hash r) (first_name r) (last_name r)
    (phone r) (department r) (position r) (employee_id r) (status r)
    (is_super_admin r) (last_login_at r) (password_changed_at r)
    (failed_login_attempts r) (locked_until r) (created_at r) now
    (created_by r) (updated_by r).

(** [UPDATE staff SET ... WHERE ...]: the new rows of the table. *)
Definition update_rows (now : Z) (where_ : StaffRow -> bool)
    (set_ : StaffRow -> StaffRow) (rows : list StaffRow) : list StaffRow :=
  map (fun r => if where_ r then touch now (set_ r) else r) rows.

(** [... RETURNING ...]: the rows the statement changed, as changed. *)
Definition returning_rows (now : Z) (where_ : StaffRow -> bool)
    (set_ : StaffRow -> StaffRow) (rows : list StaffRow) : list StaffRow :=
  map (fun r => touch now (set_ r)) (filter where_ rows).

Definition with_staff (rows : list StaffRow) (d : DB) : DB :=
  mkDB rows (staff_roles d) (staff_role_assignments d) (staff_activity_logs d).

Definition with_assignments (rows : list AssignmentRow) (d : DB) : DB :=
  mkDB (staff d) (staff_roles d) rows (staff_activity_logs d).

Definition with_logs (rows : list ActivityLogRow) (d : DB) : DB :=
  mkDB (staff d) (staff_roles d) (staff_role_assignments d) rows.

(** [SET last_login_at = NOW(), failed_login_attempts = 0,
    locked_until = NULL]. *)
Definition set_last_login (now : Z) (r : StaffRow) : StaffRow :=
  mkStaffRow (id r) (email r) (password_hash r) (first_name r) (last_name r)
    (phone r) (department r) (position r) (employee_id r) (status r)
    (is_super_admin r) (Some now) (password_changed_at r)
    0 None (created_at r) (updated_at r)
    (created_by r) (updated_by r).

(** INTERVAL '30 minutes', in milliseconds. *)
Definition interval_30_minutes : Z := 30 * 60 * 1000.

(** [SET failed_login_attempts = failed_login_attempts + 1,
    locked_until = CASE WHEN failed_login_attempts >= 4
                        THEN NOW() + INTERVAL '30 minutes'
                        ELSE locked_until END]:
    both right-hand sides read the old row. *)
Definition set_failed_login (now : Z) (r : StaffRow) : StaffRow :=
  mkStaffRow (id r) (email r) (password_hash r) (first_name r) (last_name r)
    (phone r) (department r) (position r) (employee_id r) (status r)
    (is_super_admin r) (last_login_at r) (password_changed_at r)
    (failed_login_attempts r + 1)
    (if 4 <=? failed_login_attempts r
     then Some (now + interval_30_minutes)
     else locked_until r)
    (created_at r) (updated_at r)
    (created_by r) (updated_by r).

(** [SET password_hash = $1, password_changed_at = NOW()]. *)
Definition set_password (h : string) (now : Z) (r : StaffRow) : StaffRow :=
  mkStaffRow (id r) (email r) h (first_name r) (last_name r)
    (phone r) (department r) (position r) (employee_id r) (status r)
    (is_super_admin r) (last_login_at r) (Some now)
    (failed_login_attempts r) (locked_until r) (created_at r) (updated_at r)
    (created_by r) (updated_by r).

(** The SELECT list of [findById] and [findByEmail]. *)
Definition select_staff (r : StaffRow) : Staff :=
  mkStaff (id r) (email r) (first_name r) (last_name r) (phone r)
    (department r) (position r) (employee_id r) (status r)
    (is_super_admin r) (last_login_at r) (created_at r) (updated_at r).

(** The RETURNING list of [create] and [update]: no last_login_at. *)
Definition returning_staff (r : StaffRow) : Staff :=
  mkStaff (id r) (email r) (first_name r) (last_name r) (phone r)
    (department r) (position r) (employee_id r) (status r)
    (is_super_admin r) None (created_at r) (updated_at r).

(** The SELECT list of [findByEmailWithPassword]. *)
Definition select_staff_with_password (r : StaffRow) : StaffWithPassword :=
  mkStaffWithPassword (select_staff r) (password_hash r)
    (failed_login_attempts r) (locked_until r).

(** [ON DELETE SET NULL] of staff_activity_logs.staff_id. *)
Definition log_forget (i : string) (l : ActivityLogRow) : ActivityLogRow :=
  mkActivityLogRow (log_id l)
    (match log_staff_id l with
     | Some j => if String.eqb j i then None else Some j
     | None => None
     end)
    (log_action l) (log_resource_type l) (log_resource_id l)
    (log_details l) (log_ip_address l) (log_user_agent l) (log_status l)
    (log_error_message l) (log_timestamp l).

(** The conflict target of [ON CONFLICT (staff_id, role_id)]. *)
Definition same_assignment (s r : string) (a : AssignmentRow) : bool :=
  String.eqb (sra_staff_id a) s && String.eqb (sra_role_id a) r.

(** [DISTINCT]: first occurrences. *)
Fixpoint distinct (xs : list string) : list string :=
  match xs with
  | [] => []
  | x :: r => x :: filter (fun y => negb (String.eqb y x)) (distinct r)
  end.

(** *** What the store refuses

    Texts are UTF-8.  A text parameter with a NUL character is refused when
    it is bound, a text longer than its VARCHAR(n) column when it is stored,
    and a JSONB value with a NUL in one of its strings when it is read. *)

Definition no_nul (s : string) : bool :=
  negb (existsb (Ascii.eqb Ascii.zero) (list_ascii_of_string s)).

(** char_length: the bytes that do not continue a character. *)
Definition char_length (s : string) : nat :=
  List.length
    (filter (fun c => let n := nat_of_ascii c in
                      negb (Nat.leb 128 n && Nat.ltb n 192))
            (list_ascii_of_string s)).

(** A text that a VARCHAR(n) column takes. *)
Definition fits (n : nat) (s : string) : bool :=
  no_nul s && Nat.leb (char_length s) n.

Definition opt_ok (ok : string -> bool) (v : option string) : bool :=
  match v with
  | Some s => ok s
  | None => true
  end.

(** The store's message for [r.permissions::text[]] in the statement of
    [getPermissions]: the column [staff_roles.permissions] is JSONB, and
    there is no cast from JSONB to an array of text. *)
Definition cannot_cast : string := "cannot cast type jsonb to text[]".

(** *** Texts read as UUID

    The store reads a text bound to a UUID column digit by digit: sixteen
    bytes of two hexadecimal digits in either case, a hyphen allowed after
    each group of four digits, the whole optionally in braces.  It prints a
    UUID in lower case, as 8-4-4-4-12. *)

Definition hex_digit (c : ascii) : option ascii :=
  let n := nat_of_ascii c in
  if Nat.leb 48 n && Nat.leb n 57 then Some c
  else if Nat.leb 97 n && Nat.leb n 102 then Some c
  else if Nat.leb 65 n && Nat.leb n 70 then Some (ascii_of_nat (n + 32))
  else None.

(** [k] more bytes, the next one of index [i]: their digits in lower case
    and what follows them. *)
Fixpoint uuid_bytes (k i : nat) (s : string) : option (list ascii * string) :=
  match k with
  | O => Some ([], s)
  | S k' =>
      match s with
      | String a (String b rest) =>
          match hex_digit a, hex_digit b with
          | Some a', Some b' =>
              let rest' :=
                match rest with
                | String "-" after =>
                    if Nat.odd i && Nat.ltb i 15 then after else rest
                | _ => rest
                end in
              match uuid_bytes k' (S i) rest' with
              | Some (digits, tail) => Some (a' :: b' :: digits, tail)
              | None => None
              end
          | _, _ => None
          end
      | _ => None
      end
  end.

Definition uuid_out (digits : list ascii) : string :=
  string_of_list_ascii
    (firstn 8 digits ++ "-"%char :: firstn 4 (skipn 8 digits) ++
     "-"%char :: firstn 4 (skipn 12 digits) ++
     "-"%char :: firstn 4 (skipn 16 digits) ++
     "-"%char :: skipn 20 digits).

(** The UUID a text stands for, as the store prints it; [None] for a text
    the store refuses (invalid input syntax for type uuid). *)
Definition uuid_in (s : string) : option string :=
  let braces := match s with String "{" _ => true | _ => false end in
  let body := match s with String "{" r => r | _ => s end in
  match uuid_bytes 16 0 body with
  | Some (digits, tail) =>
      if String.eqb tail (if braces then "}" else "")
      then Some (uuid_out digits)
      else None
  | None => None
  end.

(** A text that is a UUID as the store prints it: what the rows, and the
    tokens signed from them, carry. *)
Definition printed_uuid (s : string) : bool :=
  match uuid_in s with
  | Some u => String.eqb u s
  | None => false
  end.

(** *** INSERT INTO staff_activity_logs

    The row is stored when [staff_id] is null or a UUID that is the id of
    a staff member (the column references staff(id)), [action], [resource_type] and
    [resource_id] fit their VARCHAR(100), VARCHAR(100) and VARCHAR(255)
    columns, the strings of [details] (JSONB) and the texts [user_agent]
    and [error_message] hold no NUL.  [ip_address] is the peer's address as
    the server reports it. *)

Definition details_ok (d : LogDetails) : bool :=
  no_nul (d_method d) && no_nul (d_path d)
  && forallb (fun kv => no_nul (fst kv) && no_nul (snd kv)) (d_query d).

Definition log_accepted (rows : list StaffRow) (l : ActivityLogRow) : bool :=
  opt_ok (fun i => printed_uuid i && existsb (id_is i) rows) (log_staff_id l)
  && fits 100 (log_action l)
  && opt_ok (fits 100) (log_resource_type l)
  && opt_ok (fits 255) (log_resource_id l)
  && details_ok (log_details l)
  && opt_ok no_nul (log_user_agent l)
  && opt_ok no_nul (log_error_message l).

End Sql.

(** ** models/staff.model.ts *)

(** The argument of [StaffModel.create]. *)
Record CreateData := mkCreateData {
  cd_email : string;
  cd_password : string;
  cd_firstName : string;
  cd_lastName : string;
  cd_phone : option string;
  cd_department : option string;
  cd_position : option string;
  cd_employeeId : option string;
  cd_createdBy : option string
}.

(** [StaffWithRoles]: a staff member with the selected columns of its
    roles. *)
Record RoleView := mkRoleView {
  rv_id : string;
  rv_name : string;
  rv_permissions : list string
}.

Record StaffWithRoles := mkStaffWithRoles {
  swr_staff : Staff;
  swr_roles : list RoleView
}.

(** The argument of [StaffModel.update]. *)
Record UpdateData := mkUpdateData {
  ud_firstName : option string;
  ud_lastName : option string;
  ud_phone : option string;
  ud_department : option string;
  ud_position : option string;
  ud_status : option string;
  ud_updatedBy : option string
}.

Module StaffModel.

Import Sql.

Definition db_staff : M (list StaffRow) :=
  fun st => (Ok (staff (st_db st)), st).

Definition set_staff_rows (rows : list StaffRow) : M unit :=
  modify (fun st => set_db (with_staff rows (st_db st)) st).

(** [findById(id)]. *)
Definition findById (i : string) : M (option Staff) :=
  record_call (call_findById i) ;;;
  rows <- db_staff ;;
  ret (hd_error (map select_staff (filter (id_is i) rows))).

(** [findByEmail(email)]. *)
Definition findByEmail (e : string) : M (option Staff) :=
  record_call (call_findByEmail e) ;;;
  rows <- db_staff ;;
  ret (hd_error (map select_staff (filter (email_is e) rows))).

(** [findByEmailWithPassword(email)]. *)
Definition findByEmailWithPassword (e : string) : M (option StaffWithPassword) :=
  record_call (call_findByEmailWithPassword e) ;;;
  rows <- db_staff ;;
  ret (hd_error (map select_staff_with_password (filter (email_is e) rows))).

(** [create(data)]. *)
Definition create `{Externals} (d : CreateData) : M Staff :=
  record_call (call_create (cd_email d)) ;;;
  record_call (call_hashPassword (cd_password d)) ;;;
  let passwordHash := hashPassword (cd_password d) in
  new_id <- fresh_uuid ;;
  st <- get ;;
  let now := sql_now st in
  let row := mkStaffRow new_id (cd_email d) passwordHash (cd_firstName d)
               (cd_lastName d) (cd_phone d) (cd_department d) (cd_position d)
               (cd_employeeId d) "active" false None None 0 None now now
               (cd_createdBy d) None in
  rows <- db_staff ;;
  set_staff_rows (rows ++ [row]) ;;;
  ret (returning_staff row).

(** The SET list [update] builds from the defined fields of [data]. *)
Definition set_fields (d : UpdateData) (r : StaffRow) : StaffRow :=
  let pick {A} (new : option A) (old : A) : A :=
    match new with Some v => v | None => old end in
  let pick_opt (new old : option string) : option string :=
    match new with Some v => Some v | None => old end in
  mkStaffRow (id r) (email r) (password_hash r)
    (pick (ud_firstName d) (first_name r))
    (pick (ud_lastName d) (last_name r))
    (pick_opt (ud_phone d) (phone r))
    (pick_opt (ud_department d) (department r))
    (pick_opt (ud_position d) (position r))
    (employee_id r)
    (pick (ud_status d) (status r))
    (is_super_admin r) (last_login_at r) (password_changed_at r)
    (failed_login_attempts r) (locked_until r) (created_at r) (updated_at r)
    (created_by r)
    (pick_opt (ud_updatedBy d) (updated_by r)).

(** [fields.length === 0]. *)
Definition no_fields (d : UpdateData) : bool :=
  match ud_firstName d, ud_lastName d, ud_phone d, ud_department d,
        ud_position d, ud_status d, ud_updatedBy d with
  | None, None, None, None, None, None, None => true
  | _, _, _, _, _, _, _ => false
  end.

(** [update(id, data)]. *)
Definition update (i : string) (d : UpdateData) : M (option Staff) :=
  record_call (call_update i) ;;;
  if no_fields d then findById i
  else
    st <- get ;;
    rows <- db_staff ;;
    set_staff_rows (update_rows (sql_now st) (id_is i) (set_fields d) rows) ;;;
    ret (hd_error (map returning_staff
           (returning_rows (sql_now st) (id_is i) (set_fields d) rows))).

(** [updatePassword(id, newPassword)]. *)
Definition updatePassword `{Externals} (i newPassword : string) : M unit :=
  record_call (call_updatePassword i) ;;;
  record_call (call_hashPassword newPassword) ;;;
  let passwordHash := hashPassword newPassword in
  st <- get ;;
  rows <- db_staff ;;
  set_staff_rows
    (update_rows (sql_now st) (id_is i)
                 (set_password passwordHash (sql_now st)) rows).

(** [updateLastLogin(id)]. *)
Definition updateLastLogin (i : string) : M unit :=
  record_call (call_updateLastLogin i) ;;;
  st <- get ;;
  rows <- db_staff ;;
  set_staff_rows
    (update_rows (sql_now st) (id_is i) (set_last_login (sql_now st)) rows).

(** [incrementFailedLogins(id)]. *)
Definition incrementFailedLogins (i : string) : M unit :=
  record_call (call_incrementFailedLogins i) ;;;
  st <- get ;;
  rows <- db_staff ;;
  set_staff_rows
    (update_rows (sql_now st) (id_is i) (set_failed_login (sql_now st)) rows).

(** [delete(id)]: DELETE FROM staff WHERE id = $1, with the schema's
    ON DELETE actions on the tables that reference staff(id). *)
Definition delete (i : string) : M unit :=
  record_call (call_delete i) ;;;
  modify (fun st =>
    let d := st_db st in
    set_db (mkDB (filter (fun r => negb (id_is i r)) (staff d))
                 (staff_roles d)
                 (filter (fun a => negb (String.eqb (sra_staff_id a) i))
                         (staff_role_assignments d))
                 (map (log_forget i) (staff_activity_logs d))) st).

(** [assignRole(staffId, roleId, assignedBy)]. *)
Definition assignRole `{Externals} (staffId roleId : string)
    (assignedBy : option string) : M unit :=
  record_call (call_assignRole staffId roleId) ;;;
  st <- get ;;
  let rows := staff_role_assignments (st_db st) in
  if existsb (same_assignment staffId roleId) rows then ret tt
  else
    new_id <- fresh_uuid ;;
    modify (fun st =>
      set_db (with_assignments
                (rows ++ [mkAssignmentRow new_id staffId roleId (sql_now st)
                                          assignedBy])
                (st_db st)) st).

(** [removeRole(staffId, roleId)]. *)
Definition removeRole (staffId roleId : string) : M unit :=
  record_call (call_removeRole staffId roleId) ;;;
  modify (fun st =>
    set_db (with_assignments
              (filter (fun a => negb (same_assignment staffId roleId a))
                      (staff_role_assignments (st_db st)))
              (st_db st)) st).

(** The rows of [staff_roles r JOIN staff_role_assignments sra
    ON sra.role_id = r.id WHERE sra.staff_id = $1]. *)
Definition roles_of (d : DB) (staffId : string) : list RoleRow :=
  flat_map (fun r =>
    map (fun _ => r)
        (filter (fun a => String.eqb (sra_role_id a) (role_id_ r)
                          && String.eqb (sra_staff_id a) staffId)
                (staff_role_assignments d)))
    (staff_roles d).

(** [getPermissions(staffId)]: SELECT DISTINCT
    unnest(r.permissions::text[]) over the join.  The schema declares
    [staff_roles.permissions] JSONB, which the store casts to no array: it
    refuses the statement whenever it is sent, and [query] rethrows. *)
Definition getPermissions (staffId : string) : M (list string) :=
  record_call (call_getPermissions staffId) ;;;
  throw cannot_cast.

(** The SELECT list [r.id, r.name, r.permissions]. *)
Definition role_view (r : RoleRow) : RoleView :=
  mkRoleView (role_id_ r) (role_name r) (role_permissions r).

(** [findByIdWithRoles(id)]. *)
Definition findByIdWithRoles (i : string) : M (option StaffWithRoles) :=
  staff_ <- findById i ;;
  match staff_ with
  | None => ret None
  | Some staff_ =>
      st <- get ;;
      ret (Some (mkStaffWithRoles staff_
                   (map role_view (roles_of (st_db st) i))))
  end.

End StaffModel.

(** ** middleware/auth.middleware.ts, continued *)

Definition call_verifyToken_ `{Externals} (token : string) : M TokenPayload :=
  record_call (call_verifyToken token) ;;;
  match verifyToken token with
  | Some payload => ret payload
  | None => throw "jwt malformed"
  end.

(** [authenticateStaff]. *)
Definition authenticateStaff `{Externals} (req : Req) : M Flow :=
  try_catch
    (match bearer_token (headers_authorization req) with
     | None =>
         res_status 401 ;;;
         res_json (body_error "No authentication token provided") ;;;
         ret End_
     | Some token =>
         try_catch
           (payload <- call_verifyToken_ token ;;
            staff_ <- StaffModel.findById (tp_staffId payload) ;;
            match staff_ with
            | None =>
                res_status 401 ;;;
                res_json (body_error "Staff member not found") ;;;
                ret End_
            | Some staff_ =>
                if negb (String.eqb (s_status staff_) "active") then
                  res_status 403 ;;;
                  res_json (body_error "Staff account is not active") ;;;
                  ret End_
                else ret (Next (attach_staff req payload))
            end)
           (fun _ =>
              res_status 401 ;;;
              res_json (body_error "Invalid or expired authentication token") ;;;
              ret End_)
     end)
    (fun _ =>
       res_status 500 ;;;
       res_json (body_error "Internal server error") ;;;
       ret End_).

(** [optionalAuth]. *)
Definition optionalAuth `{Externals} (req : Req) : M Flow :=
  match bearer_token (headers_authorization req) with
  | None => ret (Next req)
  | Some token =>
      try_catch
        (payload <- call_verifyToken_ token ;;
         staff_ <- StaffModel.findById (tp_staffId payload) ;;
         match staff_ with
         | Some staff_ =>
             if String.eqb (s_status staff_) "active"
             then ret (Next (attach_staff req payload))
             else ret (Next req)
         | None => ret (Next req)
         end)
        (fun _ => ret (Next req))
  end.

(** ** middleware/activity-logger.middleware.ts *)

(** [logActivity(action, resourceType)]: replaces [res.json] by a closure
    around the previous one and calls [next()]. *)
Definition logActivity (action : string) (resourceType : option string)
    (req : Req) : M Flow :=
  modify (fun st =>
    let r := st_res st in
    set_res (mkRes (statusCode r) (sent r)
                   (mkJsonWrapper action resourceType req :: json_wrappers r))
            st) ;;;
  ret (Next req).

(** The row the callback inserts; [res.statusCode] is read when it runs. *)
Definition activity_row (new_id : string) (code now : Z) (im : Immediate)
    : ActivityLogRow :=
  let w := im_wrapper im in
  let req := jw_req w in
  let staffId := JS.or_null (option_map rs_id (req_staff req)) in
  let resourceId := JS.or_null (params_id req) in
  let ipAddress :=
    match JS.or_null (ip req) with
    | Some a => Some a
    | None => socket_remoteAddress req
    end in
  let userAgent := headers_user_agent req in
  let status_ := if code <? 400 then "success" else "error" in
  let errorMessage := JS.or_null (error (im_body im)) in
  mkActivityLogRow new_id staffId (jw_action w) (jw_resourceType w) resourceId
    (mkLogDetails (method req) (path req) (query_ req))
    ipAddress userAgent status_ errorMessage now.

(** The body of the setImmediate callback: the INSERT, and a catch that
    only logs; an entry the store refuses is dropped. *)
Definition run_immediate `{Externals} (im : Immediate) : M unit :=
  try_catch
    (st <- get ;;
     if Sql.log_accepted (staff (st_db st))
          (activity_row "" (statusCode (st_res st)) (sql_now st) im)
     then
       new_id <- fresh_uuid ;;
       modify (fun st =>
         let d := st_db st in
         set_db (Sql.with_logs
                   (staff_activity_logs d ++
                      [activity_row new_id (statusCode (st_res st))
                                    (sql_now st) im])
                   d) st)
     else throw "refused by the store")
    (fun _ => ret tt).

Fixpoint run_immediates `{Externals} (q : list Immediate) : M unit :=
  match q with
  | [] => ret tt
  | im :: r => run_immediate im ;;; run_immediates r
  end.

(** The check phase of the event loop after the handler has responded:
    the queued callbacks run in the order they were queued. *)
Definition drain_immediates `{Externals} : M unit :=
  st <- get ;;
  modify (set_immediates []) ;;;
  run_immediates (st_immediates st).

(** ** utils/validators.ts *)

Module Validators.

Definition Issue : Type := string * string.

(** A required [z.string()] with its checks, each with its message. *)
(** A check of a string schema: the test and the message of its issue,
    which may quote the value. *)
Definition Rule : Type := (string -> bool) * (string -> string).

Definition required (field : string) (v : option string)
    (checks : list Rule) : list Issue :=
  match v with
  | None => [(field, "Required")]
  | Some s =>
      flat_map (fun c : Rule => if fst c s then [] else [(field, snd c s)])
               checks
  end.

(** A message given in the schema. *)
Definition msg (m : string) : string -> string := fun _ => m.

(** zod's own messages, where the schema gives none. *)
Definition too_big_100 : string -> string :=
  msg "String must contain at most 100 character(s)".
Definition too_small_1 : string -> string :=
  msg "String must contain at least 1 character(s)".
Definition invalid_status (received : string) : string :=
  "Invalid enum value. Expected 'active' | 'inactive' | 'suspended', received '"
  ++ received ++ "'".

(** [z.string()...optional()]. *)
Definition optional (field : string) (v : option string)
    (checks : list Rule) : list Issue :=
  match v with
  | None => []
  | Some _ => required field v checks
  end.

Definition min (n : nat) (s : string) : bool := Nat.leb n (String.length s).
Definition max (n : nat) (s : string) : bool := Nat.leb (String.length s) n.

Definition parsed {A} `{Externals} (issues : list Issue) (a : A) : M A :=
  match issues with
  | [] => ret a
  | _ :: _ => throw (zod_message issues)
  end.

Definition get_ (v : option string) : string :=
  match v with Some s => s | None => "" end.

(** [loginSchema]. *)
Record LoginInput := mkLoginInput { li_email : string; li_password : string }.

Definition loginSchema_issues `{Externals} (b : ReqBody) : list Issue :=
  required "email" (b_email b) [(is_email, msg "Invalid email address")] ++
  required "password" (b_password b) [(min 1, msg "Password is required")].

Definition loginSchema_parse `{Externals} (b : ReqBody) : M LoginInput :=
  parsed (loginSchema_issues b)
         (mkLoginInput (get_ (b_email b)) (get_ (b_password b))).

(** [createStaffSchema]. *)
Definition createStaffSchema_issues `{Externals} (b : ReqBody) : list Issue :=
  required "email" (b_email b) [(is_email, msg "Invalid email address")] ++
  required "password" (b_password b)
    [(min 8, msg "Password must be at least 8 characters")] ++
  required "firstName" (b_firstName b)
    [(min 1, msg "First name is required"); (max 100, too_big_100)] ++
  required "lastName" (b_lastName b)
    [(min 1, msg "Last name is required"); (max 100, too_big_100)] ++
  optional "phone" (b_phone b) [] ++
  optional "department" (b_department b) [] ++
  optional "position" (b_position b) [] ++
  optional "employeeId" (b_employeeId b) [].

(** The parsed object, spread with [createdBy]. *)
Definition createStaffSchema_parse `{Externals} (b : ReqBody)
    : M (option string -> CreateData) :=
  parsed (createStaffSchema_issues b)
         (mkCreateData (get_ (b_email b)) (get_ (b_password b))
            (get_ (b_firstName b)) (get_ (b_lastName b)) (b_phone b)
            (b_department b) (b_position b) (b_employeeId b)).

Definition is_status (s : string) : bool :=
  String.eqb s "active" || String.eqb s "inactive" || String.eqb s "suspended".

(** [updateStaffSchema]. *)
Definition updateStaffSchema_issues (b : ReqBody) : list Issue :=
  optional "firstName" (b_firstName b)
    [(min 1, too_small_1); (max 100, too_big_100)] ++
  optional "lastName" (b_lastName b)
    [(min 1, too_small_1); (max 100, too_big_100)] ++
  optional "phone" (b_phone b) [] ++
  optional "department" (b_department b) [] ++
  optional "position" (b_position b) [] ++
  optional "status" (b_status b) [(is_status, invalid_status)].

(** The parsed object, spread with [updatedBy]. *)
Definition updateStaffSchema_parse `{Externals} (b : ReqBody)
    : M (option string -> UpdateData) :=
  parsed (updateStaffSchema_issues b)
         (mkUpdateData (b_firstName b) (b_lastName b) (b_phone b)
            (b_department b) (b_position b) (b_status b)).

(** [changePasswordSchema]. *)
Record ChangePasswordInput := mkChangePasswordInput {
  cp_currentPassword : string;
  cp_newPassword : string
}.

Definition changePasswordSchema_issues (b : ReqBody) : list Issue :=
  required "currentPassword" (b_currentPassword b)
    [(min 1, msg "Current password is required")] ++
  required "newPassword" (b_newPassword b)
    [(min 8, msg "New password must be at least 8 characters")].

Definition changePasswordSchema_parse `{Externals} (b : ReqBody)
    : M ChangePasswordInput :=
  parsed (changePasswordSchema_issues b)
         (mkChangePasswordInput (get_ (b_currentPassword b))
                                (get_ (b_newPassword b))).

End Validators.

(** ** controllers/staff.controller.ts: login and the mutating handlers *)

Module StaffController.

(** [req.staff!]: reading a property of undefined throws a TypeError. *)
Definition req_staff_bang (req : Req) : M ReqStaff :=
  match req_staff req with
  | Some s => ret s
  | None => throw "Cannot read properties of undefined (reading 'id')"
  end.

(** [req.params.id], bound by the router on the [/:id] routes; these
    handlers are mounted on no other route. *)
Definition param (p : option string) : string :=
  match p with Some i => i | None => "" end.

(** [staff.lockedUntil && new Date(staff.lockedUntil) > new Date()]. *)
Definition is_locked (lockedUntil_ : option Z) (now : Z) : bool :=
  match lockedUntil_ with
  | Some t => now <? t
  | None => false
  end.

Definition call_verifyPassword_ `{Externals} (pw h : string) : M bool :=
  record_call (call_verifyPassword pw h) ;;;
  ret (verifyPassword pw h).

Definition call_validatePassword_ `{Externals} (pw : string)
    : M (bool * list string) :=
  record_call (call_validatePassword pw) ;;;
  ret (validatePassword pw).

Definition call_generateToken_ `{Externals} (p : TokenPayload) : M string :=
  record_call (call_generateToken p) ;;;
  ret (generateToken p).

Definition login_view (s : Staff) : LoginStaffView :=
  mkLoginStaffView (s_id s) (s_email s) (s_firstName s) (s_lastName s)
    (s_department s) (s_position s) (s_isSuperAdmin s).

(** [login]. *)
Definition login `{Externals} (req : Req) : M unit :=
  try_catch
    (validated <- Validators.loginSchema_parse (body req) ;;
     staff_ <- StaffModel.findByEmailWithPassword (Validators.li_email validated) ;;
     match staff_ with
     | None =>
         res_status 401 ;;;
         res_json (body_error "Invalid email or password")
     | Some staff_ =>
         st <- get ;;
         if is_locked (lockedUntil staff_) (date_now st) then
           res_status 403 ;;;
           res_json (body_error
             "Account is temporarily locked due to multiple failed login attempts")
         else if negb (String.eqb (s_status (sp_staff staff_)) "active") then
           res_status 403 ;;;
           res_json (body_error "Account is not active")
         else
           isValidPassword <-
             call_verifyPassword_ (Validators.li_password validated)
                                  (passwordHash staff_) ;;
           if negb isValidPassword then
             StaffModel.incrementFailedLogins (s_id (sp_staff staff_)) ;;;
             res_status 401 ;;;
             res_json (body_error "Invalid email or password")
           else
             permissions <- StaffModel.getPermissions (s_id (sp_staff staff_)) ;;
             StaffModel.updateLastLogin (s_id (sp_staff staff_)) ;;;
             token <- call_generateToken_
                        (mkTokenPayload
                           (s_id (sp_staff staff_))
                           (s_email (sp_staff staff_))
                           (s_isSuperAdmin (sp_staff staff_)
                            || JS.includes permissions "*")
                           permissions) ;;
             res_json (body_data (DataLogin token (login_view (sp_staff staff_))))
     end)
    (fun msg =>
       res_status 400 ;;;
       res_json (body_error (JS.or_default (Some msg) "Login failed"))).

(** [create]. *)
Definition create `{Externals} (req : Req) : M unit :=
  try_catch
    (validated <- Validators.createStaffSchema_parse (body req) ;;
     passwordValidation <-
       call_validatePassword_ (cd_password (validated None)) ;;
     if negb (fst passwordValidation) then
       res_status 400 ;;;
       res_json (body_error_details "Password does not meet requirements"
                                    (snd passwordValidation))
     else
       existingStaff <- StaffModel.findByEmail (cd_email (validated None)) ;;
       match existingStaff with
       | Some _ =>
           res_status 409 ;;;
           res_json (body_error "Email already in use")
       | None =>
           caller <- req_staff_bang req ;;
           staff_ <- StaffModel.create (validated (Some (rs_id caller))) ;;
           res_status 201 ;;;
           res_json (body_data (DataStaff staff_))
       end)
    (fun msg =>
       res_status 400 ;;;
       res_json (body_error (JS.or_default (Some msg)
                                           "Failed to create staff member"))).

(** [update]. *)
Definition update `{Externals} (req : Req) : M unit :=
  try_catch
    (let i := param (params_id req) in
     validated <- Validators.updateStaffSchema_parse (body req) ;;
     caller <- req_staff_bang req ;;
     staff_ <- StaffModel.update i (validated (Some (rs_id caller))) ;;
     match staff_ with
     | None =>
         res_status 404 ;;;
         res_json (body_error "Staff member not found")
     | Some staff_ => res_json (body_data (DataStaff staff_))
     end)
    (fun msg =>
       res_status 400 ;;;
       res_json (body_error (JS.or_default (Some msg)
                                           "Failed to update staff member"))).

(** [delete]. *)
Definition delete (req : Req) : M unit :=
  try_catch
    (let i := param (params_id req) in
     caller <- req_staff_bang req ;;
     (* Prevent self-deletion *)
     if String.eqb i (rs_id caller) then
       res_status 400 ;;;
       res_json (body_error "Cannot delete your own account")
     else
       staff_ <- StaffModel.findById i ;;
       match staff_ with
       | None =>
           res_status 404 ;;;
           res_json (body_error "Staff member not found")
       | Some _ =>
           StaffModel.delete i ;;;
           res_json (body_message "Staff member deleted successfully")
       end)
    (fun _ =>
       res_status 500 ;;;
       res_json (body_error "Failed to delete staff member")).

(** [changePassword]. *)
Definition changePassword `{Externals} (req : Req) : M unit :=
  try_catch
    (validated <- Validators.changePasswordSchema_parse (body req) ;;
     caller <- req_staff_bang req ;;
     let staffId := rs_id caller in
     staff_ <- StaffModel.findByEmailWithPassword (rs_email caller) ;;
     match staff_ with
     | None =>
         res_status 404 ;;;
         res_json (body_error "Staff member not found")
     | Some staff_ =>
         isValidPassword <-
           call_verifyPassword_ (Validators.cp_currentPassword validated)
                                (passwordHash staff_) ;;
         if negb isValidPassword then
           res_status 401 ;;;
           res_json (body_error "Current password is incorrect")
         else
           passwordValidation <-
             call_validatePassword_ (Validators.cp_newPassword validated) ;;
           if negb (fst passwordValidation) then
             res_status 400 ;;;
             res_json (body_error_details
                         "New password does not meet requirements"
                         (snd passwordValidation))
           else
             StaffModel.updatePassword staffId
               (Validators.cp_newPassword validated) ;;;
             res_json (body_message "Password changed successfully")
     end)
    (fun msg =>
       res_status 400 ;;;
       res_json (body_error (JS.or_default (Some msg)
                                           "Failed to change password"))).

(** [assignRole]. *)
Definition assignRole `{Externals} (req : Req) : M unit :=
  try_catch
    (let i := param (params_id req) in
     match JS.or_null (b_roleId (body req)) with
     | None =>
         res_status 400 ;;;
         res_json (body_error "Role ID is required")
     | Some roleId =>
         staff_ <- StaffModel.findById i ;;
         match staff_ with
         | None =>
             res_status 404 ;;;
             res_json (body_error "Staff member not found")
         | Some _ =>
             caller <- req_staff_bang req ;;
             StaffModel.assignRole i roleId (Some (rs_id caller)) ;;;
             res_json (body_message "Role assigned successfully")
         end
     end)
    (fun _ =>
       res_status 500 ;;;
       res_json (body_error "Failed to assign role")).

(** [removeRole]. *)
Definition removeRole (req : Req) : M unit :=
  try_catch
    (let i := param (params_id req) in
     let roleId := param (params_roleId req) in
     staff_ <- StaffModel.findById i ;;
     match staff_ with
     | None =>
         res_status 404 ;;;
         res_json (body_error "Staff member not found")
     | Some _ =>
         StaffModel.removeRole i roleId ;;;
         res_json (body_message "Role removed successfully")
     end)
    (fun _ =>
       res_status 500 ;;;
       res_json (body_error "Failed to remove role")).

End StaffController.

(** ** routes/staff.routes.ts: login and the mutating routes *)

Definition Middleware : Type := Req -> M Flow.
Definition Handler : Type := Req -> M unit.

(** Express runs the next layer when a middleware calls [next()]. *)
Fixpoint run_chain (ms : list Middleware) (h : Handler) (req : Req) : M unit :=
  match ms with
  | [] => h req
  | m :: r =>
      f <- m req ;;
      match f with
      | Next req' => run_chain r h req'
      | End_ => ret tt
      end
  end.

(** The layers in front of a handler, on their own: the request the last
    of them passes on, or [End_] when one of them answered. *)
Fixpoint run_guards (ms : list Middleware) (req : Req) : M Flow :=
  match ms with
  | [] => ret (Next req)
  | m :: r =>
      f <- m req ;;
      match f with
      | Next req' => run_guards r req'
      | End_ => ret End_
      end
  end.

Module Routes.

Inductive Route :=
| post_login
| put_profile_password
| post_staff
| put_staff_id
| delete_staff_id
| post_staff_id_roles
| delete_staff_id_roles_roleId.

(** [router.use(authenticateStaff)] stands after the login route. *)
Definition is_public (r : Route) : bool :=
  match r with post_login => true | _ => false end.

(** The argument of [requirePermission] on the route, if any. *)
Definition permission (r : Route) : option string :=
  match r with
  | post_login | put_profile_password => None
  | post_staff => Some "staff:create"
  | put_staff_id => Some "staff:update"
  | delete_staff_id => Some "staff:delete"
  | post_staff_id_roles => Some "staff:update"
  | delete_staff_id_roles_roleId => Some "staff:update"
  end.

(** The arguments of [logActivity(action, resourceType)] on the route. *)
Definition action (r : Route) : string :=
  match r with
  | post_login => "staff.login"
  | put_profile_password => "staff.profile.password"
  | post_staff => "staff.create"
  | put_staff_id => "staff.update"
  | delete_staff_id => "staff.delete"
  | post_staff_id_roles => "staff.role.assign"
  | delete_staff_id_roles_roleId => "staff.role.remove"
  end.

Definition resourceType (r : Route) : option string :=
  match r with
  | post_login | put_profile_password => None
  | _ => Some "staff"
  end.

Definition logger (r : Route) : Middleware :=
  logActivity (action r) (resourceType r).

Definition handler `{Externals} (r : Route) : Handler :=
  match r with
  | post_login => StaffController.login
  | put_profile_password => StaffController.changePassword
  | post_staff => StaffController.create
  | put_staff_id => StaffController.update
  | delete_staff_id => StaffController.delete
  | post_staff_id_roles => StaffController.assignRole
  | delete_staff_id_roles_roleId => StaffController.removeRole
  end.

(** The layers in front of the logger. *)
Definition guards `{Externals} (r : Route) : list Middleware :=
  (if is_public r then [] else [authenticateStaff]) ++
  match permission r with
  | Some p => [requirePermission p]
  | None => []
  end.

(** The wrapped handler: the logger layer, the handler, then the
    callbacks queued for the event loop's check phase. *)
Definition logged `{Externals} (r : Route) (req : Req) : M unit :=
  run_chain [logger r] (handler r) req ;;;
  drain_immediates.

(** A request on the route, from its first layer. *)
Definition dispatch `{Externals} (r : Route) (req : Req) : M unit :=
  run_chain (guards r ++ [logger r]) (handler r) req ;;;
  drain_immediates.

End Routes.

(** ** Running a request *)

(** The state a request starts in: a fresh response, nothing queued. *)
Definition request_state (d : DB) (date sql : Z) (n : nat) : St :=
  mkSt d fresh_res [] [] date sql n.

(** The state of a later request on the store an earlier one left. *)
Definition next_request (st : St) (date sql : Z) : St :=
  request_state (st_db st) date sql (uuid_count st).

(** The run of the logger-wrapped handler of a route on a new request. *)
Definition serve_logged `{Externals} (route : Routes.Route) (req : Req)
    (d : DB) (date sql : Z) (n : nat) : Outcome unit * St :=
  Routes.logged route req (request_state d date sql n).

(** The run of a request through all the layers of its route. *)
Definition serve `{Externals} (route : Routes.Route) (req : Req)
    (d : DB) (date sql : Z) (n : nat) : Outcome unit * St :=
  Routes.dispatch route req (request_state d date sql n).

(** [res.status(code).json(b)], and [res.json(b)] alone. *)
Definition respond (code : Z) (b : Body) : M unit :=
  res_status code ;;; res_json b.

Definition after_respond (code : Z) (b : Body) (st : St) : St :=
  snd (respond code b st).

Definition after_json (b : Body) (st : St) : St := snd (res_json b st).

Definition add_calls (cs : list Call) (st : St) : St :=
  mkSt (st_db st) (st_res st) (st_immediates st) (st_calls st ++ cs)
       (date_now st) (sql_now st) (uuid_count st).

(** What the client sees of a response: status code and bodies sent. *)
Definition response_of (st : St) : Z * list Body :=
  (statusCode (st_res st), sent (st_res st)).

(** ** Vocabulary of the statements *)

(** *** Permissions *)

(** No colon in a string: it is what stands before the first colon of
    [resource ++ ":" ++ action]. *)
Fixpoint no_colon (s : string) : bool :=
  match s with
  | EmptyString => true
  | String c r => negb (Ascii.eqb c ":") && no_colon r
  end.

(** [requirePermission(permission)] lets every authenticated request with
    this permission set through, unchanged. *)
Definition grants (permission : string) (perms : list string) : Prop :=
  forall (req : Req) (st : St) (s : ReqStaff),
    req_staff req = Some s -> rs_permissions s = perms ->
    requirePermission permission req st = (Ok (Next req), st).

(** [requirePermission(permission)] answers every authenticated request
    with this permission set by 403 Insufficient permissions. *)
Definition denies (permission : string) (perms : list string) : Prop :=
  forall (req : Req) (st : St) (s : ReqStaff),
    req_staff req = Some s -> rs_permissions s = perms ->
    requirePermission permission req st =
      (Ok End_, after_respond 403 (body_error "Insufficient permissions") st).

(** The three tiers of the match. *)
Definition three_tier (resource action : string) (perms : list string) : Prop :=
  In "*" perms \/
  In (resource ++ ":" ++ action) perms \/
  In (resource ++ ":*") perms.

(** *** Accounts and login *)

(** The row [findByEmail] and [findByEmailWithPassword] select. *)
Definition stored_by_email (d : DB) (e : string) : option StaffRow :=
  hd_error (filter (Sql.email_is e) (staff d)).

(** The row [findById] selects. *)
Definition stored_by_id (d : DB) (i : string) : option StaffRow :=
  hd_error (filter (Sql.id_is i) (staff d)).

(** The e-mail and password a login request carries. *)
Definition login_email (req : Req) : string :=
  Validators.get_ (b_email (body req)).

Definition login_password (req : Req) : string :=
  Validators.get_ (b_password (body req)).

(** The request body passes [loginSchema]. *)
Definition valid_login `{Externals} (req : Req) : Prop :=
  Validators.loginSchema_issues (body req) = [].

(** The client-facing rejections of [login]. *)
Definition invalid_credentials : Body := body_error "Invalid email or password".

Definition account_locked : Body :=
  body_error "Account is temporarily locked due to multiple failed login attempts".

Definition account_not_active : Body := body_error "Account is not active".

(** The store after [incrementFailedLogins(i)] and after
    [updateLastLogin(i)] at store time [now]. *)
Definition failed_attempt_db (d : DB) (i : string) (now : Z) : DB :=
  Sql.with_staff
    (Sql.update_rows now (Sql.id_is i) (Sql.set_failed_login now) (staff d)) d.

(** The permissions listed by the roles that the store assigns to a staff
    member, each once. *)
Definition permissions_of (d : DB) (i : string) : list string :=
  Sql.distinct (flat_map role_permissions (StaffModel.roles_of d i)).

(** The answer of [login] when a statement of the store raises. *)
Definition login_failed (msg : string) : Body :=
  body_error (JS.or_default (Some msg) "Login failed").

(** *** Counters *)

(** Every stored counter is a count. *)
Definition counters_nonneg (d : DB) : Prop :=
  forall r, In r (staff d) -> 0 <= failed_login_attempts r.

(** A row of [d'] with counter 0 stands for a row of [d] with the same id
    whose counter was already 0, unless [P] holds of it. *)
Definition zero_provenance (P : StaffRow -> Prop) (d d' : DB) : Prop :=
  forall r', In r' (staff d') -> failed_login_attempts r' = 0 ->
    (exists r, In r (staff d) /\ id r = id r' /\ failed_login_attempts r = 0)
    \/ P r'.

(** What may put a 0 in a counter during a request on a route: the row
    inserted by POST /staff. *)
Definition may_zero `{Externals} (route : Routes.Route) (st : St)
    (r' : StaffRow) : Prop :=
  route = Routes.post_staff /\ id r' = uuid_generate_v4 (uuid_count st).

(** *** Handlers and middleware *)

(** The handler answered once: one [res.json(b)] with status [code], every
    installed logger closure queued once with that body. *)
Definition answered_once (code : Z) (b : Body) (st st' : St) : Prop :=
  st_res st' =
    mkRes code (sent (st_res st) ++ [b]) (json_wrappers (st_res st)) /\
  st_immediates st' =
    (st_immediates st ++
       map (fun w => mkImmediate w b) (json_wrappers (st_res st)))%list /\
  date_now st' = date_now st /\
  sql_now st' = sql_now st.

(** A middleware ended the request with [res.status(code).json({ success:
    false, error: msg })] and left the store alone. *)
Definition rejects (code : Z) (msg : string) (st : St) (x : Outcome Flow * St)
    : Prop :=
  fst x = Ok End_ /\
  st_res (snd x) =
    mkRes code (sent (st_res st) ++ [body_error msg]) (json_wrappers (st_res st)) /\
  st_db (snd x) = st_db st.

(** A middleware called [next()] with this request, response untouched. *)
Definition passes (req' : Req) (st : St) (x : Outcome Flow * St) : Prop :=
  fst x = Ok (Next req') /\
  st_res (snd x) = st_res st /\
  st_db (snd x) = st_db st.

(** A guard let the request through: [next()] was called with [req'], the
    response and the store are as they were. *)
Definition let_through (req' : Req) (st : St) (x : Outcome Flow * St) : Prop :=
  fst x = Ok (Next req') /\
  st_res (snd x) = st_res st /\
  st_immediates (snd x) = st_immediates st /\
  st_db (snd x) = st_db st /\
  date_now (snd x) = date_now st /\
  sql_now (snd x) = sql_now st.

(** A guard answered the request itself, with 401 or 403 and an error
    message, and left the store as it was. *)
Definition turned_away (st : St) (x : Outcome Flow * St) : Prop :=
  fst x = Ok End_ /\
  st_db (snd x) = st_db st /\
  exists (code : Z) (msg : string),
    (code = 401 \/ code = 403) /\
    answered_once code (body_error msg) st (snd x).

(** The state in which the handler of a route runs once the logger of
    the route has wrapped [res.json]. *)
Definition wrapped (route : Routes.Route) (req : Req) (st : St) : St :=
  snd (Routes.logger route req st).

(** The statement that every call to an endpoint of the router leaves
    exactly one entry more in the activity log, with the outcome of the
    response and the request's method, path and query. *)
Definition every_call_logged : Prop :=
  forall (E : Externals) (route : Routes.Route) (req : Req) (d : DB)
         (date sql : Z) (n : nat),
    exists (old' : list ActivityLogRow) (entry : ActivityLogRow),
      staff_activity_logs (st_db (snd (serve route req d date sql n)))
        = (old' ++ [entry])%list /\
      map log_id old' = map log_id (staff_activity_logs d) /\
      log_status entry =
        (if statusCode (st_res (snd (serve route req d date sql n))) <? 400
         then "success" else "error") /\
      log_details entry = mkLogDetails (method req) (path req) (query_ req).

(** The cases [authenticateStaff] distinguishes: no bearer token in the
    request; a token that does not verify; a token that verifies to
    [payload], the lookup of whose staff id gives [found]. *)
Definition no_token (req : Req) : Prop :=
  bearer_token (headers_authorization req) = None.

Definition bad_token `{Externals} (req : Req) : Prop :=
  exists token,
    bearer_token (headers_authorization req) = Some token /\
    verifyToken token = None.

Definition token_account `{Externals} (req : Req) (st : St)
    (payload : TokenPayload) (found : option StaffRow) : Prop :=
  exists token,
    bearer_token (headers_authorization req) = Some token /\
    verifyToken token = Some payload /\
    stored_by_id (st_db st) (tp_staffId payload) = found.

(** The request that the layers in front of the logger pass on: the
    request itself on the login route, which has none; on the other routes
    the request with the identity of its token's payload attached, the
    token verifying and naming a stored, active account. *)
Definition passed_on `{Externals} (route : Routes.Route) (req : Req) (st : St)
    (req' : Req) : Prop :=
  (Routes.is_public route = true -> req' = req) /\
  (Routes.is_public route = false ->
   exists (payload : TokenPayload) (r : StaffRow),
     token_account req st payload (Some r) /\
     status r = "active" /\
     req' = attach_staff req payload).

(** *** Lookup by e-mail *)

(** Lower-casing of the letters A..Z. *)
Definition lower_ascii (c : ascii) : ascii :=
  let n := nat_of_ascii c in
  if (Nat.leb 65 n && Nat.leb n 90)%bool then ascii_of_nat (n + 32) else c.

Fixpoint lower (s : string) : string :=
  match s with
  | EmptyString => EmptyString
  | String c r => String (lower_ascii c) (lower r)
  end.

(** Two strings differ at most in letter case. *)
Definition same_up_to_case (a b : string) : Prop := lower a = lower b.

(** The statement that lookup by e-mail is case-insensitive: a query that
    differs from a stored account's e-mail only in letter case finds that
    account, through [findByEmail] and through [findByEmailWithPassword]
    (e-mails being unique in the table). *)
Definition email_lookup_case_insensitive : Prop :=
  forall (st : St) (r : StaffRow) (q : string),
    In r (staff (st_db st)) ->
    NoDup (map email (staff (st_db st))) ->
    same_up_to_case q (email r) ->
    fst (StaffModel.findByEmail q st) = Ok (Some (Sql.select_staff r)) /\
    fst (StaffModel.findByEmailWithPassword q st)
      = Ok (Some (Sql.select_staff_with_password r)).

(** *** Role assignments *)

(** The number of rows of staff_role_assignments for a (staff, role) pair. *)
Definition count_assignments (d : DB) (s r : string) : nat :=
  List.length (filter (Sql.same_assignment s r) (staff_role_assignments d)).

(** ** Sample data *)

(** An implementation of the interfaces, for running the model. *)
Definition sample_externals : Externals := {|
  hashPassword := fun pw => "hash:" ++ pw;
  verifyPassword := fun pw h => String.eqb ("hash:" ++ pw) h;
  validatePassword := fun pw =>
    if Nat.leb 8 (String.length pw) then (true, [])
    else (false, ["Password must be at least 8 characters long"]);
  generateToken := fun p => "token:" ++ tp_staffId p;
  verifyToken := fun t =>
    if String.prefix "token:" t
    then Some (mkTokenPayload (JS.substring_from 6 t) "a@x.com" false
                              ["staff:read"])
    else None;
  is_email := fun s0 => existsb (Ascii.eqb "@") (list_ascii_of_string s0);
  zod_message := fun issues => String.concat "; " (map snd issues);
  uuid_generate_v4 := fun n => "uuid-" ++ NilEmpty.string_of_uint (Nat.to_uint n)
|}.

Definition empty_db : DB := mkDB [] [] [] [].

(** An account [a@x.com] with password [Secure1!A]. *)
Definition sample_account (attempts : Z) (locked : option Z) (status_ : string)
    : StaffRow :=
  mkStaffRow "u-1" "a@x.com" "hash:Secure1!A" "Ada" "Young" None None None None
             status_ false None None attempts locked 0 0 None None.

Definition sample_db (attempts : Z) (locked : option Z) (status_ : string) : DB :=
  mkDB [sample_account attempts locked status_] [] [] [].

(** A store with one account, one role and the given assignments. *)
Definition role_db (assignments : list AssignmentRow) : DB :=
  mkDB [sample_account 0 None "active"]
       [mkRoleRow "r-1" "Manager" None ["staff:read"; "staff:update"] true]
       assignments [].

Definition locked_state : St :=
  request_state (sample_db 5 (Some 1801000) "active") 2000 2000 0.

Definition expired_state : St :=
  request_state (sample_db 3 (Some 500) "active") 1000 1000 0.

Definition active_state : St :=
  request_state (sample_db 0 None "active") 0 0 0.

Definition suspended_state : St :=
  request_state (sample_db 0 None "suspended") 0 0 0.

Definition sample_caller : ReqStaff := mkReqStaff "u-1" "a@x.com" true ["*"].

Definition sample_payload : TokenPayload :=
  mkTokenPayload "u-1" "a@x.com" false ["staff:read"].

Definition empty_body : ReqBody :=
  mkReqBody None None None None None None None None None None None None.

(** A request with nothing but, possibly, an attached identity. *)
Definition sample_req (s : option ReqStaff) : Req :=
  mkReq None None "GET" "/" [] None None empty_body None None s.

(** POST /login with this e-mail and password. *)
Definition login_request (e pw : string) : Req :=
  mkReq None None "POST" "/login" [] None None
        (mkReqBody (Some e) (Some pw) None None None None None None None None
                   None None)
        None None None.

(** POST /login?q=%00: the query holds a NUL character. *)
Definition nul_query_login (e pw : string) : Req :=
  mkReq None None "POST" "/login" [("q", String Ascii.zero "")] None None
        (mkReqBody (Some e) (Some pw) None None None None None None None None
                   None None)
        None None None.

(** DELETE /staff/:id, authenticated as [caller]. *)
Definition delete_request (i : string) (caller : ReqStaff) : Req :=
  mkReq (Some "Bearer t") None "DELETE" ("/" ++ i) [] (Some i) None empty_body
        None None (Some caller).

(** A request with [Authorization: Bearer <token>]. *)
Definition bearer_request (token : string) : Req :=
  mkReq (Some ("Bearer " ++ token)) None "GET" "/profile" [] None None
        empty_body None None None.

(** The stored counter and lockout-expiry of [a@x.com]. *)
Definition lockout_of (st : St) : option (Z * option Z) :=
  option_map (fun r => (failed_login_attempts r, locked_until r))
             (stored_by_email (st_db st) "a@x.com").

(** A scenario: a fifth failed login at time 1000, a login with the right
    password at 2000, another when the lockout expires. *)
Definition fifth_failure : St :=
  snd (@StaffController.login sample_externals
         (login_request "a@x.com" "guess")
         (request_state (sample_db 4 None "active") 1000 1000 0)).

Definition early_retry : St :=
  snd (@StaffController.login sample_externals
         (login_request "a@x.com" "Secure1!A")
         (next_request fifth_failure 2000 2000)).

Definition late_retry : St :=
  snd (@StaffController.login sample_externals
         (login_request "a@x.com" "Secure1!A")
         (next_request early_retry 1801000 1801000)).

(** A login with the right password, for the account a@x.com with three
    failed attempts and a lockout that expired at 500, at time 1000. *)
Definition right_password_login : St :=
  snd (@StaffController.login sample_externals
         (login_request "a@x.com" "Secure1!A") expired_state).

(** ** Vocabulary of the further statements *)

(** A role of the store is assigned to the staff member and holds the
    permission. *)
Definition role_grants (d : DB) (staffId permission : string) : Prop :=
  exists (ro : RoleRow) (a : AssignmentRow),
    In ro (staff_roles d) /\
    In a (staff_role_assignments d) /\
    sra_staff_id a = staffId /\
    sra_role_id a = role_id_ ro /\
    In permission (role_permissions ro).

(** E-mails are unique in table staff (its UNIQUE constraint). *)
Definition emails_unique (d : DB) : Prop := NoDup (map email (staff d)).

(** The store after a login request at clock readings [t] (JavaScript's,
    the store's), and after a sequence of them. *)
Definition login_at `{Externals} (req : Req) (d : DB) (t : Z * Z) : St :=
  snd (StaffController.login req (request_state d (fst t) (snd t) 0)).

Fixpoint logins `{Externals} (req : Req) (d : DB) (ts : list (Z * Z)) : DB :=
  match ts with
  | [] => d
  | t :: r => logins req (st_db (login_at req d t)) r
  end.

(** The row POST /staff inserts for a body, a caller and the state the
    handler runs in. *)
Definition created_row `{Externals} (b : ReqBody) (caller : string) (st : St)
    : StaffRow :=
  mkStaffRow (uuid_generate_v4 (uuid_count st))
             (Validators.get_ (b_email b))
             (hashPassword (Validators.get_ (b_password b)))
             (Validators.get_ (b_firstName b))
             (Validators.get_ (b_lastName b))
             (b_phone b) (b_department b) (b_position b) (b_employeeId b)
             "active" false None None 0 None (sql_now st) (sql_now st)
             (Some caller) None.

(** POST /staff with these fields, authenticated as [caller]. *)
Definition create_request (e pw first last : string) (caller : ReqStaff) : Req :=
  mkReq (Some "Bearer t") None "POST" "/" [] None None
        (mkReqBody (Some e) (Some pw) (Some first) (Some last) None None None
                   None None None None None)
        None None (Some caller).

(** ** Integrity constraints of the schema

    What the schema asks of the modelled tables before it accepts a
    statement; an e-mail already taken is the handlers' own test. *)

Definition same_text (a : option string) (b : string) : bool :=
  match a with
  | Some a' => String.eqb a' b
  | None => false
  end.

Definition known_staff (d : DB) (i : string) : bool :=
  existsb (Sql.id_is i) (staff d).

Definition known_role (d : DB) (i : string) : bool :=
  existsb (fun ro => String.eqb (role_id_ ro) i) (staff_roles d).

(** The UUID columns of the store hold UUIDs and give them back in the one
    form PostgreSQL prints: a text read from such a column is
    [Sql.printed_uuid].  On such a store, and for a parameter that is
    itself in that form, the comparison [id = $1] of the statements is the
    comparison of the two texts. *)
Definition uuids_printed (d : DB) : bool :=
  forallb (fun r => Sql.printed_uuid (id r)
                    && Sql.opt_ok Sql.printed_uuid (created_by r)
                    && Sql.opt_ok Sql.printed_uuid (updated_by r))
          (staff d)
  && forallb (fun ro => Sql.printed_uuid (role_id_ ro)) (staff_roles d)
  && forallb (fun a => Sql.printed_uuid (sra_id a)
                       && Sql.printed_uuid (sra_staff_id a)
                       && Sql.printed_uuid (sra_role_id a)
                       && Sql.opt_ok Sql.printed_uuid (sra_assigned_by a))
             (staff_role_assignments d)
  && forallb (fun l => Sql.printed_uuid (log_id l)
                       && Sql.opt_ok Sql.printed_uuid (log_staff_id l))
             (staff_activity_logs d).

(** The texts of a row of table staff fit their columns. *)
Definition row_fits (row : StaffRow) : bool :=
  Sql.fits 255 (email row) && Sql.fits 255 (password_hash row)
  && Sql.fits 100 (first_name row) && Sql.fits 100 (last_name row)
  && Sql.opt_ok (Sql.fits 20) (phone row)
  && Sql.opt_ok (Sql.fits 100) (department row)
  && Sql.opt_ok (Sql.fits 100) (position row)
  && Sql.opt_ok (Sql.fits 50) (employee_id row)
  && Sql.fits 50 (status row).

(** INSERT INTO staff: the texts fit their columns, the primary key and
    [employee_id] are unique, [created_by] references staff(id). *)
Definition insert_allowed (d : DB) (row : StaffRow) : bool :=
  row_fits row
  && forallb (fun r => negb (String.eqb (id r) (id row))) (staff d)
  && match employee_id row with
     | Some e => forallb (fun r => negb (same_text (employee_id r) e)) (staff d)
     | None => true
     end
  && match created_by row with
     | Some c => known_staff d c
     | None => true
     end.

(** DELETE FROM staff WHERE id = i: no row that stays references the
    deleted one through a key without an ON DELETE action ([created_by],
    [updated_by], [assigned_by]; the table of departments, whose
    [manager_id] is such a key too, is not among the modelled tables). *)
Definition delete_allowed (d : DB) (i : string) : bool :=
  forallb (fun r => Sql.id_is i r
                    || negb (same_text (created_by r) i
                             || same_text (updated_by r) i))
          (staff d)
  && forallb (fun a => String.eqb (sra_staff_id a) i
                       || negb (same_text (sra_assigned_by a) i))
             (staff_role_assignments d).

(** The store [StaffModel.delete(i)] leaves. *)
Definition after_delete (i : string) (st : St) : DB :=
  st_db (snd (StaffModel.delete i st)).

(** A request on [/:id] (and [/:id/roles/:roleId]) with a body,
    authenticated as [caller]. *)
Definition id_request (verb i : string) (roleId : option string) (b : ReqBody)
    (caller : option ReqStaff) : Req :=
  mkReq (Some "Bearer t") None verb ("/" ++ i) [] (Some i) roleId b None None
        caller.

(** Two accounts, the second suspended or not. *)
Definition second_account (status_ : string) : StaffRow :=
  mkStaffRow "u-2" "b@x.com" "hash:Secure2!B" "Bo" "Lee" None None None None
             status_ false None None 2 None 0 0 (Some "u-1") None.

Definition two_accounts_db : DB :=
  mkDB [sample_account 0 None "active"; second_account "active"]
       [mkRoleRow "r-1" "Viewer" None ["staff:read"] true]
       [mkAssignmentRow "a-1" "u-2" "r-1" 0 (Some "u-1")]
       [mkActivityLogRow "l-1" (Some "u-2") "staff.login" None None
          (mkLogDetails "POST" "/login" []) None None "success" None 0].

Definition two_accounts_state : St := request_state two_accounts_db 5 5 0.

(** The same two accounts in a store whose ids are UUIDs. *)
Definition uuid_ (n : string) : string :=
  "00000000-0000-4000-8000-00000000000" ++ n.

Definition printed_account (n e pw : string) (by_ : option string) : StaffRow :=
  mkStaffRow (uuid_ n) e ("hash:" ++ pw) "Ada" "Young" None None None None
             "active" false None None 0 None 0 0 by_ None.

Definition printed_db : DB :=
  mkDB [printed_account "1" "a@x.com" "Secure1!A" None;
        printed_account "2" "b@x.com" "Secure2!B" (Some (uuid_ "1"))]
       [mkRoleRow (uuid_ "a") "Viewer" None ["staff:read"] true;
        mkRoleRow (uuid_ "b") "Manager" None ["staff:read"; "staff:update"]
                  true]
       [mkAssignmentRow (uuid_ "c") (uuid_ "2") (uuid_ "a") 0
                        (Some (uuid_ "1"))]
       [mkActivityLogRow (uuid_ "d") (Some (uuid_ "2")) "staff.login" None None
          (mkLogDetails "POST" "/login" []) None None "success" None 0].

Definition printed_state : St := request_state printed_db 5 5 0.

Definition printed_caller : ReqStaff :=
  mkReqStaff (uuid_ "1") "a@x.com" true ["*"].

(** An account whose id holds a letter, the caller it is, the same id
    written with a capital, and DELETE /staff/:id for that spelling. *)
Definition own_account : StaffRow :=
  printed_account "a" "a@x.com" "Secure1!A" None.

Definition own_db : DB := mkDB [own_account] [] [] [].

Definition own_caller : ReqStaff :=
  mkReqStaff (uuid_ "a") "a@x.com" true ["*"].

Definition own_id_capital : string := uuid_ "A".

Definition own_delete : St :=
  snd (StaffController.delete (delete_request own_id_capital own_caller)
                              (request_state own_db 5 5 0)).

(** The store after [updatePassword(i, pw)] at time [now]. *)
Definition password_db `{Externals} (d : DB) (i pw : string) (now : Z) : DB :=
  Sql.with_staff
    (Sql.update_rows now (Sql.id_is i)
                     (Sql.set_password (hashPassword pw) now) (staff d)) d.

(** The passwords a change-password request carries. *)
Definition current_password (req : Req) : string :=
  Validators.get_ (b_currentPassword (body req)).

Definition new_password (req : Req) : string :=
  Validators.get_ (b_newPassword (body req)).

(** PUT /profile/password, authenticated as [caller]. *)
Definition password_request (cur new : string) (caller : ReqStaff) : Req :=
  mkReq (Some "Bearer t") None "PUT" "/profile/password" [] None None
        (mkReqBody None None None None None None None None None (Some cur)
                   (Some new) None)
        None None (Some caller).





(** INSERT INTO staff_role_assignments: [staff_id], [role_id] and
    [assigned_by] reference rows that exist. *)
Definition assign_allowed (d : DB) (s r : string) (by_ : option string) : bool :=
  known_staff d s && known_role d r
  && match by_ with
     | Some b => known_staff d b
     | None => true
     end.

(** POST /staff/:id/roles and DELETE /staff/:id/roles/:roleId. *)
Definition assign_request (i : string) (roleId : option string)
    (caller : ReqStaff) : Req :=
  id_request "POST" i None
    (mkReqBody None None None None None None None None None None None roleId)
    (Some caller).

Definition remove_request (i roleId : string) (caller : ReqStaff) : Req :=
  id_request "DELETE" i (Some roleId) empty_body (Some caller).

(** * Properties *)

(** ** Runs of the model *)

Example split_permission : JS.split ":" "staff:role:assign" = ["staff"; "role"; "assign"].
Proof. reflexivity. Qed.

Example split_no_colon : JS.split ":" "staff" = ["staff"].
Proof. reflexivity. Qed.

Example bearer_token_of_header :
  bearer_token (Some "Bearer abc") = Some "abc" /\
  bearer_token (Some "Basic abc") = None /\
  bearer_token (Some "") = None.
Proof. repeat split. Qed.

Example fifth_failure_locks :
  response_of fifth_failure = (401, [invalid_credentials]) /\
  lockout_of fifth_failure = Some (5, Some 1801000).
Proof. split; reflexivity. Qed.

Example early_retry_is_refused :
  response_of early_retry = (403, [account_locked]) /\
  lockout_of early_retry = Some (5, Some 1801000).
Proof. split; reflexivity. Qed.

Example late_retry_is_answered_400 :
  response_of late_retry = (400, [login_failed Sql.cannot_cast]) /\
  lockout_of late_retry = Some (5, Some 1801000).
Proof. split; reflexivity. Qed.

(** ** Strings and arrays *)

Lemma includes_In (xs : list string) (x : string) :
  JS.includes xs x = true <-> In x xs.
Proof.
  unfold JS.includes. rewrite existsb_exists. split.
  - intros [y [Hy E]]. apply String.eqb_eq in E. now subst.
  - intros Hx. exists x. split; [assumption | apply String.eqb_refl].
Qed.

Lemma includes_not_In (xs : list string) (x : string) :
  JS.includes xs x = false <-> ~ In x xs.
Proof.
  rewrite <- includes_In. destruct (JS.includes xs x); split; congruence.
Qed.

Lemma split_resource (resource action : string) :
  no_colon resource = true ->
  JS.split ":" (resource ++ ":" ++ action) = resource :: JS.split ":" action.
Proof.
  induction resource as [|c r IH]; intros Hnc.
  - reflexivity.
  - cbn in Hnc. apply andb_prop in Hnc as [Hc Hr].
    apply negb_true_iff in Hc.
    change (String c r ++ ":" ++ action)%string
      with (String c (r ++ ":" ++ action)%string).
    cbn [JS.split]. rewrite Hc, (IH Hr). reflexivity.
Qed.

(** ** The response object *)

Lemma after_respond_statusCode (code : Z) (b : Body) (st : St) :
  statusCode (st_res (after_respond code b st)) = code.
Proof. reflexivity. Qed.

Lemma after_respond_sent (code : Z) (b : Body) (st : St) :
  sent (st_res (after_respond code b st)) = (sent (st_res st) ++ [b])%list.
Proof. reflexivity. Qed.

Lemma after_respond_db (code : Z) (b : Body) (st : St) :
  st_db (after_respond code b st) = st_db st.
Proof. reflexivity. Qed.

Lemma after_respond_calls (code : Z) (b : Body) (st : St) :
  st_calls (after_respond code b st) = st_calls st.
Proof. reflexivity. Qed.

(** ** Permission matching *)

Lemma requirePermission_grants (resource action : string) (perms : list string) :
  no_colon resource = true ->
  three_tier resource action perms ->
  grants (resource ++ ":" ++ action) perms.
Proof.
  intros Hnc Ht req st s Hs Hp. unfold requirePermission. rewrite Hs, Hp.
  destruct (JS.includes perms "*") eqn:E1; [reflexivity|].
  destruct (JS.includes perms (resource ++ ":" ++ action)) eqn:E2; [reflexivity|].
  rewrite (split_resource _ _ Hnc). cbn [JS.destructure2 nth_error].
  destruct (JS.includes perms (resource ++ ":*")) eqn:E3; [reflexivity|].
  apply includes_not_In in E1, E2, E3.
  destruct Ht as [H|[H|H]]; contradiction.
Qed.

Lemma requirePermission_denies (resource action : string) (perms : list string) :
  no_colon resource = true ->
  ~ three_tier resource action perms ->
  denies (resource ++ ":" ++ action) perms.
Proof.
  intros Hnc Ht req st s Hs Hp. unfold requirePermission. rewrite Hs, Hp.
  assert (E1 : JS.includes perms "*" = false).
  { apply includes_not_In. intros H. apply Ht. now left. }
  assert (E2 : JS.includes perms (resource ++ ":" ++ action) = false).
  { apply includes_not_In. intros H. apply Ht. right. now left. }
  assert (E3 : JS.includes perms (resource ++ ":*") = false).
  { apply includes_not_In. intros H. apply Ht. right. now right. }
  rewrite E1, E2, (split_resource _ _ Hnc). cbn [JS.destructure2 nth_error].
  rewrite E3. reflexivity.
Qed.

Lemma three_tier_dec (resource action : string) (perms : list string) :
  three_tier resource action perms \/ ~ three_tier resource action perms.
Proof.
  unfold three_tier.
  destruct (in_dec string_dec "*" perms); [tauto|].
  destruct (in_dec string_dec (resource ++ ":" ++ action) perms); [tauto|].
  destruct (in_dec string_dec (resource ++ ":*") perms); tauto.
Qed.

Lemma grants_denies_exclusive (permission : string) (perms : list string) :
  grants permission perms -> denies permission perms -> False.
Proof.
  intros G D.
  pose (s := mkReqStaff "" "" false perms).
  specialize (G (sample_req (Some s)) (request_state empty_db 0 0 0) s eq_refl eq_refl).
  specialize (D (sample_req (Some s)) (request_state empty_db 0 0 0) s eq_refl eq_refl).
  rewrite G in D. discriminate.
Qed.

(** C1. For a required permission [resource:action] ([resource] is the part
    before the first colon) and the permission set attached to an
    authenticated request, [requirePermission] calls [next()] exactly when
    the set holds ["*"], [resource:action] or [resource:*], and otherwise
    answers 403 Insufficient permissions.  So ["staff:read"] permits
    staff:read and denies staff:write, ["staff:*"] permits staff:read and
    staff:delete, and ["*"] permits every permission. *)
Theorem requirePermission_three_tier :
  (forall (resource action : string) (perms : list string),
      no_colon resource = true ->
      (grants (resource ++ ":" ++ action) perms
         <-> three_tier resource action perms) /\
      (denies (resource ++ ":" ++ action) perms
         <-> ~ three_tier resource action perms)) /\
  grants "staff:read" ["staff:read"] /\
  denies "staff:write" ["staff:read"] /\
  grants "staff:read" ["staff:*"] /\
  grants "staff:delete" ["staff:*"] /\
  (forall permission : string, grants permission ["*"]).
Proof.
  split; [|repeat split].
  - intros resource action perms Hnc. split; split.
    + intros G. destruct (three_tier_dec resource action perms) as [T|T]; [exact T|].
      exfalso. eapply grants_denies_exclusive; [exact G|].
      now apply requirePermission_denies.
    + now apply requirePermission_grants.
    + intros D T. eapply grants_denies_exclusive; [|exact D].
      now apply requirePermission_grants.
    + now apply requirePermission_denies.
  - apply (requirePermission_grants "staff" "read"); [reflexivity|].
    right; left; now left.
  - apply (requirePermission_denies "staff" "write"); [reflexivity|].
    intros [H|[H|H]]; cbn in H; intuition discriminate.
  - apply (requirePermission_grants "staff" "read"); [reflexivity|].
    right; right; now left.
  - apply (requirePermission_grants "staff" "delete"); [reflexivity|].
    right; right; now left.
  - intros permission req st s Hs Hp. unfold requirePermission.
    rewrite Hs, Hp. reflexivity.
Qed.

Lemma requirePermission_three_tier_witness :
  no_colon "reports" = true /\
  grants "reports:read" ["staff:read"; "reports:*"] /\
  denies "reports:read" ["staff:*"; "report:read"].
Proof.
  split; [reflexivity|]. split.
  - apply (proj1 requirePermission_three_tier "reports" "read"
             ["staff:read"; "reports:*"] eq_refl).
    right; right; right; now left.
  - apply (proj1 requirePermission_three_tier "reports" "read"
             ["staff:*"; "report:read"] eq_refl).
    intros [H|[H|H]]; cbn in H; intuition discriminate.
Defined.

(** ** Lookups *)

Lemma hd_error_map {A B} (f : A -> B) (l : list A) :
  hd_error (map f l) = option_map f (hd_error l).
Proof. now destruct l. Qed.

Lemma add_calls_app (cs cs' : list Call) (st : St) :
  add_calls cs' (add_calls cs st) = add_calls (cs ++ cs') st.
Proof. unfold add_calls; cbn. now rewrite <- app_assoc. Qed.

Lemma stored_by_email_update (now : Z) (w : StaffRow -> bool)
    (f : StaffRow -> StaffRow) (d : DB) (e : string) :
  (forall r, email (f r) = email r) ->
  stored_by_email (Sql.with_staff (Sql.update_rows now w f (staff d)) d) e =
  option_map (fun r => if w r then Sql.touch now (f r) else r)
             (stored_by_email d e).
Proof.
  intros Hf. unfold stored_by_email, Sql.update_rows. cbn [staff Sql.with_staff].
  induction (staff d) as [|x rows IH]; [reflexivity|].
  cbn [map filter].
  assert (E : Sql.email_is e (if w x then Sql.touch now (f x) else x)
              = Sql.email_is e x).
  { unfold Sql.email_is. destruct (w x); [cbn; now rewrite Hf | reflexivity]. }
  rewrite E. destruct (Sql.email_is e x); [reflexivity | exact IH].
Qed.

Lemma stored_by_email_id_is (d : DB) (e : string) (r : StaffRow) :
  stored_by_email d e = Some r -> Sql.email_is e r = true.
Proof.
  unfold stored_by_email. intros Hs.
  destruct (filter (Sql.email_is e) (staff d)) as [|x l] eqn:E; [discriminate|].
  injection Hs as ->.
  assert (Hin : In r (filter (Sql.email_is e) (staff d))) by (rewrite E; now left).
  apply filter_In in Hin. tauto.
Qed.



(** ** Paths of [login] *)

Section LoginPaths.

Context `{Externals}.
Variables (req : Req) (st : St).
Hypothesis Hvalid : valid_login req.

Local Abbreviation e := (login_email req).
Local Abbreviation pw := (login_password req).

Ltac enter_login :=
  unfold StaffController.login, try_catch, bind at 1;
  unfold Validators.loginSchema_parse; rewrite Hvalid; cbn;
  rewrite hd_error_map;
  change (hd_error (filter (Sql.email_is (Validators.get_ (b_email (body req))))
                           (staff (st_db st))))
    with (stored_by_email (st_db st) (login_email req)).

Lemma login_unknown_email :
  stored_by_email (st_db st) e = None ->
  StaffController.login req st =
    (Ok tt, after_respond 401 invalid_credentials
              (add_calls [call_findByEmailWithPassword e] st)).
Proof.
  intros Hnone. enter_login. rewrite Hnone. reflexivity.
Qed.

Variable r : StaffRow.
Hypothesis Hstored : stored_by_email (st_db st) e = Some r.

Lemma login_locked :
  StaffController.is_locked (locked_until r) (date_now st) = true ->
  StaffController.login req st =
    (Ok tt, after_respond 403 account_locked
              (add_calls [call_findByEmailWithPassword e] st)).
Proof.
  intros Hlocked. enter_login. rewrite Hstored. cbn.
  unfold bind at 1. cbn. rewrite Hlocked. reflexivity.
Qed.

Hypothesis Hunlocked :
  StaffController.is_locked (locked_until r) (date_now st) = false.

Lemma login_not_active :
  String.eqb (status r) "active" = false ->
  StaffController.login req st =
    (Ok tt, after_respond 403 account_not_active
              (add_calls [call_findByEmailWithPassword e] st)).
Proof.
  intros Hstatus. enter_login. rewrite Hstored. cbn.
  unfold bind at 1. cbn. rewrite Hunlocked, Hstatus. reflexivity.
Qed.

Hypothesis Hactive : String.eqb (status r) "active" = true.

Lemma login_wrong_password :
  verifyPassword pw (password_hash r) = false ->
  StaffController.login req st =
    (Ok tt, after_respond 401 invalid_credentials
              (set_db (failed_attempt_db (st_db st) (id r) (sql_now st))
                 (add_calls [call_findByEmailWithPassword e;
                             call_verifyPassword pw (password_hash r);
                             call_incrementFailedLogins (id r)] st))).
Proof.
  intros Hwrong. enter_login. rewrite Hstored. cbn.
  unfold bind at 1. cbn. rewrite Hunlocked, Hactive. cbn.
  change (Validators.get_ (b_password (body req))) with pw.
  rewrite Hwrong. cbn.
  unfold after_respond, add_calls, set_db. cbn.
  repeat rewrite <- app_assoc. reflexivity.
Qed.

(** The right password: the handler goes on to [getPermissions], whose
    statement the store refuses; the catch answers 400 with the store's
    message.  [updateLastLogin] and [generateToken] are not reached. *)
Lemma login_correct_password :
  verifyPassword pw (password_hash r) = true ->
  StaffController.login req st =
    (Ok tt, after_respond 400 (login_failed Sql.cannot_cast)
              (add_calls [call_findByEmailWithPassword e;
                          call_verifyPassword pw (password_hash r);
                          call_getPermissions (id r)] st)).
Proof.
  intros Hright. enter_login. rewrite Hstored. cbn.
  unfold bind at 1. cbn. rewrite Hunlocked, Hactive. cbn.
  change (Validators.get_ (b_password (body req))) with pw.
  rewrite Hright. cbn.
  unfold after_respond, add_calls, set_db. cbn.
  repeat rewrite <- app_assoc. reflexivity.
Qed.

End LoginPaths.

(** A body passes [loginSchema] exactly when it carries an e-mail that
    zod accepts and a password of at least one character. *)
Lemma valid_login_iff `{Externals} (req : Req) :
  valid_login req <->
  exists e pw,
    b_email (body req) = Some e /\ is_email e = true /\
    b_password (body req) = Some pw /\ pw <> "".
Proof.
  unfold valid_login, Validators.loginSchema_issues, Validators.required.
  destruct (b_email (body req)) as [e|], (b_password (body req)) as [pw|];
    cbn.
  - destruct (is_email e) eqn:He; cbn.
    + destruct pw as [|c pw]; cbn.
      * split; [discriminate|]. intros [e' [pw' [_ [_ [E Hne]]]]].
        injection E as <-. now elim Hne.
      * split; [|reflexivity]. intros _. exists e, (String c pw).
        repeat split; [exact He | discriminate].
    + split; [discriminate|]. intros [e' [pw' [E [He' _]]]].
      injection E as <-. congruence.
  - split; [|intros [e' [pw' [_ [_ [E _]]]]]; discriminate E].
    destruct (is_email e); discriminate.
  - split; [discriminate | intros [e' [pw' [E _]]]; discriminate E].
  - split; [discriminate | intros [e' [pw' [E _]]]; discriminate E].
Qed.

(** A body that fails [loginSchema] is answered 400 with zod's message:
    no lookup, no comparison, the store untouched. *)
Lemma login_invalid_body `{Externals} (req : Req) (st : St) :
  ~ valid_login req ->
  StaffController.login req st =
    (Ok tt,
     after_respond 400
       (body_error
          (JS.or_default
             (Some (zod_message (Validators.loginSchema_issues (body req))))
             "Login failed"))
       st).
Proof.
  unfold valid_login. intros Hinvalid.
  unfold StaffController.login, try_catch, bind at 1.
  unfold Validators.loginSchema_parse, Validators.parsed.
  destruct (Validators.loginSchema_issues (body req)) as [|i is_];
    [now elim Hinvalid|].
  reflexivity.
Qed.

(** ** The lockout state machine *)

(** C2. For an existing, active account that is not currently locked, a
    login with a wrong password that finds the stored counter at 4 leaves it
    at 5 with lockout-expiry 30 minutes after the store's current time; one
    that finds the counter in 0..3 leaves it in 1..4, one higher, with
    lockout-expiry as it was. *)
Theorem login_failed_attempt_lockout `{Externals} (req : Req) (st : St)
    (r : StaffRow) :
  valid_login req ->
  stored_by_email (st_db st) (login_email req) = Some r ->
  status r = "active" ->
  StaffController.is_locked (locked_until r) (date_now st) = false ->
  verifyPassword (login_password req) (password_hash r) = false ->
  exists r' : StaffRow,
    stored_by_email (st_db (snd (StaffController.login req st))) (login_email req)
      = Some r' /\
    id r' = id r /\
    failed_login_attempts r' = failed_login_attempts r + 1 /\
    (failed_login_attempts r = 4 ->
       failed_login_attempts r' = 5 /\
       locked_until r' = Some (sql_now st + 30 * 60 * 1000)) /\
    (0 <= failed_login_attempts r <= 3 ->
       1 <= failed_login_attempts r' <= 4 /\
       locked_until r' = locked_until r).
Proof.
  intros Hvalid Hstored Hstatus Hunlocked Hwrong.
  apply String.eqb_eq in Hstatus.
  rewrite (login_wrong_password req st Hvalid r Hstored Hunlocked Hstatus Hwrong).
  cbn [snd]. rewrite after_respond_db. cbn [st_db set_db].
  unfold failed_attempt_db. rewrite stored_by_email_update by reflexivity.
  rewrite Hstored. cbn [option_map].
  unfold Sql.id_is. rewrite String.eqb_refl.
  eexists. split; [reflexivity|]. cbn.
  split; [reflexivity|]. split; [reflexivity|]. split.
  - intros ->. split; reflexivity.
  - intros Hrange. split; [lia|].
    destruct (4 <=? failed_login_attempts r) eqn:E; [|reflexivity].
    apply Z.leb_le in E. lia.
Qed.

Lemma login_failed_attempt_lockout_witness :
  exists r' : StaffRow,
    stored_by_email
      (st_db (snd (@StaffController.login sample_externals
                     (login_request "a@x.com" "guess")
                     (request_state (sample_db 4 None "active") 1000 1000 0))))
      "a@x.com" = Some r' /\
    failed_login_attempts r' = 5 /\
    locked_until r' = Some 1801000.
Proof.
  destruct (@login_failed_attempt_lockout sample_externals
              (login_request "a@x.com" "guess")
              (request_state (sample_db 4 None "active") 1000 1000 0)
              (sample_account 4 None "active")
              eq_refl eq_refl eq_refl eq_refl eq_refl)
    as [r' [Hs [_ [_ [H4 _]]]]].
  exists r'. split; [exact Hs|]. exact (H4 eq_refl).
Defined.

(** C3. While an account's lockout-expiry lies in the future, a login for it
    is answered 403 with the account-locked message, whatever the password:
    the only call the request makes is the lookup by e-mail (the password is
    never compared), and the store (counter and lockout-expiry included) is
    left as it was. *)
Theorem login_while_locked `{Externals} (req : Req) (st : St) (r : StaffRow)
    (t : Z) :
  valid_login req ->
  stored_by_email (st_db st) (login_email req) = Some r ->
  locked_until r = Some t ->
  date_now st < t ->
  fst (StaffController.login req st) = Ok tt /\
  statusCode (st_res (snd (StaffController.login req st))) = 403 /\
  sent (st_res (snd (StaffController.login req st))) =
    (sent (st_res st) ++ [account_locked])%list /\
  st_calls (snd (StaffController.login req st)) =
    (st_calls st ++ [call_findByEmailWithPassword (login_email req)])%list /\
  (forall pw h,
      In (call_verifyPassword pw h)
         (st_calls (snd (StaffController.login req st))) ->
      In (call_verifyPassword pw h) (st_calls st)) /\
  st_db (snd (StaffController.login req st)) = st_db st /\
  stored_by_email (st_db (snd (StaffController.login req st)))
                  (login_email req) = Some r.
Proof.
  intros Hvalid Hstored Hlock Hfuture.
  assert (Hlocked : StaffController.is_locked (locked_until r) (date_now st) = true).
  { rewrite Hlock. cbn. now apply Z.ltb_lt. }
  rewrite (login_locked req st Hvalid r Hstored Hlocked). cbn [fst snd].
  repeat split; try reflexivity.
  - intros pw h Hin. rewrite after_respond_calls in Hin. cbn in Hin.
    apply in_app_or in Hin as [Hin|[Hin|[]]]; [exact Hin | discriminate].
  - rewrite after_respond_db. exact Hstored.
Qed.

Lemma login_while_locked_witness :
  statusCode (st_res (snd (@StaffController.login sample_externals
                             (login_request "a@x.com" "Secure1!A")
                             locked_state))) = 403 /\
  sent (st_res (snd (@StaffController.login sample_externals
                       (login_request "a@x.com" "Secure1!A")
                       locked_state))) = [account_locked] /\
  st_db (snd (@StaffController.login sample_externals
                (login_request "a@x.com" "Secure1!A") locked_state))
    = st_db locked_state.
Proof.
  destruct (@login_while_locked sample_externals
              (login_request "a@x.com" "Secure1!A") locked_state
              (sample_account 5 (Some 1801000) "active") 1801000
              eq_refl eq_refl eq_refl eq_refl)
    as [_ [Hc [Hs [_ [_ [Hd _]]]]]].
  repeat split; assumption.
Defined.

(** ** Provenance of zero counters *)

Lemma zero_provenance_refl (P : StaffRow -> Prop) (d : DB) :
  zero_provenance P d d.
Proof. intros r' Hin Hz. left. now exists r'. Qed.

Lemma zero_provenance_same_staff (P : StaffRow -> Prop) (d d' : DB) :
  staff d' = staff d -> zero_provenance P d d'.
Proof. intros E r' Hin Hz. rewrite E in Hin. left. now exists r'. Qed.

Lemma zero_provenance_update (P : StaffRow -> Prop) (d : DB) (now : Z)
    (w : StaffRow -> bool) (f : StaffRow -> StaffRow) :
  (forall r, In r (staff d) ->
     id (f r) = id r /\
     (failed_login_attempts (f r) = 0 -> failed_login_attempts r = 0)) ->
  zero_provenance P d (Sql.with_staff (Sql.update_rows now w f (staff d)) d).
Proof.
  intros Hf r' Hin Hz. left. cbn [staff Sql.with_staff] in Hin.
  unfold Sql.update_rows in Hin. apply in_map_iff in Hin as [r [E Hr]].
  exists r. destruct (w r).
  - subst r'. cbn in Hz |- *. destruct (Hf r Hr) as [Hid Hc]. auto.
  - subst r'. auto.
Qed.

Lemma zero_provenance_filter (P : StaffRow -> Prop) (d d' : DB)
    (keep : StaffRow -> bool) :
  staff d' = filter keep (staff d) -> zero_provenance P d d'.
Proof.
  intros E r' Hin Hz. rewrite E in Hin. apply filter_In in Hin as [Hin _].
  left. now exists r'.
Qed.

Lemma zero_provenance_insert (P : StaffRow -> Prop) (d d' : DB) (row : StaffRow) :
  staff d' = (staff d ++ [row])%list -> P row -> zero_provenance P d d'.
Proof.
  intros E Hrow r' Hin Hz. rewrite E in Hin.
  apply in_app_or in Hin as [Hin|[<-|[]]].
  - left. now exists r'.
  - now right.
Qed.

Lemma counters_nonneg_same_staff (d d' : DB) :
  staff d' = staff d -> counters_nonneg d -> counters_nonneg d'.
Proof. intros E Hd r Hr. rewrite E in Hr. now apply Hd. Qed.

Lemma counters_nonneg_update (d : DB) (now : Z) (w : StaffRow -> bool)
    (f : StaffRow -> StaffRow) :
  (forall r, 0 <= failed_login_attempts r -> 0 <= failed_login_attempts (f r)) ->
  counters_nonneg d ->
  counters_nonneg (Sql.with_staff (Sql.update_rows now w f (staff d)) d).
Proof.
  intros Hf Hd r' Hin. cbn [staff Sql.with_staff] in Hin.
  unfold Sql.update_rows in Hin. apply in_map_iff in Hin as [r [E Hr]].
  specialize (Hd r Hr). destruct (w r); subst r'; [cbn; now apply Hf | exact Hd].
Qed.

Lemma counters_nonneg_filter (d d' : DB) (keep : StaffRow -> bool) :
  staff d' = filter keep (staff d) -> counters_nonneg d -> counters_nonneg d'.
Proof.
  intros E Hd r Hr. rewrite E in Hr. apply filter_In in Hr as [Hr _].
  now apply Hd.
Qed.

Lemma counters_nonneg_insert (d d' : DB) (row : StaffRow) :
  staff d' = (staff d ++ [row])%list ->
  0 <= failed_login_attempts row ->
  counters_nonneg d -> counters_nonneg d'.
Proof.
  intros E Hrow Hd r Hr. rewrite E in Hr.
  apply in_app_or in Hr as [Hr|[<-|[]]]; [now apply Hd | exact Hrow].
Qed.

Lemma set_failed_login_keeps_nonzero (now : Z) (d : DB) :
  counters_nonneg d ->
  forall r, In r (staff d) ->
    id (Sql.set_failed_login now r) = id r /\
    (failed_login_attempts (Sql.set_failed_login now r) = 0 ->
     failed_login_attempts r = 0).
Proof.
  intros Hnn r Hr. split; [reflexivity|]. cbn. specialize (Hnn r Hr). lia.
Qed.

(** ** The shape of a handler's run *)

(** Case analysis on the tests a handler makes along its run. *)
Ltac split_path :=
  match goal with
  | |- context [ if ?c then _ else _ ] =>
      lazymatch type of c with bool => destruct c eqn:? end
  | |- context [ match ?x with Some _ => _ | None => _ end ] =>
      destruct x eqn:?
  | |- context [ match ?x with [] => _ | _ :: _ => _ end ] =>
      destruct x eqn:?
  end.

Ltac run_code :=
  cbn;
  repeat (progress (unfold bind, ret, throw, StaffController.req_staff_bang);
          cbn).

Ltac split_paths := run_code; repeat (split_path; run_code).

Lemma map_log_id_forget (i : string) (logs : list ActivityLogRow) :
  map log_id (map (Sql.log_forget i) logs) = map log_id logs.
Proof. rewrite map_map. reflexivity. Qed.

Lemma set_fields_keeps_counter (ud : UpdateData) (d : DB) :
  forall r, In r (staff d) ->
    id (StaffModel.set_fields ud r) = id r /\
    (failed_login_attempts (StaffModel.set_fields ud r) = 0 ->
     failed_login_attempts r = 0).
Proof. intros r _. split; [reflexivity | exact (fun E => E)]. Qed.

Lemma set_password_keeps_counter (h : string) (now : Z) (d : DB) :
  forall r, In r (staff d) ->
    id (Sql.set_password h now r) = id r /\
    (failed_login_attempts (Sql.set_password h now r) = 0 ->
     failed_login_attempts r = 0).
Proof. intros r _. split; [reflexivity | exact (fun E => E)]. Qed.

Create HintDb provenance.
#[local] Hint Resolve zero_provenance_refl set_fields_keeps_counter
  set_password_keeps_counter set_failed_login_keeps_nonzero : provenance.

Ltac provenance :=
  cbn;
  first
    [ apply zero_provenance_refl
    | apply zero_provenance_update; solve [eauto with provenance]
    | eapply zero_provenance_filter; reflexivity
    | eapply zero_provenance_insert;
        [reflexivity | split; reflexivity]
    | apply zero_provenance_same_staff; reflexivity ].

Ltac nonneg :=
  cbn;
  first
    [ assumption
    | apply counters_nonneg_update; [cbn; intros; lia | assumption]
    | eapply counters_nonneg_filter; [reflexivity | assumption]
    | eapply counters_nonneg_insert; [reflexivity | cbn; lia | assumption]
    | eapply counters_nonneg_same_staff; [reflexivity | assumption] ].

Ltac answered :=
  do 3 eexists; split; [reflexivity|];
  split; [unfold answered_once; cbn; repeat split; reflexivity|];
  split; [first [reflexivity | apply map_log_id_forget]|];
  split; intros Hnn; [provenance | nonneg].

Section Shape.
Context `{Externals}.

(** Every handler returns normally after exactly one [res.json]; it keeps
    the activity log's rows and keeps counters non-negative, and a counter
    it leaves at 0 was 0 before, unless the row is the one POST /staff
    inserted. *)
Lemma handler_shape (route : Routes.Route) (req : Req) (st : St) :
  exists code b st',
    Routes.handler route req st = (Ok tt, st') /\
    answered_once code b st st' /\
    map log_id (staff_activity_logs (st_db st')) =
      map log_id (staff_activity_logs (st_db st)) /\
    (counters_nonneg (st_db st) ->
     zero_provenance (may_zero route st) (st_db st) (st_db st')) /\
    (counters_nonneg (st_db st) -> counters_nonneg (st_db st')).
Proof.
  destruct route; unfold Routes.handler.
  - unfold StaffController.login, try_catch, bind at 1.
    unfold Validators.loginSchema_parse, Validators.parsed.
    split_paths; answered.
  - unfold StaffController.changePassword, try_catch, bind at 1.
    unfold Validators.changePasswordSchema_parse, Validators.parsed.
    split_paths; answered.
  - unfold StaffController.create, try_catch, bind at 1.
    unfold Validators.createStaffSchema_parse, Validators.parsed.
    split_paths; answered.
  - unfold StaffController.update, try_catch, bind at 1.
    unfold Validators.updateStaffSchema_parse, Validators.parsed.
    split_paths; answered.
  - unfold StaffController.delete, try_catch, bind at 1.
    split_paths; answered.
  - unfold StaffController.assignRole, try_catch, bind at 1.
    split_paths; answered.
  - unfold StaffController.removeRole, try_catch, bind at 1.
    split_paths; answered.
Qed.
End Shape.

(** Counters stay counts: every handler keeps them non-negative, and they
    are so in the empty store. *)
Lemma handler_keeps_counters_nonneg `{Externals} (route : Routes.Route)
    (req : Req) (st : St) :
  counters_nonneg (st_db st) ->
  counters_nonneg (st_db (snd (Routes.handler route req st))).
Proof.
  intros Hnn.
  destruct (handler_shape route req st) as [code [b [st2 [E [_ [_ [_ K]]]]]]].
  rewrite E. exact (K Hnn).
Qed.

Lemma empty_db_counters_nonneg : counters_nonneg empty_db.
Proof. intros r []. Qed.

(** ** The audit pipeline *)

(** The run of a logger-wrapped handler: the handler's state, then the one
    queued callback inserts its row, if the store takes it. *)
Lemma logged_run `{Externals} (route : Routes.Route) (req : Req) (st : St) :
  json_wrappers (st_res st) = [] ->
  st_immediates st = [] ->
  let w := mkJsonWrapper (Routes.action route) (Routes.resourceType route) req in
  exists (code : Z) (b : Body) (st2 : St),
    Routes.handler route req (wrapped route req st) = (Ok tt, st2) /\
    st_res st2 = mkRes code (sent (st_res st) ++ [b]) [w] /\
    map log_id (staff_activity_logs (st_db st2)) =
      map log_id (staff_activity_logs (st_db st)) /\
    Routes.logged route req st =
      (Ok tt,
       if Sql.log_accepted (staff (st_db st2))
            (activity_row "" code (sql_now st) (mkImmediate w b))
       then
         mkSt (Sql.with_logs
                 (staff_activity_logs (st_db st2) ++
                    [activity_row (uuid_generate_v4 (uuid_count st2)) code
                                  (sql_now st) (mkImmediate w b)])
                 (st_db st2))
              (st_res st2) [] (st_calls st2) (date_now st2) (sql_now st2)
              (S (uuid_count st2))
       else
         mkSt (st_db st2) (st_res st2) [] (st_calls st2) (date_now st2)
              (sql_now st2) (uuid_count st2)).
Proof.
  intros Hw Hq w.
  unfold Routes.logged, wrapped, Routes.logger, run_chain, logActivity,
    drain_immediates.
  unfold bind, modify, ret, get. cbn.
  match goal with
  | |- context [Routes.handler route req ?s] =>
      destruct (handler_shape route req s) as [code [b [st2 [E [A [L _]]]]]]
  end.
  rewrite E. destruct A as [Hres [Himm [_ Hsql]]].
  cbn in Hres, Himm, Hsql, L. rewrite Hw in Hres, Himm. rewrite Hq in Himm.
  cbn in Hres, Himm.
  exists code, b, st2. split; [reflexivity|]. split; [exact Hres|].
  split; [exact L|].
  rewrite Himm. cbn [run_immediates].
  unfold run_immediate, try_catch, bind, modify, fresh_uuid, get, throw, ret.
  cbn [st_db st_res set_immediates sql_now uuid_count st_calls date_now
       st_immediates fst snd].
  rewrite Hres, Hsql. cbn [statusCode]. subst w.
  destruct (Sql.log_accepted (staff (st_db st2)) _).
  - cbn. rewrite Hres, Hsql. reflexivity.
  - cbn. unfold set_immediates. rewrite Hres, Hsql. reflexivity.
Qed.

(** C8, as stated, fails: a DELETE without a bearer token is a call to a
    logged endpoint, and the activity log gets no entry for it. *)
Lemma unauthenticated_call_counterexample : ~ every_call_logged.
Proof.
  intros Hclaim.
  destruct (Hclaim sample_externals Routes.delete_staff_id
                   (mkReq None None "DELETE" "/u-2" [] (Some "u-2") None
                          empty_body None None None)
                   (sample_db 0 None "active") 0 0 0%nat)
    as [old' [entry [Hlogs _]]].
  cbn in Hlogs. destruct old'; discriminate Hlogs.
Qed.

(** An entry the store refuses is dropped: a failed login whose query
    holds a NUL character is answered as any other, and the activity log
    gets no entry for it. *)
Example refused_entry_is_dropped :
  response_of
    (snd (@serve_logged sample_externals Routes.post_login
            (nul_query_login "a@x.com" "guess")
            (sample_db 0 None "active") 0 0 0))
  = (401, [invalid_credentials]) /\
  staff_activity_logs
    (st_db (snd (@serve_logged sample_externals Routes.post_login
                   (nul_query_login "a@x.com" "guess")
                   (sample_db 0 None "active") 0 0 0))) = [].
Proof. split; reflexivity. Qed.

(** C8, amended. A request that reaches the logger-wrapped handler of a
    route (on the protected routes: one that [authenticateStaff] and
    [requirePermission] passed on) gets exactly one response and, whatever
    path the handler takes, the logger's callback sends exactly one entry
    to the store: its status is 'success' when the response status code is
    below 400 and 'error' otherwise, its staff id is that of the identity
    attached to the request and null when none is attached, its details
    record the request's method, path and query, its resource id is the
    route's [:id].  The activity log grows by exactly this entry when the
    store accepts it ([Sql.log_accepted]); when the store refuses it the
    callback's catch drops it and the log stays as it was.  The rows
    already there stay, in order. *)
Theorem logged_handler_appends_one_entry `{Externals} (route : Routes.Route)
    (req : Req) (d : DB) (date sql : Z) (n : nat) :
  fst (serve_logged route req d date sql n) = Ok tt /\
  exists (b : Body) (old' : list ActivityLogRow) (entry : ActivityLogRow),
    sent (st_res (snd (serve_logged route req d date sql n))) = [b] /\
    map log_id old' = map log_id (staff_activity_logs d) /\
    staff_activity_logs (st_db (snd (serve_logged route req d date sql n)))
      = (if Sql.log_accepted
              (staff (st_db (snd (serve_logged route req d date sql n))))
              entry
         then old' ++ [entry] else old')%list /\
    log_status entry =
      (if statusCode (st_res (snd (serve_logged route req d date sql n)))
          <? 400
       then "success" else "error") /\
    log_staff_id entry = JS.or_null (option_map rs_id (req_staff req)) /\
    (req_staff req = None -> log_staff_id entry = None) /\
    log_details entry = mkLogDetails (method req) (path req) (query_ req) /\
    log_action entry = Routes.action route /\
    log_resource_type entry = Routes.resourceType route /\
    log_resource_id entry = JS.or_null (params_id req) /\
    log_user_agent entry = headers_user_agent req /\
    log_error_message entry = JS.or_null (error b).
Proof.
  unfold serve_logged.
  destruct (logged_run route req (request_state d date sql n) eq_refl eq_refl)
    as [code [b [st2 [_ [Hres [L E]]]]]].
  rewrite E. cbn [fst snd]. split; [reflexivity|].
  exists b, (staff_activity_logs (st_db st2)),
    (activity_row (uuid_generate_v4 (uuid_count st2)) code sql
       (mkImmediate
          (mkJsonWrapper (Routes.action route) (Routes.resourceType route) req)
          b)).
  cbn [sql_now request_state].
  change (Sql.log_accepted (staff (st_db st2))
            (activity_row "" code sql
               (mkImmediate
                  (mkJsonWrapper (Routes.action route)
                                 (Routes.resourceType route) req) b)))
    with (Sql.log_accepted (staff (st_db st2))
            (activity_row (uuid_generate_v4 (uuid_count st2)) code sql
               (mkImmediate
                  (mkJsonWrapper (Routes.action route)
                                 (Routes.resourceType route) req) b))).
  destruct (Sql.log_accepted (staff (st_db st2))
              (activity_row (uuid_generate_v4 (uuid_count st2)) code sql
                 (mkImmediate
                    (mkJsonWrapper (Routes.action route)
                                   (Routes.resourceType route) req) b)))
    eqn:Hacc;
    cbn [st_res st_db Sql.with_logs staff_activity_logs staff];
    rewrite Hres; cbn [sent statusCode]; rewrite ?Hacc;
    (repeat split; try reflexivity;
     [exact L | intros Hnone; cbn; now rewrite Hnone]).
Qed.

(** C4, at a failing input: the account a@x.com, active, with three failed
    attempts and a lockout that expired, logs in with its password.  The
    statement of [getPermissions] raises before [updateLastLogin] is
    reached: the answer is 400 with the store's message, and the counter
    and the lockout-expiry stay as they were. *)
Lemma login_right_password_counter_kept :
  lockout_of expired_state = Some (3, Some 500) /\
  response_of right_password_login = (400, [login_failed Sql.cannot_cast]) /\
  st_calls right_password_login =
    [call_findByEmailWithPassword "a@x.com";
     call_verifyPassword "Secure1!A" "hash:Secure1!A";
     call_getPermissions "u-1"] /\
  lockout_of right_password_login = Some (3, Some 500).
Proof. repeat split. Qed.

Lemma sample_counters_nonneg (n : Z) (l : option Z) (s : string) :
  0 <= n -> counters_nonneg (sample_db n l s).
Proof. intros Hn r [<-|[]]. exact Hn. Qed.

(** X29. No handler of the router resets a counter of failed logins.  In a
    store whose counters are counts, a row that has counter 0 after a
    handler ran is a row (same id) whose counter was 0 before, or the row
    POST /staff inserted: the statement of [updateLastLogin], the one that
    writes 0, is never reached. *)
Theorem no_handler_resets_a_counter `{Externals} (route : Routes.Route)
    (req : Req) (st : St) (r' : StaffRow) :
  counters_nonneg (st_db st) ->
  In r' (staff (st_db (snd (Routes.handler route req st)))) ->
  failed_login_attempts r' = 0 ->
  (exists r, In r (staff (st_db st)) /\ id r = id r' /\
             failed_login_attempts r = 0) \/
  (route = Routes.post_staff /\ id r' = uuid_generate_v4 (uuid_count st)).
Proof.
  intros Hnn Hin Hzero.
  destruct (handler_shape route req st) as [code [b [st2 [E [_ [_ [Z_ _]]]]]]].
  rewrite E in Hin. exact (Z_ Hnn r' Hin Hzero).
Qed.

Lemma no_handler_resets_a_counter_witness :
  (exists r, In r (staff (sample_db 0 None "active")) /\ id r = "u-1" /\
             failed_login_attempts r = 0) \/
  (Routes.post_login = Routes.post_staff /\
   "u-1" = @uuid_generate_v4 sample_externals 0%nat).
Proof.
  apply (@no_handler_resets_a_counter sample_externals Routes.post_login
           (login_request "a@x.com" "Secure1!A") active_state
           (sample_account 0 None "active")).
  - apply sample_counters_nonneg. lia.
  - now left.
  - reflexivity.
Defined.

(** ** Lookup by e-mail *)

Lemma findByEmail_run (q : string) (st : St) :
  StaffModel.findByEmail q st =
    (Ok (option_map Sql.select_staff (stored_by_email (st_db st) q)),
     add_calls [call_findByEmail q] st).
Proof.
  unfold StaffModel.findByEmail, bind, record_call, modify,
    StaffModel.db_staff, ret. cbn.
  now rewrite hd_error_map.
Qed.

Lemma findByEmailWithPassword_run (q : string) (st : St) :
  StaffModel.findByEmailWithPassword q st =
    (Ok (option_map Sql.select_staff_with_password
                    (stored_by_email (st_db st) q)),
     add_calls [call_findByEmailWithPassword q] st).
Proof.
  unfold StaffModel.findByEmailWithPassword, bind, record_call, modify,
    StaffModel.db_staff, ret. cbn.
  now rewrite hd_error_map.
Qed.

Lemma stored_by_email_unique (d : DB) (r : StaffRow) :
  In r (staff d) ->
  NoDup (map email (staff d)) ->
  stored_by_email d (email r) = Some r.
Proof.
  unfold stored_by_email. induction (staff d) as [|x rows IH]; intros Hin Hnd.
  - destruct Hin.
  - cbn [map] in Hnd. inversion Hnd as [|? ? Hx Hrest]; subst.
    cbn [filter]. unfold Sql.email_is at 1.
    destruct Hin as [->|Hin].
    + now rewrite String.eqb_refl.
    + destruct (String.eqb_spec (email x) (email r)) as [E|E].
      * exfalso. apply Hx. rewrite E. now apply in_map.
      * now apply IH.
Qed.

Lemma stored_by_email_absent (d : DB) (q : string) :
  (forall r, In r (staff d) -> email r <> q) ->
  stored_by_email d q = None.
Proof.
  unfold stored_by_email. induction (staff d) as [|x rows IH]; intros Hno.
  - reflexivity.
  - cbn [filter]. unfold Sql.email_is at 1.
    destruct (String.eqb_spec (email x) q) as [E|E].
    + exfalso. apply (Hno x); [now left | exact E].
    + apply IH. intros r Hr. apply Hno. now right.
Qed.

(** C5, as stated, fails: the account stored under a@x.com is not found
    by the query A@X.COM, which differs from it only in letter case. *)
Lemma email_lookup_case_counterexample : ~ email_lookup_case_insensitive.
Proof.
  intros Hclaim.
  destruct (Hclaim (request_state (sample_db 0 None "active") 0 0 0)
                   (sample_account 0 None "active") "A@X.COM")
    as [Hfind _].
  - now left.
  - repeat constructor. intros [].
  - reflexivity.
  - discriminate Hfind.
Qed.

(** C5, amended. Lookup by e-mail compares character strings exactly:
    [findByEmail] and [findByEmailWithPassword] return the stored account
    whose e-mail is the query itself (e-mails being unique), every account
    they return has the query as its e-mail, and a query that is no stored
    e-mail returns null, even when it differs from one only in letter
    case. *)
Theorem email_lookup_exact (st : St) (q : string) :
  (forall r : StaffRow,
      In r (staff (st_db st)) ->
      NoDup (map email (staff (st_db st))) ->
      email r = q ->
      fst (StaffModel.findByEmail q st) = Ok (Some (Sql.select_staff r)) /\
      fst (StaffModel.findByEmailWithPassword q st)
        = Ok (Some (Sql.select_staff_with_password r))) /\
  (forall s : Staff,
      fst (StaffModel.findByEmail q st) = Ok (Some s) -> s_email s = q) /\
  (forall s : StaffWithPassword,
      fst (StaffModel.findByEmailWithPassword q st) = Ok (Some s) ->
      s_email (sp_staff s) = q) /\
  ((forall r : StaffRow, In r (staff (st_db st)) -> email r <> q) ->
      fst (StaffModel.findByEmail q st) = Ok None /\
      fst (StaffModel.findByEmailWithPassword q st) = Ok None).
Proof.
  rewrite findByEmail_run, findByEmailWithPassword_run. cbn [fst].
  split; [|split; [|split]].
  - intros r Hin Hnd <-. now rewrite (stored_by_email_unique _ _ Hin Hnd).
  - intros s Hs. destruct (stored_by_email (st_db st) q) as [r|] eqn:E;
      [|discriminate].
    cbn in Hs. injection Hs as <-. cbn.
    apply stored_by_email_id_is in E. now apply String.eqb_eq in E.
  - intros s Hs. destruct (stored_by_email (st_db st) q) as [r|] eqn:E;
      [|discriminate].
    cbn in Hs. injection Hs as <-. cbn.
    apply stored_by_email_id_is in E. now apply String.eqb_eq in E.
  - intros Hno. now rewrite (stored_by_email_absent _ _ Hno).
Qed.

Lemma email_lookup_exact_witness :
  fst (StaffModel.findByEmail "a@x.com" active_state)
    = Ok (Some (Sql.select_staff (sample_account 0 None "active"))) /\
  same_up_to_case "A@X.COM" "a@x.com" /\
  fst (StaffModel.findByEmail "A@X.COM" active_state) = Ok None /\
  fst (StaffModel.findByEmailWithPassword "A@X.COM" active_state) = Ok None.
Proof.
  pose (st := active_state).
  destruct (email_lookup_exact st "a@x.com") as [Hfound _].
  destruct (email_lookup_exact st "A@X.COM") as [_ [_ [_ Habsent]]].
  split.
  - apply (Hfound (sample_account 0 None "active")).
    + now left.
    + repeat constructor. intros [].
    + reflexivity.
  - split; [reflexivity|]. apply Habsent.
    intros r [<-|[]]. discriminate.
Defined.

(** ** The access-control interceptor *)

Section Authenticate.
Context `{Externals}.
Variables (req : Req) (st : St).

Lemma authenticate_no_bearer :
  bearer_token (headers_authorization req) = None ->
  rejects 401 "No authentication token provided" st (authenticateStaff req st).
Proof.
  intros Hb. unfold authenticateStaff, try_catch. rewrite Hb.
  repeat split.
Qed.

Variable token : string.
Hypothesis Hbearer : bearer_token (headers_authorization req) = Some token.

Lemma authenticate_bad_token :
  verifyToken token = None ->
  rejects 401 "Invalid or expired authentication token" st
          (authenticateStaff req st).
Proof.
  intros Hv. unfold authenticateStaff, try_catch. rewrite Hbearer.
  unfold call_verifyToken_, bind at 1. unfold bind at 1. cbn.
  rewrite Hv. repeat split.
Qed.

Variable payload : TokenPayload.
Hypothesis Hverify : verifyToken token = Some payload.

Ltac enter :=
  unfold authenticateStaff, try_catch; rewrite Hbearer;
  unfold call_verifyToken_, bind at 1; unfold bind at 1; cbn;
  rewrite Hverify; cbn; rewrite hd_error_map;
  change (hd_error (filter (Sql.id_is (tp_staffId payload)) (staff (st_db st))))
    with (stored_by_id (st_db st) (tp_staffId payload)).

Lemma authenticate_no_account :
  stored_by_id (st_db st) (tp_staffId payload) = None ->
  rejects 401 "Staff member not found" st (authenticateStaff req st).
Proof. intros Hs. enter. rewrite Hs. repeat split. Qed.

Variable r : StaffRow.
Hypothesis Hstored : stored_by_id (st_db st) (tp_staffId payload) = Some r.

Lemma authenticate_not_active :
  status r <> "active" ->
  rejects 403 "Staff account is not active" st (authenticateStaff req st).
Proof.
  intros Hs. enter. rewrite Hstored. cbn.
  apply String.eqb_neq in Hs. rewrite Hs. repeat split.
Qed.

Lemma authenticate_active :
  status r = "active" ->
  passes (attach_staff req payload) st (authenticateStaff req st).
Proof.
  intros Hs. enter. rewrite Hstored. cbn.
  apply String.eqb_eq in Hs. rewrite Hs. repeat split.
Qed.

End Authenticate.

(** C6. [authenticateStaff] answers 401 when the request carries no bearer
    token, when the token does not verify, and when no account has the
    token's staff id, and in no other case; it answers 403 when that
    account's status is not 'active'; otherwise it attaches the identity
    and the permission set of the token to the request and calls
    [next()]. *)
Theorem authenticateStaff_outcomes `{Externals} (req : Req) (st : St) :
  (headers_authorization req = None -> no_token req) /\
  (no_token req ->
     rejects 401 "No authentication token provided" st
             (authenticateStaff req st)) /\
  (bad_token req ->
     rejects 401 "Invalid or expired authentication token" st
             (authenticateStaff req st)) /\
  (forall payload, token_account req st payload None ->
     rejects 401 "Staff member not found" st (authenticateStaff req st)) /\
  (forall payload r, token_account req st payload (Some r) ->
     status r <> "active" ->
     rejects 403 "Staff account is not active" st (authenticateStaff req st)) /\
  (forall payload r, token_account req st payload (Some r) ->
     status r = "active" ->
     passes (attach_staff req payload) st (authenticateStaff req st) /\
     req_staff (attach_staff req payload) =
       Some (mkReqStaff (tp_staffId payload) (tp_email payload)
                        (tp_isAdmin payload) (tp_permissions payload))) /\
  ((fst (authenticateStaff req st) = Ok End_ /\
    statusCode (st_res (snd (authenticateStaff req st))) = 401) <->
   (no_token req \/ bad_token req \/
    exists payload, token_account req st payload None)).
Proof.
  unfold no_token, bad_token, token_account.
  assert (R : forall code msg y, rejects code msg st y ->
                fst y = Ok End_ /\ statusCode (st_res (snd y)) = code).
  { intros code msg y [Hf [Hr _]]. rewrite Hr. now split. }
  split; [intros Hh; unfold bearer_token; now rewrite Hh|].
  split; [apply authenticate_no_bearer|].
  split; [intros [t [Hb Hv]]; now apply (authenticate_bad_token req st t)|].
  split; [intros p [t [Hb [Hv Hs]]];
          now apply (authenticate_no_account req st t Hb p)|].
  split; [intros p r [t [Hb [Hv Hs]]] Hna;
          now apply (authenticate_not_active req st t Hb p Hv r)|].
  split; [intros p r [t [Hb [Hv Hs]]] Ha; split;
          [now apply (authenticate_active req st t Hb p Hv r) | reflexivity]|].
  split.
  - intros [Hend Hcode].
    destruct (bearer_token (headers_authorization req)) as [t|] eqn:Hb;
      [|now left].
    destruct (verifyToken t) as [p|] eqn:Hv;
      [|right; left; now exists t].
    destruct (stored_by_id (st_db st) (tp_staffId p)) as [r|] eqn:Hs;
      [|right; right; exists p, t; now repeat split].
    exfalso. destruct (String.eqb_spec (status r) "active") as [Ha|Hna].
    + destruct (authenticate_active req st t Hb p Hv r Hs Ha) as [Hn _].
      rewrite Hn in Hend. discriminate.
    + apply (authenticate_not_active req st t Hb p Hv r Hs) in Hna.
      apply R in Hna as [_ Hc]. rewrite Hc in Hcode. discriminate.
  - intros [Hno|[[t [Hb Hv]]|[p [t [Hb [Hv Hs]]]]]].
    + eapply R. now apply authenticate_no_bearer.
    + eapply R. now apply (authenticate_bad_token req st t).
    + eapply R. now apply (authenticate_no_account req st t Hb p).
Qed.

Lemma authenticateStaff_outcomes_witness :
  rejects 401 "No authentication token provided" active_state
          (@authenticateStaff sample_externals (sample_req None) active_state) /\
  rejects 401 "Invalid or expired authentication token" active_state
          (@authenticateStaff sample_externals (bearer_request "forged")
                              active_state) /\
  rejects 401 "Staff member not found" active_state
          (@authenticateStaff sample_externals (bearer_request "token:u-9")
                              active_state) /\
  rejects 403 "Staff account is not active" suspended_state
          (@authenticateStaff sample_externals (bearer_request "token:u-1")
                              suspended_state) /\
  passes (attach_staff (bearer_request "token:u-1") sample_payload) active_state
         (@authenticateStaff sample_externals (bearer_request "token:u-1")
                             active_state).
Proof.
  pose (req := bearer_request "token:u-1").
  pose (payload := sample_payload).
  pose (suspended := suspended_state).
  pose (active := active_state).
  split; [|split; [|split; [|split]]].
  - destruct (@authenticateStaff_outcomes sample_externals (sample_req None) active)
      as [_ [Hno _]].
    apply Hno. reflexivity.
  - destruct (@authenticateStaff_outcomes sample_externals
                (bearer_request "forged") active) as [_ [_ [Hbad _]]].
    apply Hbad. exists "forged". split; reflexivity.
  - destruct (@authenticateStaff_outcomes sample_externals
                (bearer_request "token:u-9") active) as [_ [_ [_ [Hnone _]]]].
    apply (Hnone (mkTokenPayload "u-9" "a@x.com" false ["staff:read"])).
    exists "token:u-9". repeat split.
  - destruct (@authenticateStaff_outcomes sample_externals req suspended)
      as [_ [_ [_ [_ [Hna _]]]]].
    apply (Hna payload (sample_account 0 None "suspended")).
    + exists "token:u-1". repeat split.
    + discriminate.
  - destruct (@authenticateStaff_outcomes sample_externals req active)
      as [_ [_ [_ [_ [_ [Hact _]]]]]].
    apply (Hact payload (sample_account 0 None "active")).
    + exists "token:u-1". repeat split.
    + reflexivity.
Defined.

(** ** Client-facing responses of login *)

(** C7. A login for an e-mail that matches no account and a login with a
    wrong password for an existing, unlocked, active account get the same
    response: status 401 with the same generic message.  A locked account
    and an account that is not active get 403 with their own messages,
    different from each other and from the generic one. *)
Theorem login_responses_hide_email `{Externals} (req1 req2 : Req)
    (st1 st2 : St) (r : StaffRow) :
  valid_login req1 ->
  valid_login req2 ->
  st_res st1 = st_res st2 ->
  stored_by_email (st_db st1) (login_email req1) = None ->
  stored_by_email (st_db st2) (login_email req2) = Some r ->
  (StaffController.is_locked (locked_until r) (date_now st2) = false ->
   status r = "active" ->
   verifyPassword (login_password req2) (password_hash r) = false ->
   response_of (snd (StaffController.login req1 st1)) =
     response_of (snd (StaffController.login req2 st2)) /\
   response_of (snd (StaffController.login req2 st2)) =
     (401, (sent (st_res st2) ++ [invalid_credentials])%list)) /\
  (StaffController.is_locked (locked_until r) (date_now st2) = true ->
   response_of (snd (StaffController.login req2 st2)) =
     (403, (sent (st_res st2) ++ [account_locked])%list)) /\
  (StaffController.is_locked (locked_until r) (date_now st2) = false ->
   status r <> "active" ->
   response_of (snd (StaffController.login req2 st2)) =
     (403, (sent (st_res st2) ++ [account_not_active])%list)) /\
  account_locked <> account_not_active /\
  account_locked <> invalid_credentials /\
  account_not_active <> invalid_credentials.
Proof.
  intros Hv1 Hv2 Hres Hnone Hsome.
  rewrite (login_unknown_email req1 st1 Hv1 Hnone).
  split; [|split; [|split; [|repeat split; discriminate]]].
  - intros Hu Ha Hw. apply String.eqb_eq in Ha.
    rewrite (login_wrong_password req2 st2 Hv2 r Hsome Hu Ha Hw).
    unfold response_of. cbn [snd]. cbn. now rewrite Hres.
  - intros Hl. rewrite (login_locked req2 st2 Hv2 r Hsome Hl). reflexivity.
  - intros Hu Hna. apply String.eqb_neq in Hna.
    rewrite (login_not_active req2 st2 Hv2 r Hsome Hu Hna). reflexivity.
Qed.

Lemma login_responses_hide_email_witness :
  response_of (snd (@StaffController.login sample_externals
                      (login_request "nobody@x.com" "Secure1!A")
                      active_state)) =
  response_of (snd (@StaffController.login sample_externals
                      (login_request "a@x.com" "guess") active_state)).
Proof.
  pose (known := active_state).
  destruct (@login_responses_hide_email sample_externals
              (login_request "nobody@x.com" "Secure1!A")
              (login_request "a@x.com" "guess") known known
              (sample_account 0 None "active")
              eq_refl eq_refl eq_refl eq_refl eq_refl) as [Hsame _].
  apply Hsame; reflexivity.
Defined.

Lemma logged_handler_appends_one_entry_witness :
  exists entry : ActivityLogRow,
    staff_activity_logs
      (st_db (snd (@serve_logged sample_externals Routes.post_login
                     (login_request "a@x.com" "guess")
                     (sample_db 0 None "active") 0 0 0))) = [entry] /\
    log_status entry = "error" /\
    log_staff_id entry = None /\
    log_details entry = mkLogDetails "POST" "/login" [].
Proof.
  destruct (@logged_handler_appends_one_entry sample_externals
              Routes.post_login (login_request "a@x.com" "guess")
              (sample_db 0 None "active") 0 0 0)
    as [_ [b [old' [entry [Hsent [Hold [Hlogs [Hstatus [Hstaff [Hnone [Hd
        [Ha [Hrt [Hrid [Hua Herr]]]]]]]]]]]]]]].
  exists entry. destruct old' as [|x old']; [|discriminate Hold].
  assert (Hb : b = invalid_credentials)
    by (cbn in Hsent; now injection Hsent).
  assert (Hacc :
            Sql.log_accepted
              (staff (st_db (snd (@serve_logged sample_externals
                                    Routes.post_login
                                    (login_request "a@x.com" "guess")
                                    (sample_db 0 None "active") 0 0 0))))
              entry = true).
  { unfold Sql.log_accepted.
    rewrite Hstaff, Ha, Hrt, Hrid, Hd, Hua, Herr, Hb. reflexivity. }
  rewrite Hacc in Hlogs.
  split; [exact Hlogs|]. split; [exact Hstatus|].
  split; [exact (Hnone eq_refl) | exact Hd].
Defined.

(** The layers in front of the logger answer by themselves: a request
    without a bearer token on a protected route gets 401 from
    [authenticateStaff] and leaves the activity log as it was. *)
Lemma unauthenticated_request_not_logged `{Externals} (route : Routes.Route)
    (req : Req) (d : DB) (date sql : Z) (n : nat) :
  Routes.is_public route = false ->
  no_token req ->
  fst (serve route req d date sql n) = Ok tt /\
  response_of (snd (serve route req d date sql n))
    = (401, [body_error "No authentication token provided"]) /\
  st_db (snd (serve route req d date sql n)) = d.
Proof.
  intros Hpub Hno. unfold serve, Routes.dispatch, Routes.guards.
  rewrite Hpub. cbn [app run_chain]. unfold bind at 1. unfold bind at 1.
  unfold authenticateStaff, try_catch. rewrite Hno. cbn.
  repeat split.
Qed.

(** *** The whole route *)

Lemma run_chain_app (ms ms' : list Middleware) (h : Handler) (req : Req)
    (st : St) :
  run_chain (ms ++ ms') h req st =
  match run_guards ms req st with
  | (Ok (Next req'), st') => run_chain ms' h req' st'
  | (Ok End_, st') => (Ok tt, st')
  | (Throw e, st') => (Throw e, st')
  end.
Proof.
  revert req st. induction ms as [|m ms IH]; intros req st; [reflexivity|].
  cbn [app run_chain run_guards]. unfold bind.
  destruct (m req st) as [[[req'|]|e] st']; [apply IH | reflexivity..].
Qed.

Lemma authenticateStaff_guard `{Externals} (req : Req) (st : St) :
  (exists payload r,
      token_account req st payload (Some r) /\
      status r = "active" /\
      let_through (attach_staff req payload) st (authenticateStaff req st)) \/
  turned_away st (authenticateStaff req st).
Proof.
  unfold authenticateStaff, try_catch, call_verifyToken_.
  destruct (bearer_token (headers_authorization req)) as [token|] eqn:Hb.
  - run_code. destruct (verifyToken token) as [payload|] eqn:Hv; run_code.
    + rewrite hd_error_map.
      change (hd_error (filter (Sql.id_is (tp_staffId payload))
                               (staff (st_db st))))
        with (stored_by_id (st_db st) (tp_staffId payload)).
      destruct (stored_by_id (st_db st) (tp_staffId payload)) as [r|] eqn:Hs;
        cbn.
      * destruct (String.eqb_spec (status r) "active") as [Ha|Ha]; cbn.
        -- left. exists payload, r. split; [now exists token|].
           split; [exact Ha | repeat split].
        -- right. split; [reflexivity|]. split; [reflexivity|].
           exists 403. eexists. split; [now right | repeat split].
      * right. split; [reflexivity|]. split; [reflexivity|].
        exists 401. eexists. split; [now left | repeat split].
    + right. split; [reflexivity|]. split; [reflexivity|].
      exists 401. eexists. split; [now left | repeat split].
  - run_code. right. split; [reflexivity|]. split; [reflexivity|].
    exists 401. eexists. split; [now left | repeat split].
Qed.

Lemma requirePermission_guard (permission : string) (req : Req) (st : St) :
  req_staff req <> None ->
  let_through req st (requirePermission permission req st) \/
  turned_away st (requirePermission permission req st).
Proof.
  intros Hstaff. unfold requirePermission.
  destruct (req_staff req) as [s|]; [|now elim Hstaff].
  split_paths;
    first [ solve [left; repeat split]
          | right; split; [reflexivity|]; split; [reflexivity|];
            exists 403; eexists; split; [right; reflexivity | repeat split] ].
Qed.

Lemma turned_away_later (st st1 : St) (x : Outcome Flow * St) :
  st_res st1 = st_res st ->
  st_immediates st1 = st_immediates st ->
  st_db st1 = st_db st ->
  date_now st1 = date_now st ->
  sql_now st1 = sql_now st ->
  turned_away st1 x -> turned_away st x.
Proof.
  intros Hr Hi Hd Hdate Hsql [Hf [Hdb [code [m [Hc [A1 [A2 [A3 A4]]]]]]]].
  split; [exact Hf|]. split; [congruence|].
  exists code, m. split; [exact Hc|].
  unfold answered_once. rewrite <- Hr, <- Hi. repeat split; congruence.
Qed.

Lemma run_guards_cons (m : Middleware) (ms : list Middleware) (req : Req)
    (st : St) :
  run_guards (m :: ms) req st =
  match m req st with
  | (Ok (Next req'), st') => run_guards ms req' st'
  | (Ok End_, st') => (Ok End_, st')
  | (Throw e, st') => (Throw e, st')
  end.
Proof.
  cbn [run_guards]. unfold bind.
  now destruct (m req st) as [[[req'|]|e] st'].
Qed.

Lemma guards_shape `{Externals} (route : Routes.Route) (req : Req) (st : St) :
  (exists req',
      passed_on route req st req' /\
      let_through req' st (run_guards (Routes.guards route) req st)) \/
  turned_away st (run_guards (Routes.guards route) req st).
Proof.
  unfold Routes.guards, passed_on.
  destruct (Routes.is_public route) eqn:Hpub.
  - (* the login route: no layer in front of the logger *)
    destruct route; try discriminate Hpub. cbn.
    left. exists req. repeat split. discriminate.
  - cbn [app]. rewrite run_guards_cons.
    destruct (authenticateStaff_guard req st)
      as [[payload [r [Htoken [Hactive L1]]]]|T1].
    + assert (Hstaff : req_staff (attach_staff req payload) <> None)
        by discriminate.
      destruct (authenticateStaff req st) as [o st1].
      destruct L1 as [Hf [Hr [Hi [Hd [Hdate Hsql]]]]]. cbn in Hf, Hr, Hi, Hd,
        Hdate, Hsql. subst o.
      destruct (Routes.permission route) as [p|]; cbn [run_guards].
      * fold (run_guards [requirePermission p] (attach_staff req payload)).
        rewrite run_guards_cons.
        destruct (requirePermission_guard p (attach_staff req payload) st1
                    Hstaff) as [L2|T2].
        -- destruct (requirePermission p (attach_staff req payload) st1)
             as [o2 st2].
           destruct L2 as [Hf2 [Hr2 [Hi2 [Hd2 [Hdate2 Hsql2]]]]].
           cbn in Hf2, Hr2, Hi2, Hd2, Hdate2, Hsql2. subst o2. cbn.
           left. exists (attach_staff req payload).
           split; [split; [discriminate | intros _; now exists payload, r]|].
           repeat split; cbn; congruence.
        -- right.
           apply (turned_away_later st st1); try assumption.
           destruct (requirePermission p (attach_staff req payload) st1)
             as [o2 st2].
           destruct T2 as [Hf2 T2]. cbn in Hf2. subst o2. cbn.
           split; [reflexivity | exact T2].
      * left. exists (attach_staff req payload).
        split; [split; [discriminate | intros _; now exists payload, r]|].
        repeat split; assumption.
    + right. destruct (authenticateStaff req st) as [o st1].
      destruct T1 as [Hf T1]. cbn in Hf. subst o. cbn.
      split; [reflexivity | exact T1].
Qed.

(** X1. A request on the login route or a mutating route, through all the
    layers of its route, ends normally in one of two ways.  Either a layer
    in front of the logger answers it, with 401 or 403, and the store (the
    activity log included) stays as it was.  Or it reaches the logger, gets
    one response, and the logger's callback sends one entry to the store:
    the route's action and resource type, the request's method, path, query,
    [:id] and user agent, the error of the response, status 'success' below
    400 and 'error' otherwise, and as staff id the one the verified token
    names, for an account that is stored and active (on the login route,
    which has no guard, the identity attached to the request, if any).  The
    log grows by exactly this entry when the store accepts it
    ([Sql.log_accepted]) and stays as it was when the store refuses it. *)
Theorem request_logged_or_turned_away `{Externals} (route : Routes.Route)
    (req : Req) (d : DB) (date sql : Z) (n : nat) :
  fst (serve route req d date sql n) = Ok tt /\
  ((exists (code : Z) (m : string),
       (code = 401 \/ code = 403) /\
       response_of (snd (serve route req d date sql n))
         = (code, [body_error m]) /\
       st_db (snd (serve route req d date sql n)) = d) \/
   (exists (b : Body) (old' : list ActivityLogRow) (entry : ActivityLogRow),
       sent (st_res (snd (serve route req d date sql n))) = [b] /\
       map log_id old' = map log_id (staff_activity_logs d) /\
       staff_activity_logs (st_db (snd (serve route req d date sql n)))
         = (if Sql.log_accepted
                 (staff (st_db (snd (serve route req d date sql n)))) entry
            then old' ++ [entry] else old')%list /\
       log_status entry =
         (if statusCode (st_res (snd (serve route req d date sql n))) <? 400
          then "success" else "error") /\
       log_details entry = mkLogDetails (method req) (path req) (query_ req) /\
       log_action entry = Routes.action route /\
       log_resource_type entry = Routes.resourceType route /\
       log_resource_id entry = JS.or_null (params_id req) /\
       log_user_agent entry = headers_user_agent req /\
       log_error_message entry = JS.or_null (error b) /\
       (Routes.is_public route = true ->
        log_staff_id entry = JS.or_null (option_map rs_id (req_staff req))) /\
       (Routes.is_public route = false ->
        exists (payload : TokenPayload) (r : StaffRow),
          token_account req (request_state d date sql n) payload (Some r) /\
          status r = "active" /\
          log_staff_id entry = JS.or_null (Some (tp_staffId payload))))).
Proof.
  set (st0 := request_state d date sql n).
  assert (Hrun : serve route req d date sql n =
                 match run_guards (Routes.guards route) req st0 with
                 | (Ok (Next req'), st') => Routes.logged route req' st'
                 | (Ok End_, st') => drain_immediates st'
                 | (Throw e, st') => (Throw e, st')
                 end).
  { unfold serve, Routes.dispatch, Routes.logged. fold st0.
    unfold bind at 1. rewrite run_chain_app.
    now destruct (run_guards (Routes.guards route) req st0)
      as [[[req'|]|e] st']. }
  rewrite Hrun. clear Hrun.
  destruct (guards_shape route req st0) as [[req' [[Hpub Hprot] L]]|T].
  - destruct (run_guards (Routes.guards route) req st0) as [o st1].
    destruct L as [Hf [Hr [Hi [Hd [Hdate Hsql]]]]].
    cbn in Hf, Hr, Hi, Hd, Hdate, Hsql. subst o.
    assert (Hw : json_wrappers (st_res st1) = []) by now rewrite Hr.
    destruct (logged_run route req' st1 Hw Hi)
      as [code [b [st2 [_ [Hres [Hlog E]]]]]].
    rewrite E. cbn [fst snd]. split; [reflexivity|]. right.
    assert (Hsame : method req' = method req /\ path req' = path req /\
                    query_ req' = query_ req /\
                    params_id req' = params_id req /\
                    headers_user_agent req' = headers_user_agent req).
    { destruct (Routes.is_public route).
      - now rewrite (Hpub eq_refl).
      - destruct (Hprot eq_refl) as [payload [r [_ [_ ->]]]]. repeat split. }
    destruct Hsame as [Hm [Hp [Hq [Hid Hua]]]].
    exists b, (staff_activity_logs (st_db st2)),
      (activity_row (uuid_generate_v4 (uuid_count st2)) code (sql_now st1)
         (mkImmediate
            (mkJsonWrapper (Routes.action route) (Routes.resourceType route)
                           req') b)).
    change (Sql.log_accepted (staff (st_db st2))
              (activity_row "" code (sql_now st1)
                 (mkImmediate
                    (mkJsonWrapper (Routes.action route)
                                   (Routes.resourceType route) req') b)))
      with (Sql.log_accepted (staff (st_db st2))
              (activity_row (uuid_generate_v4 (uuid_count st2)) code
                 (sql_now st1)
                 (mkImmediate
                    (mkJsonWrapper (Routes.action route)
                                   (Routes.resourceType route) req') b))).
    destruct (Sql.log_accepted (staff (st_db st2))
                (activity_row (uuid_generate_v4 (uuid_count st2)) code
                   (sql_now st1)
                   (mkImmediate
                      (mkJsonWrapper (Routes.action route)
                                     (Routes.resourceType route) req') b)))
      eqn:Hacc;
      cbn [st_res st_db Sql.with_logs staff_activity_logs staff];
      rewrite Hres, Hr; cbn [sent statusCode app]; rewrite ?Hacc;
      (split; [reflexivity|]);
      (split; [now rewrite Hlog, Hd|]);
      (split; [reflexivity|]);
      (split; [reflexivity|]);
      cbn; rewrite Hm, Hp, Hq, Hid, Hua;
      (repeat split; try reflexivity;
       [ intros E'; now rewrite (Hpub E')
       | intros E'; destruct (Hprot E') as [payload [r [Ht [Ha ->]]]];
         exists payload, r; repeat split; assumption ]).
  - destruct (run_guards (Routes.guards route) req st0) as [o st1].
    destruct T as [Hf [Hd [code [m [Hc [Hres [Hi _]]]]]]].
    cbn in Hf, Hd, Hres, Hi. subst o.
    unfold drain_immediates, bind, get, modify. cbn.
    rewrite Hi. cbn. split; [reflexivity|]. left.
    exists code, m. split; [exact Hc|]. split; [|exact Hd].
    unfold response_of. cbn. now rewrite Hres.
Qed.

(** ** Role assignments *)

Lemma filter_none {A} (p : A -> bool) (l : list A) :
  List.length (filter p l) = 0%nat -> filter (fun a => negb (p a)) l = l.
Proof.
  induction l as [|x l IH]; [reflexivity|]. cbn [filter].
  destruct (p x); [discriminate|]. cbn. intros Hl. now rewrite IH.
Qed.

Lemma with_assignments_same (d : DB) :
  Sql.with_assignments (staff_role_assignments d) d = d.
Proof. now destruct d. Qed.

Lemma existsb_count {A} (p : A -> bool) (l : list A) :
  existsb p l = negb (Nat.eqb (List.length (filter p l)) 0).
Proof.
  induction l as [|x l IH]; [reflexivity|]. cbn [existsb filter].
  destruct (p x); [reflexivity | exact IH].
Qed.

Lemma assignRole_run `{Externals} (s r : string) (by_ : option string)
    (st : St) :
  fst (StaffModel.assignRole s r by_ st) = Ok tt /\
  (count_assignments (st_db st) s r <> 0%nat ->
   st_db (snd (StaffModel.assignRole s r by_ st)) = st_db st) /\
  (count_assignments (st_db st) s r = 0%nat ->
   count_assignments (st_db (snd (StaffModel.assignRole s r by_ st))) s r
     = 1%nat).
Proof.
  unfold StaffModel.assignRole, bind, record_call, modify, get, ret,
    fresh_uuid, count_assignments. cbn.
  rewrite existsb_count.
  destruct (Nat.eqb_spec
              (List.length (filter (Sql.same_assignment s r)
                                   (staff_role_assignments (st_db st)))) 0)
    as [E|E]; cbn.
  - split; [reflexivity|]. split; [intros Hne; now elim Hne|]. intros _.
    rewrite filter_app, length_app, E. cbn.
    unfold Sql.same_assignment. cbn. now rewrite !String.eqb_refl.
  - split; [reflexivity|]. split; [reflexivity|]. intros E0. now elim E.
Qed.

(** C9. Assigning a role twice: both calls return normally, the second
    leaves the store as the first left it, and the pair has exactly one row
    of staff_role_assignments (the table holding at most one row for the
    pair beforehand, as its UNIQUE constraint has it).  Removing an
    assignment that is not there returns normally and leaves the store as it
    was. *)
Theorem role_assignment_idempotent `{Externals} (s r : string)
    (by1 by2 : option string) (st : St) :
  (fst (StaffModel.assignRole s r by1 st) = Ok tt /\
   fst (StaffModel.assignRole s r by2 (snd (StaffModel.assignRole s r by1 st)))
     = Ok tt /\
   st_db (snd (StaffModel.assignRole s r by2
                 (snd (StaffModel.assignRole s r by1 st))))
     = st_db (snd (StaffModel.assignRole s r by1 st)) /\
   ((count_assignments (st_db st) s r <= 1)%nat ->
    count_assignments (st_db (snd (StaffModel.assignRole s r by1 st))) s r
      = 1%nat /\
    count_assignments
      (st_db (snd (StaffModel.assignRole s r by2
                     (snd (StaffModel.assignRole s r by1 st))))) s r
      = 1%nat)) /\
  (count_assignments (st_db st) s r = 0%nat ->
   fst (StaffModel.removeRole s r st) = Ok tt /\
   st_db (snd (StaffModel.removeRole s r st)) = st_db st /\
   st_res (snd (StaffModel.removeRole s r st)) = st_res st).
Proof.
  set (st1 := snd (StaffModel.assignRole s r by1 st)).
  set (st2 := snd (StaffModel.assignRole s r by2 st1)).
  destruct (assignRole_run s r by1 st) as [Hok1 [Hsame1 Hnew1]].
  destruct (assignRole_run s r by2 st1) as [Hok2 [Hsame2 _]].
  fold st1 in Hsame1, Hnew1. fold st2 in Hsame2.
  assert (Hone : count_assignments (st_db st1) s r <> 0%nat).
  { destruct (Nat.eq_dec (count_assignments (st_db st) s r) 0) as [E|E].
    - rewrite (Hnew1 E). discriminate.
    - now rewrite (Hsame1 E). }
  split; [split; [exact Hok1 | split; [exact Hok2 | split]]|].
  - exact (Hsame2 Hone).
  - intros Hle. rewrite (Hsame2 Hone).
    assert (count_assignments (st_db st1) s r = 1%nat); [|now split].
    destruct (Nat.eq_dec (count_assignments (st_db st) s r) 0) as [E|E].
    + exact (Hnew1 E).
    + rewrite (Hsame1 E). lia.
  - intros Hzero.
    unfold StaffModel.removeRole, bind, record_call, modify. cbn.
    repeat split. unfold count_assignments in Hzero.
    rewrite (filter_none _ _ Hzero). apply with_assignments_same.
Qed.

Lemma role_assignment_idempotent_witness :
  count_assignments
    (st_db (snd (@StaffModel.assignRole sample_externals "u-1" "r-1"
                   (Some "u-0")
                   (snd (@StaffModel.assignRole sample_externals "u-1" "r-1"
                           (Some "u-0") (request_state (role_db []) 0 0 0))))))
    "u-1" "r-1" = 1%nat /\
  st_db (snd (StaffModel.removeRole "u-1" "r-2"
                (request_state (role_db []) 0 0 0)))
    = st_db (request_state (role_db []) 0 0 0).
Proof.
  pose (st := request_state (role_db []) 0 0 0).
  pose (st2 := st).
  split.
  - destruct (@role_assignment_idempotent sample_externals "u-1" "r-1"
                (Some "u-0") (Some "u-0") st) as [[_ [_ [_ Hcount]]] _].
    apply Hcount. cbn. lia.
  - destruct (@role_assignment_idempotent sample_externals "u-1" "r-2"
                None None st2) as [_ Hremove].
    apply Hremove. reflexivity.
Defined.

(** ** Self-deletion *)

(** C10. The guard against self-deletion compares the path id and the
    caller's id as texts, the store compares them as UUIDs.  Here the
    caller's id is that of the stored account and the path id is the same
    UUID written with a capital letter: the store reads it as the caller's
    id, yet the handler does not answer 400, Cannot delete your own
    account, and goes on to the model layer with it. *)
Lemma delete_own_account_other_spelling :
  stored_by_id own_db (rs_id own_caller) = Some own_account /\
  Sql.uuid_in own_id_capital = Some (rs_id own_caller) /\
  own_id_capital <> rs_id own_caller /\
  fst (response_of own_delete) <> 400 /\
  ~ In (body_error "Cannot delete your own account")
       (snd (response_of own_delete)) /\
  In (call_findById own_id_capital) (st_calls own_delete).
Proof.
  repeat split; try discriminate.
  - intros [E|[]]. discriminate E.
  - now left.
Qed.

(** X27. The guard of DELETE /staff/:id against self-deletion.  On an
    authenticated request whose path id is, character for character, the
    id the caller's identity carries, the handler answers 400, Cannot
    delete your own account, and nothing else happens: it makes no call to
    the model layer ([StaffModel.delete] is not invoked) and the store, the
    caller's row included, is as it was. *)
Theorem delete_own_account_rejected (req : Req) (st : St) (caller : ReqStaff)
    (i : string) :
  req_staff req = Some caller ->
  params_id req = Some i ->
  i = rs_id caller ->
  StaffController.delete req st =
    (Ok tt, after_respond 400 (body_error "Cannot delete your own account") st) /\
  statusCode (st_res (snd (StaffController.delete req st))) = 400 /\
  st_calls (snd (StaffController.delete req st)) = st_calls st /\
  st_db (snd (StaffController.delete req st)) = st_db st /\
  stored_by_id (st_db (snd (StaffController.delete req st))) i
    = stored_by_id (st_db st) i.
Proof.
  intros Hcaller Hid ->.
  assert (E : StaffController.delete req st =
              (Ok tt, after_respond 400
                        (body_error "Cannot delete your own account") st)).
  { unfold StaffController.delete, try_catch, bind at 1.
    unfold StaffController.req_staff_bang. rewrite Hcaller, Hid. cbn.
    now rewrite String.eqb_refl. }
  split; [exact E|]. rewrite E. cbn [snd].
  rewrite after_respond_calls, after_respond_db, after_respond_statusCode.
  repeat split.
Qed.

Lemma delete_own_account_rejected_witness :
  response_of (snd (StaffController.delete (delete_request "u-1" sample_caller)
                                           active_state))
    = (400, [body_error "Cannot delete your own account"]) /\
  stored_by_id
    (st_db (snd (StaffController.delete (delete_request "u-1" sample_caller)
                                        active_state))) "u-1"
    = Some (sample_account 0 None "active").
Proof.
  destruct (delete_own_account_rejected (delete_request "u-1" sample_caller)
              active_state sample_caller "u-1" eq_refl eq_refl eq_refl)
    as [E _].
  rewrite E. split; reflexivity.
Defined.

(** * Further properties *)

(** ** Roles and the permissions they list *)

Lemma distinct_In (xs : list string) (x : string) :
  In x (Sql.distinct xs) <-> In x xs.
Proof.
  induction xs as [|y r IH]; [reflexivity|]. cbn [Sql.distinct].
  split.
  - intros [<-|Hin]; [now left|].
    apply filter_In in Hin as [Hin _]. right. now apply IH.
  - intros [<-|Hin]; [now left|].
    destruct (String.eqb_spec x y) as [->|Hne]; [now left|].
    right. apply filter_In. split; [now apply IH|].
    apply negb_true_iff. now apply String.eqb_neq.
Qed.

Lemma roles_of_In (d : DB) (s : string) (ro : RoleRow) :
  In ro (StaffModel.roles_of d s) <->
  In ro (staff_roles d) /\
  exists a, In a (staff_role_assignments d) /\
            sra_staff_id a = s /\ sra_role_id a = role_id_ ro.
Proof.
  unfold StaffModel.roles_of. rewrite in_flat_map. split.
  - intros [ro' [Hro Hin]]. apply in_map_iff in Hin as [a [<- Ha]].
    apply filter_In in Ha as [Ha Hm]. apply andb_prop in Hm as [Hr Hs].
    apply String.eqb_eq in Hr, Hs. split; [exact Hro|]. now exists a.
  - intros [Hro [a [Ha [Hs Hr]]]]. exists ro. split; [exact Hro|].
    apply in_map_iff. exists a. split; [reflexivity|].
    apply filter_In. split; [exact Ha|].
    apply andb_true_intro. split; now apply String.eqb_eq.
Qed.

Lemma permissions_of_In (d : DB) (s p : string) :
  In p (permissions_of d s) <-> role_grants d s p.
Proof.
  unfold permissions_of, role_grants. rewrite distinct_In, in_flat_map. split.
  - intros [ro [Hro Hp]]. apply roles_of_In in Hro as [Hro [a [Ha [Hs Hr]]]].
    now exists ro, a.
  - intros [ro [a [Hro [Ha [Hs [Hr Hp]]]]]]. exists ro. split; [|exact Hp].
    apply roles_of_In. split; [exact Hro|]. now exists a.
Qed.

(** ** Logging in with the right password *)

(** X2. No login succeeds.  The statement of [getPermissions] is refused by
    the store on every call, so a login with the right password (the
    account active and not locked) is answered 400 with the store's
    message: after the lookup, the comparison of the password and the call
    to [getPermissions] nothing else is called, and the store, counter of
    failed attempts and lockout included, is left as it was.  Whatever the
    request, [login] answers 400, 401 or 403 and calls neither
    [updateLastLogin] nor [generateToken]. *)
Theorem login_never_succeeds `{Externals} (req : Req) (st : St) :
  (statusCode (st_res (snd (StaffController.login req st))) = 400 \/
   statusCode (st_res (snd (StaffController.login req st))) = 401 \/
   statusCode (st_res (snd (StaffController.login req st))) = 403) /\
  (forall i,
     In (call_updateLastLogin i)
        (st_calls (snd (StaffController.login req st))) ->
     In (call_updateLastLogin i) (st_calls st)) /\
  (forall p,
     In (call_generateToken p)
        (st_calls (snd (StaffController.login req st))) ->
     In (call_generateToken p) (st_calls st)) /\
  (forall r,
     valid_login req ->
     stored_by_email (st_db st) (login_email req) = Some r ->
     StaffController.is_locked (locked_until r) (date_now st) = false ->
     status r = "active" ->
     verifyPassword (login_password req) (password_hash r) = true ->
     fst (StaffController.login req st) = Ok tt /\
     response_of (snd (StaffController.login req st)) =
       (400, (sent (st_res st) ++ [login_failed Sql.cannot_cast])%list) /\
     st_calls (snd (StaffController.login req st)) =
       (st_calls st ++
          [call_findByEmailWithPassword (login_email req);
           call_verifyPassword (login_password req) (password_hash r);
           call_getPermissions (id r)])%list /\
     st_db (snd (StaffController.login req st)) = st_db st).
Proof.
  split; [|split; [|split]].
  - unfold StaffController.login, try_catch, bind at 1.
    unfold Validators.loginSchema_parse, Validators.parsed.
    split_paths; auto.
  - intros i. unfold StaffController.login, try_catch, bind at 1.
    unfold Validators.loginSchema_parse, Validators.parsed.
    split_paths; rewrite ?in_app_iff; cbn;
      intuition (try discriminate; try congruence).
  - intros p. unfold StaffController.login, try_catch, bind at 1.
    unfold Validators.loginSchema_parse, Validators.parsed.
    split_paths; rewrite ?in_app_iff; cbn;
      intuition (try discriminate; try congruence).
  - intros r Hvalid Hstored Hunlocked Hactive Hright.
    apply String.eqb_eq in Hactive.
    rewrite (login_correct_password req st Hvalid r Hstored Hunlocked Hactive
               Hright).
    repeat split.
Qed.

Lemma login_never_succeeds_witness :
  response_of (snd (@StaffController.login sample_externals
                      (login_request "a@x.com" "Secure1!A") active_state))
    = (400, [login_failed Sql.cannot_cast]) /\
  st_db (snd (@StaffController.login sample_externals
                (login_request "a@x.com" "Secure1!A") active_state))
    = st_db active_state.
Proof.
  destruct (@login_never_succeeds sample_externals
              (login_request "a@x.com" "Secure1!A") active_state)
    as [_ [_ [_ Hright]]].
  destruct (Hright (sample_account 0 None "active")
                   eq_refl eq_refl eq_refl eq_refl eq_refl)
    as [_ [Hresp [_ Hdb]]].
  split; [exact Hresp | exact Hdb].
Defined.

(** ** The other guards *)

(** X3. [requireAdmin] answers 401 when no identity is attached; it calls
    [next()] when the identity's admin flag is set or its permission set
    holds ["*"], and answers 403 otherwise. *)
Theorem requireAdmin_outcomes (req : Req) (st : St) :
  (req_staff req = None ->
     rejects 401 "Authentication required" st (requireAdmin req st)) /\
  (forall s, req_staff req = Some s ->
     rs_isAdmin s = true \/ In "*" (rs_permissions s) ->
     requireAdmin req st = (Ok (Next req), st)) /\
  (forall s, req_staff req = Some s ->
     rs_isAdmin s = false -> ~ In "*" (rs_permissions s) ->
     rejects 403 "Admin access required" st (requireAdmin req st)).
Proof.
  unfold requireAdmin. split; [|split].
  - intros ->. repeat split.
  - intros s -> [Ha|Hw].
    + now rewrite Ha.
    + apply includes_In in Hw. rewrite Hw.
      now destruct (rs_isAdmin s).
  - intros s -> Ha Hw. apply includes_not_In in Hw. rewrite Ha, Hw.
    repeat split.
Qed.

(** X4. [optionalAuth] never ends a request and never touches the response
    or the store: it always calls [next()].  It attaches the token's
    identity when the request carries a bearer token that verifies and the
    account of its staff id is active, and passes the request on as it is
    in every other case. *)
Theorem optionalAuth_always_continues `{Externals} (req : Req) (st : St) :
  (exists req',
      fst (optionalAuth req st) = Ok (Next req') /\
      (req' = req \/ exists p, req' = attach_staff req p)) /\
  st_res (snd (optionalAuth req st)) = st_res st /\
  st_db (snd (optionalAuth req st)) = st_db st /\
  st_immediates (snd (optionalAuth req st)) = st_immediates st /\
  (forall payload r,
      token_account req st payload (Some r) -> status r = "active" ->
      fst (optionalAuth req st) = Ok (Next (attach_staff req payload))) /\
  (no_token req \/ bad_token req \/
   (exists payload, token_account req st payload None) \/
   (exists payload r, token_account req st payload (Some r) /\
                      status r <> "active") ->
   fst (optionalAuth req st) = Ok (Next req)).
Proof.
  unfold optionalAuth, no_token, bad_token, token_account, try_catch,
    call_verifyToken_.
  destruct (bearer_token (headers_authorization req)) as [t|] eqn:Hb.
  - unfold bind, record_call, modify, ret, throw, StaffModel.findById,
      StaffModel.db_staff. cbn.
    destruct (verifyToken t) as [p|] eqn:Hv; cbn.
    + rewrite hd_error_map.
      change (hd_error (filter (Sql.id_is (tp_staffId p)) (staff (st_db st))))
        with (stored_by_id (st_db st) (tp_staffId p)).
      destruct (stored_by_id (st_db st) (tp_staffId p)) as [r|] eqn:Hs; cbn.
      * destruct (String.eqb_spec (status r) "active") as [Ha|Hna]; cbn.
        -- split; [eexists; split; [reflexivity | right; now exists p]|].
           repeat split; try reflexivity.
           ++ intros p' r' [t' [Ht [Hv' Hs']]] _. congruence.
           ++ intros [Hno|[[t' [Ht Hv']]|[[p' [t' [Ht [Hv' Hs']]]]|
                [p' [r' [[t' [Ht [Hv' Hs']]] Hna]]]]]]; congruence.
        -- split; [eexists; split; [reflexivity | now left]|].
           repeat split; try reflexivity.
           intros p' r' [t' [Ht [Hv' Hs']]] Ha. exfalso. apply Hna.
           assert (p' = p) by congruence. subst p'. congruence.
      * split; [eexists; split; [reflexivity | now left]|].
        repeat split; try reflexivity.
        intros p' r' [t' [Ht [Hv' Hs']]] _.
        assert (p' = p) by congruence. subst p'. congruence.
    + split; [eexists; split; [reflexivity | now left]|].
      repeat split; try reflexivity.
      intros p' r' [t' [Ht [Hv' Hs']]] _. congruence.
  - cbn. split; [eexists; split; [reflexivity | now left]|].
    repeat split; try reflexivity.
    intros p' r' [t' [Ht _]] _. discriminate Ht.
Qed.

(** X5. [requirePermission] outside the resource:action form: it answers
    401, Authentication required, whatever the permission when no identity
    is attached; and for a required permission without a colon the
    permission itself stands for the resource, so it is granted by ["*"], by
    the same string, or by that string followed by [":*"], and by nothing
    else. *)
Theorem requirePermission_edges (permission : string) (req : Req) (st : St) :
  (req_staff req = None ->
     rejects 401 "Authentication required" st
             (requirePermission permission req st)) /\
  (forall s, no_colon permission = true -> req_staff req = Some s ->
     (requirePermission permission req st = (Ok (Next req), st) <->
      In "*" (rs_permissions s) \/ In permission (rs_permissions s) \/
      In (permission ++ ":*") (rs_permissions s)) /\
     (~ (In "*" (rs_permissions s) \/ In permission (rs_permissions s) \/
         In (permission ++ ":*") (rs_permissions s)) ->
      rejects 403 "Insufficient permissions" st
              (requirePermission permission req st))).
Proof.
  split.
  - intros Hnone. unfold requirePermission. rewrite Hnone. repeat split.
  - intros s Hnc Hs. unfold requirePermission. rewrite Hs.
    assert (Hsplit : JS.split ":" permission = [permission]).
    { clear Hs. induction permission as [|c r IH]; [reflexivity|].
      cbn in Hnc. apply andb_prop in Hnc as [Hc Hr].
      apply negb_true_iff in Hc. cbn [JS.split]. rewrite Hc, (IH Hr).
      reflexivity. }
    rewrite Hsplit. cbn [JS.destructure2 nth_error].
    rewrite <- !includes_In.
    destruct (JS.includes (rs_permissions s) "*");
      [split; [split; [now left | reflexivity] | intros Hx; elim Hx; now left]|].
    destruct (JS.includes (rs_permissions s) permission);
      [split; [split; [right; now left | reflexivity]
              | intros Hx; elim Hx; right; now left]|].
    destruct (JS.includes (rs_permissions s) (permission ++ ":*"));
      [split; [split; [right; now right | reflexivity]
              | intros Hx; elim Hx; right; now right]|].
    split; [|intros _; repeat split].
    split; [discriminate | intros [Hx|[Hx|Hx]]; discriminate Hx].
Qed.

(** ** More of the lockout state machine *)

(** X6. A body that fails [loginSchema] (no e-mail or one zod refuses, no
    password or an empty one) is answered 400 with zod's message (or Login
    failed when that is empty): the handler makes no call to the model
    layer or to utils/auth and leaves the store as it was. *)
Theorem login_rejects_malformed_body `{Externals} (req : Req) (st : St) :
  ~ (exists e pw,
        b_email (body req) = Some e /\ is_email e = true /\
        b_password (body req) = Some pw /\ pw <> "") ->
  fst (StaffController.login req st) = Ok tt /\
  response_of (snd (StaffController.login req st)) =
    (400,
     (sent (st_res st) ++
        [body_error
           (JS.or_default
              (Some (zod_message (Validators.loginSchema_issues (body req))))
              "Login failed")])%list) /\
  st_calls (snd (StaffController.login req st)) = st_calls st /\
  st_db (snd (StaffController.login req st)) = st_db st.
Proof.
  intros Hbad.
  assert (Hinvalid : ~ valid_login req).
  { intros Hv. apply Hbad. now apply valid_login_iff. }
  rewrite (login_invalid_body req st Hinvalid). repeat split.
Qed.

Lemma login_rejects_malformed_body_witness :
  response_of (snd (@StaffController.login sample_externals
                      (login_request "a@x.com" "") active_state))
    = (400, [body_error "Password is required"]) /\
  st_db (snd (@StaffController.login sample_externals
                (login_request "a@x.com" "") active_state))
    = st_db active_state.
Proof.
  destruct (@login_rejects_malformed_body sample_externals
              (login_request "a@x.com" "") active_state)
    as [_ [Hr [_ Hd]]].
  - intros [e [pw [_ [_ [Hpw Hne]]]]]. injection Hpw as <-. now apply Hne.
  - split; [exact Hr | exact Hd].
Defined.

(** X7. An account whose status is not 'active' cannot log in, whatever
    the password: the answer is 403, Account is not active (or the
    account-locked answer while a lockout runs, which is tested first); the
    password is never compared and the store, counter included, is left as
    it was. *)
Theorem login_not_active_account `{Externals} (req : Req) (st : St)
    (r : StaffRow) :
  valid_login req ->
  stored_by_email (st_db st) (login_email req) = Some r ->
  status r <> "active" ->
  response_of (snd (StaffController.login req st)) =
    (403,
     (sent (st_res st) ++
        [if StaffController.is_locked (locked_until r) (date_now st)
         then account_locked else account_not_active])%list) /\
  st_calls (snd (StaffController.login req st)) =
    (st_calls st ++ [call_findByEmailWithPassword (login_email req)])%list /\
  st_db (snd (StaffController.login req st)) = st_db st.
Proof.
  intros Hvalid Hstored Hstatus. apply String.eqb_neq in Hstatus.
  destruct (StaffController.is_locked (locked_until r) (date_now st)) eqn:Hl.
  - rewrite (login_locked req st Hvalid r Hstored Hl). repeat split.
  - rewrite (login_not_active req st Hvalid r Hstored Hl Hstatus).
    repeat split.
Qed.

Lemma login_not_active_account_witness :
  response_of (snd (@StaffController.login sample_externals
                      (login_request "a@x.com" "Secure1!A") suspended_state))
    = (403, [account_not_active]) /\
  st_db (snd (@StaffController.login sample_externals
                (login_request "a@x.com" "Secure1!A") suspended_state))
    = st_db suspended_state.
Proof.
  destruct (@login_not_active_account sample_externals
              (login_request "a@x.com" "Secure1!A") suspended_state
              (sample_account 0 None "suspended") eq_refl eq_refl)
    as [Hr [_ Hd]].
  - discriminate.
  - split; [exact Hr | exact Hd].
Defined.

(** X8. Expiry of a lockout does not reset the counter, and
    [incrementFailedLogins] locks whenever the stored counter is 4 or more:
    so once the counter has reached that level, each further failed login
    (the account being active and its lockout, if any, expired) locks the
    account again for 30 minutes from the store's clock, and the counter
    keeps growing. *)
Theorem failed_login_relocks `{Externals} (req : Req) (st : St)
    (r : StaffRow) :
  valid_login req ->
  stored_by_email (st_db st) (login_email req) = Some r ->
  StaffController.is_locked (locked_until r) (date_now st) = false ->
  status r = "active" ->
  verifyPassword (login_password req) (password_hash r) = false ->
  4 <= failed_login_attempts r ->
  response_of (snd (StaffController.login req st)) =
    (401, (sent (st_res st) ++ [invalid_credentials])%list) /\
  exists r' : StaffRow,
    stored_by_email (st_db (snd (StaffController.login req st)))
                    (login_email req) = Some r' /\
    failed_login_attempts r' = failed_login_attempts r + 1 /\
    locked_until r' = Some (sql_now st + 30 * 60 * 1000) /\
    (forall now, now < sql_now st + 30 * 60 * 1000 ->
       StaffController.is_locked (locked_until r') now = true).
Proof.
  intros Hvalid Hstored Hunlocked Hstatus Hwrong Hcount.
  apply String.eqb_eq in Hstatus.
  rewrite (login_wrong_password req st Hvalid r Hstored Hunlocked Hstatus Hwrong).
  cbn [snd]. split; [reflexivity|].
  rewrite after_respond_db. cbn [st_db set_db].
  unfold failed_attempt_db. rewrite stored_by_email_update by reflexivity.
  rewrite Hstored. cbn [option_map]. unfold Sql.id_is.
  rewrite String.eqb_refl. eexists. split; [reflexivity|]. cbn.
  apply Z.leb_le in Hcount. rewrite Hcount.
  repeat split. intros now Hnow. now apply Z.ltb_lt.
Qed.

Lemma failed_login_relocks_witness :
  exists r' : StaffRow,
    stored_by_email
      (st_db (snd (@StaffController.login sample_externals
                     (login_request "a@x.com" "guess")
                     (request_state (sample_db 5 (Some 500) "active")
                                    1000 1000 0))))
      "a@x.com" = Some r' /\
    failed_login_attempts r' = 6 /\
    locked_until r' = Some 1801000.
Proof.
  destruct (@failed_login_relocks sample_externals
              (login_request "a@x.com" "guess")
              (request_state (sample_db 5 (Some 500) "active") 1000 1000 0)
              (sample_account 5 (Some 500) "active")
              eq_refl eq_refl eq_refl eq_refl eq_refl)
    as [_ [r' [Hs [Hc [Hl _]]]]].
  - discriminate.
  - exists r'. repeat split; assumption.
Defined.

Lemma logins_app `{Externals} (req : Req) (d : DB) (ts ts' : list (Z * Z)) :
  logins req d (ts ++ ts') = logins req (logins req d ts) ts'.
Proof.
  revert d. induction ts as [|t ts IH]; intros d; [reflexivity|].
  cbn [app logins]. apply IH.
Qed.

Lemma failed_login_step `{Externals} (req : Req) (d : DB) (t : Z * Z)
    (r : StaffRow) :
  valid_login req ->
  stored_by_email d (login_email req) = Some r ->
  status r = "active" ->
  StaffController.is_locked (locked_until r) (fst t) = false ->
  verifyPassword (login_password req) (password_hash r) = false ->
  stored_by_email (st_db (login_at req d t)) (login_email req) =
    Some (Sql.touch (snd t) (Sql.set_failed_login (snd t) r)).
Proof.
  intros Hvalid Hstored Hstatus Hunlocked Hwrong.
  apply String.eqb_eq in Hstatus. unfold login_at.
  rewrite (login_wrong_password req (request_state d (fst t) (snd t) 0)
             Hvalid r Hstored Hunlocked Hstatus Hwrong).
  cbn [snd]. rewrite after_respond_db. cbn [st_db set_db request_state sql_now].
  unfold failed_attempt_db. rewrite stored_by_email_update by reflexivity.
  rewrite Hstored. cbn [option_map]. unfold Sql.id_is.
  now rewrite String.eqb_refl.
Qed.

Lemma failed_logins_below_threshold `{Externals} (req : Req)
    (ts : list (Z * Z)) :
  valid_login req ->
  forall (d : DB) (r : StaffRow),
    stored_by_email d (login_email req) = Some r ->
    status r = "active" ->
    locked_until r = None ->
    verifyPassword (login_password req) (password_hash r) = false ->
    failed_login_attempts r + Z.of_nat (List.length ts) <= 4 ->
    exists r' : StaffRow,
      stored_by_email (logins req d ts) (login_email req) = Some r' /\
      failed_login_attempts r' =
        failed_login_attempts r + Z.of_nat (List.length ts) /\
      locked_until r' = None /\
      status r' = "active" /\
      password_hash r' = password_hash r.
Proof.
  intros Hvalid. induction ts as [|t ts IH];
    intros d r Hstored Hstatus Hnone Hwrong Hle.
  - exists r. cbn. repeat split; try assumption. lia.
  - cbn [logins].
    assert (Hunlocked :
              StaffController.is_locked (locked_until r) (fst t) = false)
      by now rewrite Hnone.
    pose proof (failed_login_step req d t r Hvalid Hstored Hstatus Hunlocked
                  Hwrong) as Hstep.
    cbn [List.length] in Hle. rewrite Nat2Z.inj_succ in Hle.
    destruct (IH _ _ Hstep) as [r' [Hs' [Hc' [Hl' [Hst' Hh']]]]].
    + exact Hstatus.
    + cbn. destruct (4 <=? failed_login_attempts r) eqn:E; [|exact Hnone].
      apply Z.leb_le in E. lia.
    + exact Hwrong.
    + cbn. lia.
    + exists r'. split; [exact Hs'|]. cbn in Hc', Hh'.
      cbn [List.length]. rewrite Nat2Z.inj_succ.
      repeat split; try assumption. lia.
Qed.

(** X9. The threshold is five failed logins in a row, counted in the store
    across requests: starting from an active account with counter 0 and no
    lockout, after any k <= 4 logins with a wrong password (at any times)
    the counter is k and no lockout is set; the fifth sets the counter to 5
    and the lockout to 30 minutes after the store's clock at that request. *)
Theorem five_failed_logins_lock `{Externals} (req : Req) (d : DB)
    (r : StaffRow) :
  valid_login req ->
  stored_by_email d (login_email req) = Some r ->
  status r = "active" ->
  failed_login_attempts r = 0 ->
  locked_until r = None ->
  verifyPassword (login_password req) (password_hash r) = false ->
  (forall ts : list (Z * Z),
      (List.length ts <= 4)%nat ->
      exists r' : StaffRow,
        stored_by_email (logins req d ts) (login_email req) = Some r' /\
        failed_login_attempts r' = Z.of_nat (List.length ts) /\
        locked_until r' = None) /\
  (forall (ts : list (Z * Z)) (t5 : Z * Z),
      List.length ts = 4%nat ->
      exists r' : StaffRow,
        stored_by_email (logins req d (ts ++ [t5])) (login_email req)
          = Some r' /\
        failed_login_attempts r' = 5 /\
        locked_until r' = Some (snd t5 + 30 * 60 * 1000)).
Proof.
  intros Hvalid Hstored Hstatus Hzero Hnone Hwrong. split.
  - intros ts Hlen.
    destruct (failed_logins_below_threshold req ts Hvalid d r Hstored Hstatus
                Hnone Hwrong) as [r' [Hs [Hc [Hl _]]]]; [lia|].
    exists r'. repeat split; try assumption. lia.
  - intros ts t5 Hlen.
    destruct (failed_logins_below_threshold req ts Hvalid d r Hstored Hstatus
                Hnone Hwrong) as [r4 [Hs [Hc [Hl [Hst Hh]]]]]; [lia|].
    rewrite logins_app. cbn [logins].
    assert (Hunlocked :
              StaffController.is_locked (locked_until r4) (fst t5) = false)
      by now rewrite Hl.
    assert (Hwrong4 : verifyPassword (login_password req) (password_hash r4)
                      = false) by now rewrite Hh.
    rewrite (failed_login_step req _ t5 r4 Hvalid Hs Hst Hunlocked Hwrong4).
    eexists. split; [reflexivity|]. cbn.
    assert (E : failed_login_attempts r4 = 4) by lia. rewrite E.
    split; reflexivity.
Qed.

Lemma five_failed_logins_lock_witness :
  exists r' : StaffRow,
    stored_by_email
      (@logins sample_externals (login_request "a@x.com" "guess")
               (sample_db 0 None "active")
               [(10, 11); (20, 21); (30, 31); (40, 41); (50, 51)])
      "a@x.com" = Some r' /\
    failed_login_attempts r' = 5 /\
    locked_until r' = Some 1800051.
Proof.
  destruct (@five_failed_logins_lock sample_externals
              (login_request "a@x.com" "guess") (sample_db 0 None "active")
              (sample_account 0 None "active")
              eq_refl eq_refl eq_refl eq_refl eq_refl eq_refl) as [_ Hfifth].
  exact (Hfifth [(10, 11); (20, 21); (30, 31); (40, 41)] (50, 51) eq_refl).
Defined.

(** ** From login to the guards *)

(** X10. A token is a snapshot.  A request bearing a token that verifies
    is authenticated as long as the account the token names exists and is
    active, and the identity attached is the one the token carries: staff
    id, e-mail, admin flag and permission list are the payload's, not read
    from the store.  [requirePermission] behind [authenticateStaff] then
    decides by the three-tier match on the payload's list, whatever roles
    and assignments the store holds: a role assigned or removed since the
    token was signed changes nothing for it. *)
Theorem token_permissions_are_a_snapshot `{Externals} (req : Req) (st : St)
    (token : string) (payload : TokenPayload) (r : StaffRow) :
  bearer_token (headers_authorization req) = Some token ->
  verifyToken token = Some payload ->
  stored_by_id (st_db st) (tp_staffId payload) = Some r ->
  status r = "active" ->
  passes (attach_staff req payload) st (authenticateStaff req st) /\
  req_staff (attach_staff req payload) =
    Some (mkReqStaff (tp_staffId payload) (tp_email payload)
                     (tp_isAdmin payload) (tp_permissions payload)) /\
  (forall (resource action : string),
      no_colon resource = true ->
      (fst (run_guards [authenticateStaff;
                        requirePermission (resource ++ ":" ++ action)]
                       req st)
         = Ok (Next (attach_staff req payload))
       <-> three_tier resource action (tp_permissions payload))).
Proof.
  intros Hbearer Hverify Hstored Hactive.
  pose proof (authenticate_active req st token Hbearer payload Hverify r
                Hstored Hactive) as Hpass.
  split; [exact Hpass|]. split; [reflexivity|].
  intros resource action Hnc. rewrite run_guards_cons.
  destruct Hpass as [Hf _].
  destruct (authenticateStaff req st) as [o st1]. cbn in Hf. subst o.
  rewrite run_guards_cons.
  destruct (three_tier_dec resource action (tp_permissions payload)) as [T|T].
  - rewrite (requirePermission_grants resource action _ Hnc T
               (attach_staff req payload) st1 _ eq_refl eq_refl).
    cbn. split; [intros _; exact T | reflexivity].
  - rewrite (requirePermission_denies resource action _ Hnc T
               (attach_staff req payload) st1 _ eq_refl eq_refl).
    cbn. split; [discriminate | intros T'; contradiction].
Qed.

Lemma token_permissions_are_a_snapshot_witness :
  fst (run_guards [@authenticateStaff sample_externals;
                   requirePermission "staff:read"]
                  (bearer_request "token:u-1") active_state)
  = Ok (Next (attach_staff (bearer_request "token:u-1") sample_payload)).
Proof.
  destruct (@token_permissions_are_a_snapshot sample_externals
              (bearer_request "token:u-1") active_state "token:u-1"
              sample_payload (sample_account 0 None "active")
              eq_refl eq_refl eq_refl eq_refl) as [_ [_ Hperm]].
  apply (Hperm "staff" "read" eq_refl).
  right. left. now left.
Defined.

(** ** Creating accounts *)


Lemma stored_by_email_none (d : DB) (e : string) :
  stored_by_email d e = None -> filter (Sql.email_is e) (staff d) = [].
Proof.
  unfold stored_by_email. now destruct (filter (Sql.email_is e) (staff d)).
Qed.

Lemma create_success `{Externals} (req : Req) (st : St) (caller : ReqStaff) :
  Validators.createStaffSchema_issues (body req) = [] ->
  fst (validatePassword (login_password req)) = true ->
  stored_by_email (st_db st) (login_email req) = None ->
  req_staff req = Some caller ->
  fst (StaffController.create req st) = Ok tt /\
  response_of (snd (StaffController.create req st)) =
    (201,
     (sent (st_res st) ++
        [body_data (DataStaff (Sql.returning_staff
                                 (created_row (body req) (rs_id caller) st)))])%list) /\
  st_db (snd (StaffController.create req st)) =
    Sql.with_staff
      (staff (st_db st) ++ [created_row (body req) (rs_id caller) st])
      (st_db st).
Proof.
  intros Hissues Hstrong Hnone Hcaller.
  unfold StaffController.create, try_catch, bind at 1.
  unfold Validators.createStaffSchema_parse, Validators.parsed.
  rewrite Hissues. run_code.
  change (Validators.get_ (b_password (body req))) with (login_password req).
  rewrite Hstrong. run_code. rewrite hd_error_map.
  change (hd_error (filter (Sql.email_is (Validators.get_ (b_email (body req))))
                           (staff (st_db st))))
    with (stored_by_email (st_db st) (login_email req)).
  rewrite Hnone, Hcaller. run_code. repeat split.
Qed.

Lemma stored_by_email_inserted (d : DB) (row : StaffRow) :
  stored_by_email d (email row) = None ->
  stored_by_email (Sql.with_staff (staff d ++ [row]) d) (email row) = Some row.
Proof.
  intros Hnone. unfold stored_by_email. cbn [staff Sql.with_staff].
  rewrite filter_app, (stored_by_email_none _ _ Hnone). cbn.
  unfold Sql.email_is. now rewrite String.eqb_refl.
Qed.

(** X11. POST /staff stores a new account.  For an authenticated request
    whose body passes [createStaffSchema], with a password the policy
    accepts and an e-mail no account has (and a row the store takes: texts
    that fit their columns, a fresh id, an employee id no account has, a
    caller that is an account), the handler answers 201 with the new row
    and the store gains exactly that row, found under its e-mail: the
    body's names and optional fields, the hash of the password, status
    'active', not a super admin, counter 0, no lockout, created by the
    caller at the store's clock.  The other rows stay as they were. *)
Theorem create_stores_new_account `{Externals} (req : Req) (st : St)
    (caller : ReqStaff) :
  Validators.createStaffSchema_issues (body req) = [] ->
  fst (validatePassword (login_password req)) = true ->
  stored_by_email (st_db st) (login_email req) = None ->
  req_staff req = Some caller ->
  insert_allowed (st_db st) (created_row (body req) (rs_id caller) st) = true ->
  exists row : StaffRow,
    response_of (snd (StaffController.create req st)) =
      (201,
       (sent (st_res st) ++
          [body_data (DataStaff (Sql.returning_staff row))])%list) /\
    st_db (snd (StaffController.create req st)) =
      Sql.with_staff (staff (st_db st) ++ [row]) (st_db st) /\
    stored_by_email (st_db (snd (StaffController.create req st)))
                    (login_email req) = Some row /\
    id row = uuid_generate_v4 (uuid_count st) /\
    email row = login_email req /\
    password_hash row = hashPassword (login_password req) /\
    (first_name row, last_name row) =
      (Validators.get_ (b_firstName (body req)),
       Validators.get_ (b_lastName (body req))) /\
    (phone row, department row, position row, employee_id row) =
      (b_phone (body req), b_department (body req), b_position (body req),
       b_employeeId (body req)) /\
    status row = "active" /\
    is_super_admin row = false /\
    failed_login_attempts row = 0 /\
    locked_until row = None /\
    created_by row = Some (rs_id caller) /\
    (created_at row, updated_at row) = (sql_now st, sql_now st).
Proof.
  intros Hissues Hstrong Hnone Hcaller _.
  destruct (create_success req st caller Hissues Hstrong Hnone Hcaller)
    as [_ [Hresp Hdb]].
  exists (created_row (body req) (rs_id caller) st).
  rewrite Hresp, Hdb. split; [reflexivity|]. split; [reflexivity|].
  split; [|repeat split].
  exact (stored_by_email_inserted (st_db st)
           (created_row (body req) (rs_id caller) st) Hnone).
Qed.

Lemma create_stores_new_account_witness :
  exists row : StaffRow,
    stored_by_email
      (st_db (snd (@StaffController.create sample_externals
                     (create_request "b@x.com" "Secure2!B" "Bo" "Lee"
                                     sample_caller)
                     active_state))) "b@x.com" = Some row /\
    status row = "active" /\
    created_by row = Some "u-1".
Proof.
  destruct (@create_stores_new_account sample_externals
              (create_request "b@x.com" "Secure2!B" "Bo" "Lee" sample_caller)
              active_state sample_caller
              eq_refl eq_refl eq_refl eq_refl eq_refl)
    as [row [_ [_ [Hfound [_ [_ [_ [_ [_ [Hstatus [_ [_ [_ [Hby _]]]]]]]]]]]]]].
  exists row. split; [exact Hfound|]. split; [exact Hstatus | exact Hby].
Defined.



(** ** Unique e-mails *)

Lemma emails_unique_same_staff (d d' : DB) :
  staff d' = staff d -> emails_unique d -> emails_unique d'.
Proof. unfold emails_unique. now intros ->. Qed.

Lemma emails_unique_update (d : DB) (now : Z) (w : StaffRow -> bool)
    (f : StaffRow -> StaffRow) :
  (forall r, email (f r) = email r) ->
  emails_unique d ->
  emails_unique (Sql.with_staff (Sql.update_rows now w f (staff d)) d).
Proof.
  unfold emails_unique, Sql.update_rows. cbn [staff Sql.with_staff].
  intros Hf Hd. rewrite map_map.
  erewrite map_ext; [exact Hd|].
  intros r. cbn. destruct (w r); [cbn; apply Hf | reflexivity].
Qed.

Lemma emails_unique_filter (d d' : DB) (keep : StaffRow -> bool) :
  staff d' = filter keep (staff d) -> emails_unique d -> emails_unique d'.
Proof.
  unfold emails_unique. intros ->.
  induction (staff d) as [|x rows IH]; [trivial|]. cbn [map filter].
  intros Hnd. inversion Hnd as [|? ? Hx Hrows]; subst.
  destruct (keep x); [|now apply IH]. cbn [map]. constructor; [|now apply IH].
  intros Hin. apply Hx. apply in_map_iff in Hin as [y [E Hy]].
  apply filter_In in Hy as [Hy _]. apply in_map_iff. now exists y.
Qed.

Lemma emails_unique_insert (d d' : DB) (row : StaffRow) (e : string) :
  hd_error (map Sql.select_staff (filter (Sql.email_is e) (staff d))) = None ->
  staff d' = (staff d ++ [row])%list ->
  email row = e ->
  emails_unique d -> emails_unique d'.
Proof.
  unfold emails_unique. intros Hnone -> <- Hd.
  rewrite map_app. cbn [map].
  rewrite hd_error_map in Hnone.
  assert (Hfil : filter (Sql.email_is (email row)) (staff d) = []).
  { destruct (filter (Sql.email_is (email row)) (staff d)); [reflexivity|].
    discriminate Hnone. }
  assert (Hfresh : ~ In (email row) (map email (staff d))).
  { intros Hin. apply in_map_iff in Hin as [x [E Hx]].
    assert (Hin : In x (filter (Sql.email_is (email row)) (staff d))).
    { apply filter_In. split; [exact Hx|]. unfold Sql.email_is.
      now apply String.eqb_eq. }
    rewrite Hfil in Hin. destruct Hin. }
  clear Hnone Hfil.
  induction (map email (staff d)) as [|x l IH]; cbn.
  - constructor; [intros [] | constructor].
  - inversion Hd as [|? ? Hx Hl]; subst. constructor.
    + intros Hin. apply in_app_or in Hin as [Hin|[E|[]]]; [now apply Hx|].
      apply Hfresh. now left.
    + apply IH; [exact Hl|]. intros Hin. apply Hfresh. now right.
Qed.

Ltac unique_emails :=
  cbn;
  first
    [ assumption
    | apply emails_unique_update; [intros; reflexivity | assumption]
    | eapply emails_unique_filter; [reflexivity | assumption]
    | eapply emails_unique_insert;
        [eassumption | reflexivity | reflexivity | assumption]
    | eapply emails_unique_same_staff; [reflexivity | assumption] ].

(** X13. E-mails stay unique: when no two rows of table staff share an
    e-mail, none do after login or any mutating handler has run, whatever
    the request.  POST /staff inserts only after its lookup found no row
    with the e-mail, and no handler changes a stored e-mail. *)
Theorem handlers_keep_emails_unique `{Externals} (route : Routes.Route)
    (req : Req) (st : St) :
  emails_unique (st_db st) ->
  emails_unique (st_db (snd (Routes.handler route req st))).
Proof.
  intros Hu. destruct route; unfold Routes.handler.
  - unfold StaffController.login, try_catch, bind at 1.
    unfold Validators.loginSchema_parse, Validators.parsed.
    split_paths; unique_emails.
  - unfold StaffController.changePassword, try_catch, bind at 1.
    unfold Validators.changePasswordSchema_parse, Validators.parsed.
    split_paths; unique_emails.
  - unfold StaffController.create, try_catch, bind at 1.
    unfold Validators.createStaffSchema_parse, Validators.parsed.
    split_paths; unique_emails.
  - unfold StaffController.update, try_catch, bind at 1.
    unfold Validators.updateStaffSchema_parse, Validators.parsed.
    split_paths; unique_emails.
  - unfold StaffController.delete, try_catch, bind at 1.
    split_paths; unique_emails.
  - unfold StaffController.assignRole, try_catch, bind at 1.
    split_paths; unique_emails.
  - unfold StaffController.removeRole, try_catch, bind at 1.
    split_paths; unique_emails.
Qed.

Lemma handlers_keep_emails_unique_witness :
  emails_unique
    (st_db (snd (@Routes.handler sample_externals Routes.post_staff
                   (create_request "b@x.com" "Secure2!B" "Bo" "Lee"
                                   sample_caller)
                   active_state))).
Proof.
  apply (@handlers_keep_emails_unique sample_externals).
  repeat constructor. intros [].
Defined.

(** ** Deleting accounts *)

Lemma stored_by_id_none (d : DB) (i : string) :
  stored_by_id d i = None <-> forall r, In r (staff d) -> id r <> i.
Proof.
  unfold stored_by_id. split.
  - intros Hnone r Hr Hid.
    assert (Hin : In r (filter (Sql.id_is i) (staff d))).
    { apply filter_In. split; [exact Hr|]. unfold Sql.id_is.
      now apply String.eqb_eq. }
    destruct (filter (Sql.id_is i) (staff d)); [destruct Hin | discriminate].
  - intros Hno. destruct (filter (Sql.id_is i) (staff d)) as [|x l] eqn:E;
      [reflexivity|]. exfalso.
    assert (Hin : In x (filter (Sql.id_is i) (staff d))) by (rewrite E; now left).
    apply filter_In in Hin as [Hx Hid]. apply (Hno x Hx).
    now apply String.eqb_eq in Hid.
Qed.

Lemma after_delete_gone (i : string) (st : St) :
  stored_by_id (after_delete i st) i = None.
Proof.
  apply stored_by_id_none. unfold after_delete. cbn. intros r Hr.
  apply filter_In in Hr as [_ Hne]. unfold Sql.id_is in Hne.
  now apply negb_true_iff, String.eqb_neq in Hne.
Qed.

(** X14. [StaffModel.delete(i)] removes every row of table staff with that
    id and no other, when no row that stays names it as creator, updater
    or assigner; by the schema's ON DELETE actions the staff member's role
    assignments go with it (no permission is left to resolve) and the
    activity log keeps all its rows, their staff id set to null where it
    was [i].  Roles are untouched. *)
Theorem delete_removes_account (i : string) (st : St) :
  delete_allowed (st_db st) i = true ->
  fst (StaffModel.delete i st) = Ok tt /\
  stored_by_id (after_delete i st) i = None /\
  (forall r, In r (staff (after_delete i st)) <->
             In r (staff (st_db st)) /\ id r <> i) /\
  (forall j, j <> i ->
     stored_by_id (after_delete i st) j = stored_by_id (st_db st) j) /\
  (forall a, In a (staff_role_assignments (after_delete i st)) <->
             In a (staff_role_assignments (st_db st)) /\ sra_staff_id a <> i) /\
  permissions_of (after_delete i st) i = [] /\
  staff_roles (after_delete i st) = staff_roles (st_db st) /\
  map log_id (staff_activity_logs (after_delete i st)) =
    map log_id (staff_activity_logs (st_db st)) /\
  (forall l, In l (staff_activity_logs (after_delete i st)) ->
             log_staff_id l <> Some i).
Proof.
  intros _.
  assert (Hdb : after_delete i st =
                mkDB (filter (fun r => negb (Sql.id_is i r)) (staff (st_db st)))
                     (staff_roles (st_db st))
                     (filter (fun a => negb (String.eqb (sra_staff_id a) i))
                             (staff_role_assignments (st_db st)))
                     (map (Sql.log_forget i) (staff_activity_logs (st_db st))))
    by reflexivity.
  rewrite Hdb. clear Hdb. cbn [staff staff_roles staff_role_assignments
                                 staff_activity_logs].
  assert (Hrows : forall r,
             In r (filter (fun r0 => negb (Sql.id_is i r0)) (staff (st_db st)))
             <-> In r (staff (st_db st)) /\ id r <> i).
  { intros r. rewrite filter_In. unfold Sql.id_is.
    rewrite negb_true_iff, String.eqb_neq. reflexivity. }
  split; [reflexivity|]. split; [|split; [exact Hrows|split; [|split;
    [|split; [|split; [reflexivity|split]]]]]].
  - apply stored_by_id_none. cbn [staff]. intros r Hr.
    now apply Hrows in Hr.
  - intros j Hj. unfold stored_by_id. cbn [staff]. f_equal. clear Hrows.
    induction (staff (st_db st)) as [|x l IH]; [reflexivity|].
    cbn [filter].
    destruct (Sql.id_is i x) eqn:Ei; cbn [negb filter];
      destruct (Sql.id_is j x) eqn:Ej;
      try (now rewrite IH); try exact IH.
    unfold Sql.id_is in Ei, Ej.
    apply String.eqb_eq in Ei, Ej. congruence.
  - intros a. rewrite filter_In, negb_true_iff, String.eqb_neq. reflexivity.
  - match goal with |- permissions_of ?d i = [] =>
      destruct (permissions_of d i) as [|p l] eqn:E; [reflexivity|];
      assert (Hin : In p (permissions_of d i)) by (rewrite E; now left)
    end.
    apply permissions_of_In in Hin as [ro [a [_ [Ha [Hs _]]]]].
    cbn [staff_role_assignments] in Ha.
    apply filter_In in Ha as [_ Hne].
    apply negb_true_iff, String.eqb_neq in Hne. contradiction.
  - apply map_log_id_forget.
  - intros l Hl. apply in_map_iff in Hl as [l0 [<- _]]. cbn.
    destruct (log_staff_id l0) as [j|]; [|discriminate].
    destruct (String.eqb_spec j i) as [E|E]; [discriminate | congruence].
Qed.

Lemma delete_removes_account_witness :
  stored_by_id (after_delete "u-2" two_accounts_state) "u-2" = None /\
  permissions_of (after_delete "u-2" two_accounts_state) "u-2" = [].
Proof.
  destruct (delete_removes_account "u-2" two_accounts_state eq_refl)
    as [_ [Hgone [_ [_ [_ [Hperm _]]]]]].
  split; [exact Hgone | exact Hperm].
Defined.

Lemma delete_run (req : Req) (st : St) (caller : ReqStaff) :
  req_staff req = Some caller ->
  StaffController.param (params_id req) <> rs_id caller ->
  StaffController.delete req st =
    match stored_by_id (st_db st) (StaffController.param (params_id req)) with
    | None =>
        (Ok tt,
         after_respond 404 (body_error "Staff member not found")
           (add_calls [call_findById (StaffController.param (params_id req))]
                      st))
    | Some _ =>
        (Ok tt,
         after_json (body_message "Staff member deleted successfully")
           (snd (StaffModel.delete (StaffController.param (params_id req))
                   (add_calls
                      [call_findById (StaffController.param (params_id req))]
                      st))))
    end.
Proof.
  intros Hcaller Hother.
  unfold StaffController.delete, try_catch, bind at 1.
  unfold StaffController.req_staff_bang. rewrite Hcaller. cbn.
  apply String.eqb_neq in Hother. rewrite Hother. cbn.
  rewrite hd_error_map.
  change (hd_error (filter (Sql.id_is (StaffController.param (params_id req)))
                           (staff (st_db st))))
    with (stored_by_id (st_db st) (StaffController.param (params_id req))).
  now destruct (stored_by_id (st_db st) (StaffController.param (params_id req))).
Qed.

(** X15. DELETE /staff/:id for an id other than the caller's, in a store
    whose ids are UUIDs as PostgreSQL prints them and for a path id and a
    caller's id in that same form: an id no account has is answered 404,
    Staff member not found, and the store is as it was; for an account
    that no remaining row references, the answer is the success message
    with the status left as it was, and the store is the one
    [StaffModel.delete] leaves: the account can no longer be found by its
    id. *)
Theorem delete_other_account (req : Req) (st : St) (caller : ReqStaff) :
  req_staff req = Some caller ->
  uuids_printed (st_db st) = true ->
  Sql.printed_uuid (rs_id caller) = true ->
  Sql.printed_uuid (StaffController.param (params_id req)) = true ->
  StaffController.param (params_id req) <> rs_id caller ->
  (stored_by_id (st_db st) (StaffController.param (params_id req)) = None ->
   response_of (snd (StaffController.delete req st)) =
     (404, (sent (st_res st) ++ [body_error "Staff member not found"])%list) /\
   st_db (snd (StaffController.delete req st)) = st_db st) /\
  (forall r,
     stored_by_id (st_db st) (StaffController.param (params_id req)) = Some r ->
     delete_allowed (st_db st) (StaffController.param (params_id req)) = true ->
     response_of (snd (StaffController.delete req st)) =
       (statusCode (st_res st),
        (sent (st_res st) ++
           [body_message "Staff member deleted successfully"])%list) /\
     st_db (snd (StaffController.delete req st)) =
       after_delete (StaffController.param (params_id req)) st /\
     stored_by_id (st_db (snd (StaffController.delete req st)))
                  (StaffController.param (params_id req)) = None).
Proof.
  intros Hcaller _ _ _ Hother.
  rewrite (delete_run req st caller Hcaller Hother).
  split.
  - intros ->. split; reflexivity.
  - intros r -> Hallowed. split; [reflexivity|].
    assert (Hdb : st_db (snd (Ok tt,
                    after_json (body_message "Staff member deleted successfully")
                      (snd (StaffModel.delete
                              (StaffController.param (params_id req))
                              (add_calls
                                 [call_findById
                                    (StaffController.param (params_id req))]
                                 st))))) =
                  after_delete (StaffController.param (params_id req)) st)
      by reflexivity.
    rewrite Hdb. split; [reflexivity|]. apply after_delete_gone.
Qed.

Lemma delete_other_account_witness :
  response_of (snd (StaffController.delete
                      (delete_request (uuid_ "2") printed_caller)
                      printed_state))
    = (200, [body_message "Staff member deleted successfully"]) /\
  stored_by_id
    (st_db (snd (StaffController.delete
                   (delete_request (uuid_ "2") printed_caller)
                   printed_state))) (uuid_ "2") = None.
Proof.
  destruct (delete_other_account (delete_request (uuid_ "2") printed_caller)
              printed_state printed_caller eq_refl eq_refl eq_refl eq_refl)
    as [_ Hfound].
  - discriminate.
  - destruct (Hfound (printed_account "2" "b@x.com" "Secure2!B"
                                      (Some (uuid_ "1")))
                     eq_refl eq_refl)
      as [Hresp [_ Hgone]].
    split; [exact Hresp | exact Hgone].
Defined.

Lemma stored_by_email_In (d : DB) (e : string) (r : StaffRow) :
  stored_by_email d e = Some r -> In r (staff d) /\ email r = e.
Proof.
  unfold stored_by_email. intros Hs.
  destruct (filter (Sql.email_is e) (staff d)) as [|x l] eqn:E;
    [discriminate|]. injection Hs as ->.
  assert (Hin : In r (filter (Sql.email_is e) (staff d)))
    by (rewrite E; now left).
  apply filter_In in Hin as [Hin He]. split; [exact Hin|].
  now apply String.eqb_eq in He.
Qed.

Lemma stored_by_id_In (d : DB) (i : string) (r : StaffRow) :
  stored_by_id d i = Some r -> In r (staff d) /\ id r = i.
Proof.
  unfold stored_by_id. intros Hs.
  destruct (filter (Sql.id_is i) (staff d)) as [|x l] eqn:E;
    [discriminate|]. injection Hs as ->.
  assert (Hin : In r (filter (Sql.id_is i) (staff d)))
    by (rewrite E; now left).
  apply filter_In in Hin as [Hin He]. split; [exact Hin|].
  now apply String.eqb_eq in He.
Qed.

Lemma NoDup_map_eq {A B : Type} (f : A -> B) (l : list A) (x y : A) :
  NoDup (map f l) -> In x l -> In y l -> f x = f y -> x = y.
Proof.
  induction l as [|a l IH]; intros Hnd Hx Hy Hf; [destruct Hx|].
  cbn in Hnd. inversion Hnd as [|? ? Hnot Hnd']; subst.
  destruct Hx as [->|Hx], Hy as [->|Hy].
  - reflexivity.
  - exfalso. apply Hnot. rewrite Hf. now apply in_map.
  - exfalso. apply Hnot. rewrite <- Hf. now apply in_map.
  - now apply IH.
Qed.

(** X16. A deleted account is shut out.  After DELETE /staff/:id removed the
    account [r], a token that names it is refused by [authenticateStaff]
    with 401, Staff member not found, whatever else the token says; and, the
    e-mails of the store being unique, a login under its e-mail is answered
    like one for an unknown address, 401, Invalid email or password. *)
Theorem deleted_account_is_shut_out `{Externals} (del : Req) (st : St)
    (caller : ReqStaff) (r : StaffRow) :
  req_staff del = Some caller ->
  StaffController.param (params_id del) <> rs_id caller ->
  stored_by_id (st_db st) (StaffController.param (params_id del)) = Some r ->
  delete_allowed (st_db st) (StaffController.param (params_id del)) = true ->
  emails_unique (st_db st) ->
  (forall (req : Req) (st' : St) (token : string) (payload : TokenPayload),
     st_db st' = st_db (snd (StaffController.delete del st)) ->
     bearer_token (headers_authorization req) = Some token ->
     verifyToken token = Some payload ->
     tp_staffId payload = id r ->
     rejects 401 "Staff member not found" st' (authenticateStaff req st')) /\
  (forall (req : Req) (t : Z * Z),
     valid_login req ->
     login_email req = email r ->
     response_of
       (login_at req (st_db (snd (StaffController.delete del st))) t)
       = (401, [invalid_credentials])).
Proof.
  intros Hcaller Hother Hstored Hallowed Huniq.
  rewrite (delete_run del st caller Hcaller Hother), Hstored.
  assert (Hdb : st_db (snd (Ok tt,
                  after_json (body_message "Staff member deleted successfully")
                    (snd (StaffModel.delete
                            (StaffController.param (params_id del))
                            (add_calls
                               [call_findById
                                  (StaffController.param (params_id del))]
                               st))))) =
                after_delete (StaffController.param (params_id del)) st)
    by reflexivity.
  rewrite Hdb. clear Hdb.
  destruct (stored_by_id_In _ _ _ Hstored) as [Hin Hid].
  split.
  - intros req st' token payload Hst' Hbearer Hverify Hpid.
    apply (authenticate_no_account req st' token Hbearer payload Hverify).
    rewrite Hst', Hpid, Hid. apply after_delete_gone.
  - intros req t Hvalid Hemail. unfold login_at.
    rewrite (login_unknown_email req _ Hvalid).
    + reflexivity.
    + cbn [st_db request_state]. rewrite Hemail.
      destruct (stored_by_email
                  (after_delete (StaffController.param (params_id del)) st)
                  (email r)) as [r'|] eqn:E; [|reflexivity].
      exfalso. apply stored_by_email_In in E as [Hin' He].
      unfold after_delete in Hin'. cbn in Hin'.
      apply filter_In in Hin' as [Hin' Hne].
      assert (r' = r) by (apply (NoDup_map_eq email (staff (st_db st)));
                          assumption).
      subst r'. unfold Sql.id_is in Hne. rewrite Hid, String.eqb_refl in Hne.
      discriminate.
Qed.

Lemma deleted_account_is_shut_out_witness :
  rejects 401 "Staff member not found"
    (request_state
       (st_db (snd (StaffController.delete (delete_request "u-2" sample_caller)
                                           two_accounts_state))) 9 9 0)
    (@authenticateStaff sample_externals (bearer_request "token:u-2")
       (request_state
          (st_db (snd (StaffController.delete
                         (delete_request "u-2" sample_caller)
                         two_accounts_state))) 9 9 0)).
Proof.
  assert (Huniq : emails_unique (st_db two_accounts_state)).
  { unfold emails_unique. cbn. repeat constructor; cbn; intuition discriminate. }
  destruct (@deleted_account_is_shut_out sample_externals
              (delete_request "u-2" sample_caller) two_accounts_state
              sample_caller (second_account "active")
              eq_refl ltac:(discriminate) eq_refl eq_refl Huniq)
    as [Htoken _].
  apply (Htoken (bearer_request "token:u-2") _ "token:u-2"
                (mkTokenPayload "u-2" "a@x.com" false ["staff:read"]));
    reflexivity.
Defined.

(** ** Changing the password *)

Section ChangePassword.

Context `{Externals}.
Variables (req : Req) (st : St) (caller : ReqStaff).
Hypothesis Hvalid : Validators.changePasswordSchema_issues (body req) = [].
Hypothesis Hcaller : req_staff req = Some caller.

Ltac enter_change :=
  unfold StaffController.changePassword, try_catch, bind at 1;
  unfold Validators.changePasswordSchema_parse, Validators.parsed;
  rewrite Hvalid; run_code; rewrite Hcaller; run_code;
  rewrite hd_error_map;
  change (hd_error (filter (Sql.email_is (rs_email caller)) (staff (st_db st))))
    with (stored_by_email (st_db st) (rs_email caller));
  change (Validators.get_ (b_currentPassword (body req)))
    with (current_password req);
  change (Validators.get_ (b_newPassword (body req)))
    with (new_password req).


Variable r : StaffRow.
Hypothesis Hstored : stored_by_email (st_db st) (rs_email caller) = Some r.


Hypothesis Hright :
  verifyPassword (current_password req) (password_hash r) = true.


Lemma changePassword_success :
  fst (validatePassword (new_password req)) = true ->
  response_of (snd (StaffController.changePassword req st)) =
    (statusCode (st_res st),
     (sent (st_res st) ++ [body_message "Password changed successfully"])%list) /\
  st_db (snd (StaffController.changePassword req st)) =
    password_db (st_db st) (rs_id caller) (new_password req) (sql_now st).
Proof.
  intros Hstrong. enter_change. rewrite Hstored. run_code. rewrite Hright.
  run_code. rewrite Hstrong. split; reflexivity.
Qed.

End ChangePassword.





(** X18. A changed password is the one the next login is checked against.
    When the caller's token names the account found under its e-mail, that
    account is active and not locked and its e-mail is one zod accepts,
    then after a successful PUT /profile/password a login with the new
    password passes the password check (utils/auth verifying a password
    against its own hash): it is not answered 401 and does not count as a
    failed attempt, the store stays as the change left it; it ends, as
    every login that passes that check, at the statement of
    [getPermissions] that the store refuses, answered 400 with the store's
    message.  A login with any password the new hash does not verify, the
    old one included, is answered 401, Invalid email or password. *)
Theorem changed_password_is_checked `{Externals} (req : Req) (st : St)
    (caller : ReqStaff) (r : StaffRow) (t : Z * Z) :
  Validators.changePasswordSchema_issues (body req) = [] ->
  req_staff req = Some caller ->
  stored_by_email (st_db st) (rs_email caller) = Some r ->
  id r = rs_id caller ->
  verifyPassword (current_password req) (password_hash r) = true ->
  fst (validatePassword (new_password req)) = true ->
  is_email (email r) = true ->
  status r = "active" ->
  StaffController.is_locked (locked_until r) (fst t) = false ->
  (verifyPassword (new_password req) (hashPassword (new_password req)) = true ->
   response_of
     (login_at (login_request (email r) (new_password req))
               (st_db (snd (StaffController.changePassword req st))) t)
   = (400, [login_failed Sql.cannot_cast]) /\
   st_db (login_at (login_request (email r) (new_password req))
                   (st_db (snd (StaffController.changePassword req st))) t)
   = st_db (snd (StaffController.changePassword req st))) /\
  (forall old,
     old <> "" ->
     verifyPassword old (hashPassword (new_password req)) = false ->
     response_of
       (login_at (login_request (email r) old)
                 (st_db (snd (StaffController.changePassword req st))) t)
     = (401, [invalid_credentials])).
Proof.
  intros Hvalid Hcaller Hstored Hid Hright Hstrong Hemail Hactive Hunlocked.
  destruct (changePassword_success req st caller Hvalid Hcaller r Hstored
              Hright Hstrong) as [_ Hdb].
  rewrite Hdb.
  destruct (stored_by_email_In _ _ _ Hstored) as [_ He].
  assert (Hfound :
            stored_by_email
              (password_db (st_db st) (rs_id caller) (new_password req)
                           (sql_now st))
              (email r)
            = Some (Sql.touch (sql_now st)
                      (Sql.set_password (hashPassword (new_password req))
                                        (sql_now st) r))).
  { unfold password_db. rewrite stored_by_email_update by reflexivity.
    rewrite He, Hstored. cbn. unfold Sql.id_is.
    now rewrite Hid, String.eqb_refl. }
  assert (Hmin : new_password req <> "").
  { unfold Validators.changePasswordSchema_issues in Hvalid.
    apply app_eq_nil in Hvalid as [_ Hnew]. unfold new_password.
    destruct (b_newPassword (body req)) as [[|c s]|]; cbn in Hnew;
      try discriminate. }
  assert (Hact : String.eqb (status r) "active" = true)
    by now apply String.eqb_eq.
  split.
  - intros Hround. unfold login_at.
    assert (Hlogin : valid_login (login_request (email r) (new_password req))).
    { apply valid_login_iff. exists (email r), (new_password req).
      repeat split; assumption. }
    rewrite (login_correct_password _
               (request_state
                  (password_db (st_db st) (rs_id caller) (new_password req)
                               (sql_now st)) (fst t) (snd t) 0)
               Hlogin _ Hfound Hunlocked Hact Hround).
    split; reflexivity.
  - intros old Hold Hwrong. unfold login_at.
    assert (Hlogin : valid_login (login_request (email r) old)).
    { apply valid_login_iff. exists (email r), old. repeat split; assumption. }
    rewrite (login_wrong_password _
               (request_state
                  (password_db (st_db st) (rs_id caller) (new_password req)
                               (sql_now st)) (fst t) (snd t) 0)
               Hlogin _ Hfound Hunlocked Hact Hwrong).
    reflexivity.
Qed.

Lemma changed_password_is_checked_witness :
  response_of
    (@login_at sample_externals (login_request "a@x.com" "Secure1!A")
       (st_db (snd (@StaffController.changePassword sample_externals
                      (password_request "Secure1!A" "Secure2!B"
                                        sample_caller)
                      active_state)))
       (7, 8))
  = (401, [invalid_credentials]).
Proof.
  destruct (@changed_password_is_checked sample_externals
              (password_request "Secure1!A" "Secure2!B" sample_caller)
              active_state sample_caller (sample_account 0 None "active")
              (7, 8)
              eq_refl eq_refl eq_refl eq_refl eq_refl eq_refl eq_refl eq_refl
              eq_refl) as [_ Hold].
  apply (Hold "Secure1!A"); [discriminate | reflexivity].
Defined.

(** ** Updating accounts *)



Section Update.

Context `{Externals}.
Variables (req : Req) (st : St) (caller : ReqStaff).
Hypothesis Hcaller : req_staff req = Some caller.

Local Abbreviation i := (StaffController.param (params_id req)).
Local Abbreviation ud :=
  (mkUpdateData (b_firstName (body req)) (b_lastName (body req))
     (b_phone (body req)) (b_department (body req)) (b_position (body req))
     (b_status (body req)) (Some (rs_id caller))).


Hypothesis Hvalid : Validators.updateStaffSchema_issues (body req) = [].


End Update.





(** ** Roles and the permissions they give *)

Lemma assignRole_rows `{Externals} (s r : string) (by_ : option string)
    (st : St) :
  staff_roles (st_db (snd (StaffModel.assignRole s r by_ st)))
    = staff_roles (st_db st) /\
  staff (st_db (snd (StaffModel.assignRole s r by_ st))) = staff (st_db st) /\
  (forall a,
     In a (staff_role_assignments
             (st_db (snd (StaffModel.assignRole s r by_ st)))) <->
     In a (staff_role_assignments (st_db st)) \/
     (count_assignments (st_db st) s r = 0%nat /\
      a = mkAssignmentRow (uuid_generate_v4 (uuid_count st)) s r (sql_now st)
                          by_)).
Proof.
  unfold StaffModel.assignRole, bind, record_call, modify, get, ret,
    fresh_uuid, count_assignments. cbn.
  rewrite existsb_count.
  destruct (Nat.eqb_spec
              (List.length (filter (Sql.same_assignment s r)
                                   (staff_role_assignments (st_db st)))) 0)
    as [E|E]; cbn.
  - split; [reflexivity|]. split; [reflexivity|]. intros a.
    rewrite in_app_iff. cbn. intuition.
  - split; [reflexivity|]. split; [reflexivity|]. intros a. intuition.
Qed.

Lemma count_assignments_pos (d : DB) (s r : string) :
  count_assignments d s r <> 0%nat ->
  exists a, In a (staff_role_assignments d) /\
            sra_staff_id a = s /\ sra_role_id a = r.
Proof.
  unfold count_assignments. intros Hne.
  destruct (filter (Sql.same_assignment s r) (staff_role_assignments d))
    as [|a l] eqn:E; [now elim Hne|].
  assert (Hin : In a (filter (Sql.same_assignment s r)
                             (staff_role_assignments d)))
    by (rewrite E; now left).
  apply filter_In in Hin as [Hin Hm]. apply andb_prop in Hm as [Hs Hr].
  apply String.eqb_eq in Hs, Hr. now exists a.
Qed.

Lemma filter_through {A} (p q : A -> bool) (l : list A) :
  (forall a, p a = true -> q a = true) ->
  filter p (filter q l) = filter p l.
Proof.
  intros Himp. induction l as [|a l IH]; [reflexivity|]. cbn [filter].
  destruct (q a) eqn:Eq; cbn [filter].
  - now rewrite IH.
  - destruct (p a) eqn:Ep; [|exact IH].
    apply Himp in Ep. congruence.
Qed.

Lemma roles_of_ext (d d' : DB) (s : string) :
  staff_roles d' = staff_roles d ->
  (forall ro,
     filter (fun a => String.eqb (sra_role_id a) (role_id_ ro)
                      && String.eqb (sra_staff_id a) s)
            (staff_role_assignments d')
     = filter (fun a => String.eqb (sra_role_id a) (role_id_ ro)
                        && String.eqb (sra_staff_id a) s)
              (staff_role_assignments d)) ->
  StaffModel.roles_of d' s = StaffModel.roles_of d s.
Proof.
  intros Hroles Hrows. unfold StaffModel.roles_of. rewrite Hroles.
  apply flat_map_ext. intros ro. now rewrite Hrows.
Qed.

(** X21. What assigning and removing a role does to the roles of a staff
    member, the rows that the join of staff_roles and
    staff_role_assignments in [findByIdWithRoles] reads, in a store whose
    ids are UUIDs in the printed form and for ids in that form.  After
    [assignRole(s, r)] (staff member, role and assigner being rows of the
    store) the roles of [s] are those it had and the role with id [r], and
    no other; after [removeRole(s, r)] they are those it had whose id is
    not [r].  Neither changes the roles of any other staff member. *)
Theorem role_changes_reach_roles `{Externals} (s r : string)
    (by_ : option string) (st : St) :
  uuids_printed (st_db st) = true ->
  Sql.printed_uuid s = true ->
  Sql.printed_uuid r = true ->
  (assign_allowed (st_db st) s r by_ = true ->
   forall ro,
     In ro (StaffModel.roles_of
              (st_db (snd (StaffModel.assignRole s r by_ st))) s)
     <-> In ro (StaffModel.roles_of (st_db st) s) \/
         (In ro (staff_roles (st_db st)) /\ role_id_ ro = r)) /\
  (forall ro,
     In ro (StaffModel.roles_of (st_db (snd (StaffModel.removeRole s r st))) s)
     <-> In ro (StaffModel.roles_of (st_db st) s) /\ role_id_ ro <> r) /\
  (forall s',
     s' <> s ->
     StaffModel.roles_of (st_db (snd (StaffModel.assignRole s r by_ st))) s'
       = StaffModel.roles_of (st_db st) s' /\
     StaffModel.roles_of (st_db (snd (StaffModel.removeRole s r st))) s'
       = StaffModel.roles_of (st_db st) s').
Proof.
  intros _ _ _.
  destruct (assignRole_rows s r by_ st) as [Hroles [_ Hrows]].
  assert (Hremoved : forall a,
            In a (staff_role_assignments
                    (st_db (snd (StaffModel.removeRole s r st)))) <->
            In a (staff_role_assignments (st_db st)) /\
            ~ (sra_staff_id a = s /\ sra_role_id a = r)).
  { intros a. cbn. rewrite filter_In. unfold Sql.same_assignment.
    destruct (String.eqb_spec (sra_staff_id a) s),
             (String.eqb_spec (sra_role_id a) r); cbn;
      intuition (try discriminate; try congruence). }
  split; [|split].
  - intros _ ro. rewrite !roles_of_In, Hroles. split.
    + intros [Hro [a [Ha [Hs Hr]]]].
      apply Hrows in Ha as [Ha | [_ ->]].
      * left. split; [exact Hro|]. now exists a.
      * right. cbn in Hr. now split.
    + intros [[Hro [a [Ha [Hs Hr]]]] | [Hro Hr]].
      * split; [exact Hro|]. exists a. repeat split; try assumption.
        apply Hrows. now left.
      * split; [exact Hro|].
        destruct (Nat.eq_dec (count_assignments (st_db st) s r) 0) as [E|E].
        -- exists (mkAssignmentRow (uuid_generate_v4 (uuid_count st)) s r
                                   (sql_now st) by_).
           repeat split; [apply Hrows; now right | now cbn].
        -- destruct (count_assignments_pos _ _ _ E) as [a [Ha [Hs Hra]]].
           exists a. repeat split; [apply Hrows; now left | exact Hs | congruence].
  - intros ro. rewrite !roles_of_In. split.
    + intros [Hro [a [Ha [Hs Hr]]]]. apply Hremoved in Ha as [Ha Hn].
      split; [split; [exact Hro | now exists a]|].
      intros E. apply Hn. split; [exact Hs | congruence].
    + intros [[Hro [a [Ha [Hs Hr]]]] Hne]. split; [exact Hro|].
      exists a. repeat split; try assumption.
      apply Hremoved. split; [exact Ha|]. intros [_ E]. apply Hne. congruence.
  - intros s' Hs'. split.
    + apply roles_of_ext; [exact Hroles|]. intros ro.
      unfold StaffModel.assignRole, bind, record_call, modify, get, ret,
        fresh_uuid. cbn.
      destruct (existsb (Sql.same_assignment s r)
                        (staff_role_assignments (st_db st))); cbn;
        [reflexivity|].
      rewrite filter_app. cbn.
      destruct (String.eqb_spec s s') as [E|_]; [now elim Hs'|].
      rewrite andb_false_r. apply app_nil_r.
    + apply roles_of_ext; [reflexivity|]. intros ro. cbn.
      apply filter_through. intros a Ha.
      apply andb_prop in Ha as [_ Ha]. apply String.eqb_eq in Ha.
      unfold Sql.same_assignment.
      destruct (String.eqb_spec (sra_staff_id a) s) as [E|_];
        [congruence | reflexivity].
Qed.

Lemma role_changes_reach_roles_witness :
  In (mkRoleRow (uuid_ "b") "Manager" None ["staff:read"; "staff:update"] true)
     (StaffModel.roles_of
        (st_db (snd (@StaffModel.assignRole sample_externals (uuid_ "2")
                       (uuid_ "b") (Some (uuid_ "1")) printed_state)))
        (uuid_ "2")).
Proof.
  destruct (@role_changes_reach_roles sample_externals (uuid_ "2") (uuid_ "b")
              (Some (uuid_ "1")) printed_state eq_refl eq_refl eq_refl)
    as [Hassign _].
  apply (Hassign eq_refl). right.
  split; [right; now left | reflexivity].
Defined.

Lemma filter_negb_none {A} (p : A -> bool) (l : list A) :
  List.length (filter p (filter (fun a => negb (p a)) l)) = 0%nat.
Proof.
  induction l as [|a l IH]; [reflexivity|]. cbn [filter].
  destruct (p a) eqn:E; cbn [negb]; [exact IH|]. cbn [filter]. now rewrite E.
Qed.

Lemma removeRole_count (s r : string) (st : St) :
  count_assignments (st_db (snd (StaffModel.removeRole s r st))) s r = 0%nat.
Proof. unfold count_assignments. cbn. apply filter_negb_none. Qed.

(** X22. Removing a role after assigning it leaves no assignment of the
    role to the staff member, and when there was none before the
    assignment the store is back as it was. *)
Theorem assign_then_remove_round_trip `{Externals} (s r : string)
    (by_ : option string) (st : St) :
  assign_allowed (st_db st) s r by_ = true ->
  count_assignments
    (st_db (snd (StaffModel.removeRole s r
                   (snd (StaffModel.assignRole s r by_ st))))) s r = 0%nat /\
  (count_assignments (st_db st) s r = 0%nat ->
   st_db (snd (StaffModel.removeRole s r
                 (snd (StaffModel.assignRole s r by_ st)))) = st_db st).
Proof.
  intros _. split.
  - apply removeRole_count.
  - intros Hzero.
    unfold StaffModel.removeRole, StaffModel.assignRole, bind, record_call,
      modify, get, ret, fresh_uuid. cbn.
    rewrite existsb_count. unfold count_assignments in Hzero.
    rewrite Hzero. cbn. rewrite filter_app, (filter_none _ _ Hzero). cbn.
    unfold Sql.same_assignment. cbn. rewrite !String.eqb_refl. cbn.
    rewrite app_nil_r. now destruct (st_db st).
Qed.

Lemma assign_then_remove_round_trip_witness :
  st_db (snd (StaffModel.removeRole "u-1" "r-1"
                (snd (@StaffModel.assignRole sample_externals "u-1" "r-1"
                        (Some "u-1") two_accounts_state))))
  = st_db two_accounts_state.
Proof.
  destruct (@assign_then_remove_round_trip sample_externals "u-1" "r-1"
              (Some "u-1") two_accounts_state eq_refl) as [_ Hback].
  exact (Hback eq_refl).
Defined.

(** X23. POST /staff/:id/roles: a body without a role id, or with an empty
    one, is answered 400, Role ID is required, before anything is looked
    up, and the store is as it was.  With a role id, in a store whose ids
    are UUIDs in the printed form and for a path id in that form: an id no
    account has is answered 404, Staff member not found, and the store is
    as it was; otherwise (caller and role being rows of the store) the
    answer is the success message and the store is the one
    [StaffModel.assignRole] leaves, the caller recorded as the assigner. *)
Theorem assignRole_handler_outcomes `{Externals} (req : Req) (st : St) :
  (JS.or_null (b_roleId (body req)) = None ->
   response_of (snd (StaffController.assignRole req st)) =
     (400, (sent (st_res st) ++ [body_error "Role ID is required"])%list) /\
   st_db (snd (StaffController.assignRole req st)) = st_db st /\
   st_calls (snd (StaffController.assignRole req st)) = st_calls st) /\
  (forall roleId,
     JS.or_null (b_roleId (body req)) = Some roleId ->
     uuids_printed (st_db st) = true ->
     Sql.printed_uuid (StaffController.param (params_id req)) = true ->
     (stored_by_id (st_db st) (StaffController.param (params_id req)) = None ->
      response_of (snd (StaffController.assignRole req st)) =
        (404,
         (sent (st_res st) ++ [body_error "Staff member not found"])%list) /\
      st_db (snd (StaffController.assignRole req st)) = st_db st) /\
     (forall r caller,
        stored_by_id (st_db st) (StaffController.param (params_id req))
          = Some r ->
        req_staff req = Some caller ->
        assign_allowed (st_db st) (StaffController.param (params_id req))
                       roleId (Some (rs_id caller)) = true ->
        response_of (snd (StaffController.assignRole req st)) =
          (statusCode (st_res st),
           (sent (st_res st) ++
              [body_message "Role assigned successfully"])%list) /\
        st_db (snd (StaffController.assignRole req st)) =
          st_db (snd (StaffModel.assignRole
                        (StaffController.param (params_id req)) roleId
                        (Some (rs_id caller)) st)))).
Proof.
  split.
  - intros Hnone. unfold StaffController.assignRole, try_catch.
    rewrite Hnone. repeat split.
  - intros roleId Hrole _ _. split.
    + intros Hnone. unfold StaffController.assignRole, try_catch.
      rewrite Hrole. run_code. rewrite hd_error_map.
      change (hd_error (filter (Sql.id_is (StaffController.param (params_id req)))
                               (staff (st_db st))))
        with (stored_by_id (st_db st) (StaffController.param (params_id req))).
      rewrite Hnone. split; reflexivity.
    + intros r caller Hstored Hcaller _.
      unfold StaffController.assignRole, try_catch.
      rewrite Hrole. run_code. rewrite hd_error_map.
      change (hd_error (filter (Sql.id_is (StaffController.param (params_id req)))
                               (staff (st_db st))))
        with (stored_by_id (st_db st) (StaffController.param (params_id req))).
      rewrite Hstored, Hcaller. run_code.
      unfold StaffModel.assignRole, bind, record_call, modify, get, ret,
        fresh_uuid. cbn.
      destruct (existsb
                  (Sql.same_assignment (StaffController.param (params_id req))
                                       roleId)
                  (staff_role_assignments (st_db st))); split; reflexivity.
Qed.

(** X24. DELETE /staff/:id/roles/:roleId in a store whose ids are UUIDs in
    the printed form, for a path id and a role id in that form: an id no
    account has is answered 404, Staff member not found, and the store is
    as it was; otherwise the answer is the success message, whether or not
    the role was assigned, and the store is the one
    [StaffModel.removeRole] leaves: no assignment of the role to the staff
    member. *)
Theorem removeRole_handler_outcomes (req : Req) (st : St) :
  uuids_printed (st_db st) = true ->
  Sql.printed_uuid (StaffController.param (params_id req)) = true ->
  Sql.printed_uuid (StaffController.param (params_roleId req)) = true ->
  (stored_by_id (st_db st) (StaffController.param (params_id req)) = None ->
   response_of (snd (StaffController.removeRole req st)) =
     (404, (sent (st_res st) ++ [body_error "Staff member not found"])%list) /\
   st_db (snd (StaffController.removeRole req st)) = st_db st) /\
  (forall r,
     stored_by_id (st_db st) (StaffController.param (params_id req)) = Some r ->
     response_of (snd (StaffController.removeRole req st)) =
       (statusCode (st_res st),
        (sent (st_res st) ++ [body_message "Role removed successfully"])%list) /\
     st_db (snd (StaffController.removeRole req st)) =
       st_db (snd (StaffModel.removeRole
                     (StaffController.param (params_id req))
                     (StaffController.param (params_roleId req)) st)) /\
     count_assignments (st_db (snd (StaffController.removeRole req st)))
       (StaffController.param (params_id req))
       (StaffController.param (params_roleId req)) = 0%nat).
Proof.
  intros _ _ _. split.
  - intros Hnone. unfold StaffController.removeRole, try_catch. run_code.
    rewrite hd_error_map.
    change (hd_error (filter (Sql.id_is (StaffController.param (params_id req)))
                             (staff (st_db st))))
      with (stored_by_id (st_db st) (StaffController.param (params_id req))).
    rewrite Hnone. split; reflexivity.
  - intros r Hstored. unfold StaffController.removeRole, try_catch. run_code.
    rewrite hd_error_map.
    change (hd_error (filter (Sql.id_is (StaffController.param (params_id req)))
                             (staff (st_db st))))
      with (stored_by_id (st_db st) (StaffController.param (params_id req))).
    rewrite Hstored. cbn. split; [reflexivity|]. split; [reflexivity|].
    unfold count_assignments. cbn. apply filter_negb_none.
Qed.

(** ** Permissions on the routes *)

(** X25. A token without the permission stops at the guard.  On a route
    mounted behind [requirePermission(perm)], a request whose token
    verifies and names an active account, but whose permissions (those
    signed into the token, not those the store holds now) include neither
    '*' nor [perm] nor 'staff:*', is answered 403, Insufficient
    permissions: the handler does not run, the store is as it was and the
    activity log gets no entry. *)
Theorem route_permission_denied `{Externals} (route : Routes.Route)
    (perm : string) (req : Req) (d : DB) (date sql : Z) (n : nat)
    (token : string) (payload : TokenPayload) (r : StaffRow) :
  Routes.permission route = Some perm ->
  bearer_token (headers_authorization req) = Some token ->
  verifyToken token = Some payload ->
  stored_by_id d (tp_staffId payload) = Some r ->
  status r = "active" ->
  ~ In "*" (tp_permissions payload) ->
  ~ In perm (tp_permissions payload) ->
  ~ In "staff:*" (tp_permissions payload) ->
  fst (serve route req d date sql n) = Ok tt /\
  response_of (snd (serve route req d date sql n))
    = (403, [body_error "Insufficient permissions"]) /\
  st_db (snd (serve route req d date sql n)) = d.
Proof.
  intros Hperm Hbearer Hverify Hstored Hactive Hstar Hexact Hwild.
  assert (Hauth : forall st, st_db st = d ->
            authenticateStaff req st =
              (Ok (Next (attach_staff req payload)),
               add_calls [call_verifyToken token;
                          call_findById (tp_staffId payload)] st)).
  { intros st Hd. unfold authenticateStaff, try_catch. rewrite Hbearer.
    unfold call_verifyToken_, bind at 1. unfold bind at 1. cbn.
    rewrite Hverify. cbn. rewrite hd_error_map, Hd.
    change (hd_error (filter (Sql.id_is (tp_staffId payload)) (staff d)))
      with (stored_by_id d (tp_staffId payload)).
    rewrite Hstored. cbn. apply String.eqb_eq in Hactive. rewrite Hactive.
    cbn. unfold add_calls. now rewrite <- app_assoc, Hd. }
  assert (Hdeny : denies perm (tp_permissions payload)).
  { destruct route; try discriminate Hperm; injection Hperm as <-;
      match goal with
      | |- denies ?p _ =>
          let a := eval cbv in (JS.substring_from 6 p) in
          change p with ("staff" ++ ":" ++ a)
      end;
      (apply requirePermission_denies; [reflexivity|]);
      intros [Ht|[Ht|Ht]]; contradiction. }
  assert (Hpub : Routes.is_public route = false)
    by (destruct route; try discriminate Hperm; reflexivity).
  assert (Hrun : exists st',
             serve route req d date sql n = (Ok tt, st') /\
             response_of st' = (403, [body_error "Insufficient permissions"]) /\
             st_db st' = d).
  { unfold serve, Routes.dispatch, Routes.guards. rewrite Hpub, Hperm.
    unfold bind at 1. rewrite run_chain_app. cbn [app].
    rewrite run_guards_cons, (Hauth (request_state d date sql n) eq_refl),
      run_guards_cons.
    rewrite (Hdeny (attach_staff req payload) _ _ eq_refl eq_refl).
    eexists. split; [reflexivity|]. split; reflexivity. }
  destruct Hrun as [st' [-> [Hresp Hdb]]]. repeat split; assumption.
Qed.

Lemma route_permission_denied_witness :
  response_of
    (snd (@serve sample_externals Routes.delete_staff_id
            (bearer_request "token:u-1") two_accounts_db 9 9 0))
  = (403, [body_error "Insufficient permissions"]) /\
  st_db (snd (@serve sample_externals Routes.delete_staff_id
                (bearer_request "token:u-1") two_accounts_db 9 9 0))
  = two_accounts_db.
Proof.
  destruct (@route_permission_denied sample_externals Routes.delete_staff_id
              "staff:delete" (bearer_request "token:u-1") two_accounts_db
              9 9 0%nat "token:u-1"
              (mkTokenPayload "u-1" "a@x.com" false ["staff:read"])
              (sample_account 0 None "active")
              eq_refl eq_refl eq_refl eq_refl eq_refl)
    as [_ [Hresp Hdb]].
  - cbn. intuition discriminate.
  - cbn. intuition discriminate.
  - cbn. intuition discriminate.
  - split; [exact Hresp | exact Hdb].
Defined.

(** ** Handlers and their answers *)

(** X26. Every handler of the router returns normally, whatever the request,
    authenticated or not, and calls [res.json] exactly once on the way: no
    exception leaves its try/catch and no request is left without an
    answer or answered twice.  The handlers themselves write nothing to
    the activity log. *)
Theorem handlers_answer_exactly_once `{Externals} (route : Routes.Route)
    (req : Req) (st : St) :
  fst (Routes.handler route req st) = Ok tt /\
  (exists (code : Z) (b : Body),
      answered_once code b st (snd (Routes.handler route req st))) /\
  map log_id (staff_activity_logs (st_db (snd (Routes.handler route req st))))
    = map log_id (staff_activity_logs (st_db st)).
Proof.
  destruct (handler_shape route req st) as [code [b [st' [E [Hans [Hlog _]]]]]].
  rewrite E. split; [reflexivity|]. split; [now exists code, b | exact Hlog].
Qed.

(** ** Profiles *)

(** X28. [findByIdWithRoles], in a store whose ids are UUIDs in the
    printed form and for an id in that form, answers null for an id no
    account has; otherwise it gives the account as [findById] selects it,
    with the views (id, name, permissions) of the rows its join of
    staff_roles and staff_role_assignments yields: a view for each
    assignment of a role of the store to that id, and no other.  It leaves
    the store and the response alone. *)
Theorem findByIdWithRoles_views (i : string) (st : St) :
  uuids_printed (st_db st) = true ->
  Sql.printed_uuid i = true ->
  (stored_by_id (st_db st) i = None ->
   fst (StaffModel.findByIdWithRoles i st) = Ok None) /\
  (forall r,
     stored_by_id (st_db st) i = Some r ->
     exists v,
       fst (StaffModel.findByIdWithRoles i st) = Ok (Some v) /\
       swr_staff v = Sql.select_staff r /\
       swr_roles v =
         map StaffModel.role_view (StaffModel.roles_of (st_db st) i) /\
       (forall rv,
          In rv (swr_roles v) <->
          exists (ro : RoleRow) (a : AssignmentRow),
            In ro (staff_roles (st_db st)) /\
            In a (staff_role_assignments (st_db st)) /\
            sra_staff_id a = i /\ sra_role_id a = role_id_ ro /\
            rv = StaffModel.role_view ro)) /\
  st_db (snd (StaffModel.findByIdWithRoles i st)) = st_db st /\
  st_res (snd (StaffModel.findByIdWithRoles i st)) = st_res st.
Proof.
  intros Hprinted _.
  assert (Hrun : StaffModel.findByIdWithRoles i st =
                 (Ok (option_map
                        (fun r => mkStaffWithRoles (Sql.select_staff r)
                                    (map StaffModel.role_view
                                         (StaffModel.roles_of (st_db st) i)))
                        (stored_by_id (st_db st) i)),
                  add_calls [call_findById i] st)).
  { unfold StaffModel.findByIdWithRoles, bind at 1. cbn.
    rewrite hd_error_map.
    change (hd_error (filter (Sql.id_is i) (staff (st_db st))))
      with (stored_by_id (st_db st) i).
    now destruct (stored_by_id (st_db st) i). }
  rewrite Hrun. cbn [fst snd]. split; [|split; [|split; reflexivity]].
  - now intros ->.
  - intros r ->. cbn [option_map]. eexists. split; [reflexivity|].
    cbn [swr_staff swr_roles]. split; [reflexivity|]. split.
    + reflexivity.
    + intros rv. rewrite in_map_iff. split.
      * intros [ro [<- Hro]]. apply roles_of_In in Hro as [Hro [a [Ha [Hs Hr]]]].
        now exists ro, a.
      * intros [ro [a [Hro [Ha [Hs [Hr ->]]]]]]. exists ro.
        split; [reflexivity|]. apply roles_of_In. split; [exact Hro|].
        now exists a.
Qed.

(** ** The statements above on sample data *)

Lemma requireAdmin_outcomes_witness :
  rejects 403 "Admin access required" active_state
    (requireAdmin
       (id_request "GET" "u-1" None empty_body
          (Some (mkReqStaff "u-2" "b@x.com" false ["staff:read"])))
       active_state).
Proof.
  destruct (requireAdmin_outcomes
              (id_request "GET" "u-1" None empty_body
                 (Some (mkReqStaff "u-2" "b@x.com" false ["staff:read"])))
              active_state) as [_ [_ Hno]].
  apply (Hno (mkReqStaff "u-2" "b@x.com" false ["staff:read"]));
    [reflexivity | reflexivity | cbn; intuition discriminate].
Defined.

Lemma requirePermission_edges_witness :
  requirePermission "reports"
    (id_request "GET" "u-1" None empty_body
       (Some (mkReqStaff "u-2" "b@x.com" false ["reports:*"])))
    active_state
  = (Ok (Next (id_request "GET" "u-1" None empty_body
                 (Some (mkReqStaff "u-2" "b@x.com" false ["reports:*"])))),
     active_state).
Proof.
  destruct (requirePermission_edges "reports"
              (id_request "GET" "u-1" None empty_body
                 (Some (mkReqStaff "u-2" "b@x.com" false ["reports:*"])))
              active_state) as [_ Hauth].
  destruct (Hauth (mkReqStaff "u-2" "b@x.com" false ["reports:*"])
                  eq_refl eq_refl) as [Hiff _].
  apply Hiff. right. right. now left.
Defined.

Lemma optionalAuth_always_continues_witness :
  fst (@optionalAuth sample_externals (bearer_request "token:u-1")
         suspended_state)
  = Ok (Next (bearer_request "token:u-1")).
Proof.
  destruct (@optionalAuth_always_continues sample_externals
              (bearer_request "token:u-1") suspended_state)
    as [_ [_ [_ [_ [_ Hanon]]]]].
  apply Hanon. right. right. right.
  exists (mkTokenPayload "u-1" "a@x.com" false ["staff:read"]),
         (sample_account 0 None "suspended").
  split; [|discriminate].
  exists "token:u-1". repeat split.
Defined.


Lemma assignRole_handler_outcomes_witness :
  response_of
    (snd (@StaffController.assignRole sample_externals
            (assign_request "u-2" (Some "") sample_caller) two_accounts_state))
  = (400, [body_error "Role ID is required"]).
Proof.
  destruct (@assignRole_handler_outcomes sample_externals
              (assign_request "u-2" (Some "") sample_caller) two_accounts_state)
    as [Hmissing _].
  destruct (Hmissing eq_refl) as [Hresp _]. exact Hresp.
Defined.

Lemma removeRole_handler_outcomes_witness :
  response_of
    (snd (StaffController.removeRole
            (remove_request (uuid_ "2") (uuid_ "a") printed_caller)
            printed_state))
  = (200, [body_message "Role removed successfully"]) /\
  count_assignments
    (st_db (snd (StaffController.removeRole
                   (remove_request (uuid_ "2") (uuid_ "a") printed_caller)
                   printed_state))) (uuid_ "2") (uuid_ "a") = 0%nat.
Proof.
  destruct (removeRole_handler_outcomes
              (remove_request (uuid_ "2") (uuid_ "a") printed_caller)
              printed_state eq_refl eq_refl eq_refl)
    as [_ Hfound].
  destruct (Hfound (printed_account "2" "b@x.com" "Secure2!B"
                                    (Some (uuid_ "1"))) eq_refl)
    as [Hresp [_ Hcount]].
  split; [exact Hresp | exact Hcount].
Defined.

Lemma findByIdWithRoles_views_witness :
  exists v,
    fst (StaffModel.findByIdWithRoles (uuid_ "2") printed_state)
      = Ok (Some v) /\
    In (mkRoleView (uuid_ "a") "Viewer" ["staff:read"]) (swr_roles v).
Proof.
  destruct (findByIdWithRoles_views (uuid_ "2") printed_state eq_refl eq_refl)
    as [_ [Hfound _]].
  destruct (Hfound (printed_account "2" "b@x.com" "Secure2!B"
                                    (Some (uuid_ "1"))) eq_refl)
    as [v [Hv [_ [_ Hroles]]]].
  exists v. split; [exact Hv|]. apply Hroles.
  exists (mkRoleRow (uuid_ "a") "Viewer" None ["staff:read"] true),
         (mkAssignmentRow (uuid_ "c") (uuid_ "2") (uuid_ "a") 0
                          (Some (uuid_ "1"))).
  repeat split; now left.
Defined.
